(** * ValidationEngine (validation-framework/src/validation-engine.js)

    A shallow embedding of the rule-driven validation engine and the
    properties its specification states about it.

    Layout:
    - [JSString], [JSNumber], [JS]: the fragment of ECMAScript the engine
      relies on (strings, IEEE-754 binary64 numbers, primitive values and
      the operators [===], [==], [<], [||], [String()], [Number()]);
    - [Host]: the built-ins whose behaviour is large or partly
      implementation-defined ([RegExp], [Date.parse], [URL]); the engine
      is written against this interface;
    - [Engine]: the methods of [class ValidationEngine], one definition per
      method, under the method's name;
    - [RefHost]: one concrete host, used to run the engine on examples;
    - [Spec]: the validators as the specification words them;
    - [Examples]: the rules and records of the examples;
    - [Outline]: the results of a run as a function of the rules and the
      record, without the engine's state;
    - [Server]: the handler of [POST /validate]
      (validation-framework/src/index.js);
    - the properties, validator by validator, then those of a whole run
      and of the endpoint.

    Conventions of the embedding:
    - a JavaScript string is a [string] whose characters are the code
      units U+0000..U+00FF;
    - a number is a [spec_float] at precision 53 and exponent bound 1024;
    - a record (the "dataset") is the list of its own enumerable
      properties in property order; field values are primitives;
    - a thrown exception is the [Throw] outcome of a [completion]. *)

From Stdlib Require Import ZArith List String Ascii Bool Lia DecimalString.
From Stdlib Require Import SpecFloat Permutation.
Import ListNotations.

Set Implicit Arguments.

(* ================================================================== *)
(** ** Strings *)

Module JSString.
Open Scope string_scope.

(** WhiteSpace and LineTerminator code units below U+0100: TAB, LF, VT,
    FF, CR, SP and NBSP.  [String.prototype.trim] and the numeric
    conversion of strings both strip exactly these. *)
Definition is_white_space (c : ascii) : bool :=
  let n := nat_of_ascii c in
  ((9 <=? n) && (n <=? 13) || (n =? 32) || (n =? 160))%nat.

Fixpoint rev_append (s acc : string) : string :=
  match s with
  | EmptyString => acc
  | String c r => rev_append r (String c acc)
  end.

Definition rev (s : string) : string := rev_append s EmptyString.

Fixpoint trimStart (s : string) : string :=
  match s with
  | EmptyString => EmptyString
  | String c r => if is_white_space c then trimStart r else s
  end.

Definition trimEnd (s : string) : string := rev (trimStart (rev s)).

(** [s.trim()] *)
Definition trim (s : string) : string := trimEnd (trimStart s).

(** [s.startsWith(p)] *)
Definition startsWith (s p : string) : bool := prefix p s.

(** [s.endsWith(p)] *)
Definition endsWith (s p : string) : bool := prefix (rev p) (rev s).

(** [s.includes(p)] *)
Fixpoint includes (s p : string) : bool :=
  prefix p s ||
  match s with
  | EmptyString => false
  | String _ r => includes r p
  end.

(** [s.substring(from, to)] for [from <= to]. *)
Definition substring (s : string) (from to : nat) : string :=
  String.substring from (to - from) s.

(** [s.split(sep)] for a non-empty separator: [cur] is the current
    piece, reversed; [skip] counts the separator characters still to be
    dropped after a match. *)
Fixpoint split_from (sep s cur : string) (skip : nat) : list string :=
  match s with
  | EmptyString => [rev cur]
  | String c r =>
      match skip with
      | S k => split_from sep r cur k
      | O =>
          if prefix sep s
          then rev cur :: split_from sep r EmptyString (String.length sep - 1)
          else split_from sep r (String c cur) O
      end
  end.

Definition split (s sep : string) : list string :=
  split_from sep s EmptyString O.

(** [s.replace(/\*/g, '.*')] *)
Fixpoint replace_stars (s : string) : string :=
  match s with
  | EmptyString => EmptyString
  | String c r =>
      if Ascii.eqb c "*"%char then ".*" ++ replace_stars r
      else String c (replace_stars r)
  end.

Definition zeros (n : nat) : string :=
  string_of_list_ascii (repeat "0"%char n).

(** Decimal digits of a non-negative integer. *)
Definition of_Z (z : Z) : string :=
  NilZero.string_of_uint (N.to_uint (Z.to_N z)).

End JSString.

(* ================================================================== *)
(** ** Numbers *)

Module JSNumber.
Open Scope Z_scope.

(** The Number type: IEEE-754 binary64. *)
Definition number : Type := spec_float.
Definition prec : Z := 53.
Definition emax : Z := 1024.

Definition NaN : number := S754_nan.
Definition of_Z (z : Z) : number := binary_normalize prec emax z 0 false.
Definition of_nat (n : nat) : number := of_Z (Z.of_nat n).

Definition isNaN (x : number) : bool :=
  match x with S754_nan => true | _ => false end.

Definition eqb : number -> number -> bool := SFeqb.
Definition ltb : number -> number -> bool := SFltb.
Definition leb : number -> number -> bool := SFleb.
Definition add : number -> number -> number := SFadd prec emax.

(** The number nearest to [M * 10^E], ties to even. *)
Definition of_decimal (neg : bool) (M E : Z) : number :=
  match M with
  | Z0 => S754_zero neg
  | Zpos _ =>
      if 0 <=? E
      then binary_round prec emax neg (Z.to_pos (M * 10 ^ E)) 0
      else
        let '(q, e, l) := SFdiv_core_binary prec emax M 0 (10 ^ (- E)) 0 in
        binary_round_aux prec emax neg q e l
  | Zneg _ => NaN
  end.

(** *** StringToNumber *)

Definition digit_val (c : ascii) : option Z :=
  let n := Z.of_nat (nat_of_ascii c) in
  if (48 <=? n) && (n <=? 57) then Some (n - 48)
  else if (97 <=? n) && (n <=? 102) then Some (n - 87)
  else if (65 <=? n) && (n <=? 70) then Some (n - 55)
  else None.

(** The longest run of decimal digits at the head of [s]: its value on
    top of [acc], the number of digits read on top of [cnt], the rest. *)
Fixpoint read_digits (s : string) (acc cnt : Z) : Z * Z * string :=
  match s with
  | EmptyString => (acc, cnt, s)
  | String c r =>
      match digit_val c with
      | Some d => if d <? 10 then read_digits r (10 * acc + d) (cnt + 1)
                  else (acc, cnt, s)
      | None => (acc, cnt, s)
      end
  end.

(** ExponentPart(opt) followed by the end of the string. *)
Definition read_exponent (s : string) : option Z :=
  match s with
  | EmptyString => Some 0
  | String c r =>
      if Ascii.eqb c "e" || Ascii.eqb c "E" then
        let '(sgn, r') :=
          match r with
          | String "+" t => (1, t)
          | String "-" t => (-1, t)
          | _ => (1, r)
          end in
        let '(v, cnt, rest) := read_digits r' 0 0 in
        match rest with
        | EmptyString => if 0 <? cnt then Some (sgn * v) else None
        | _ => None
        end
      else None
  end.

Definition StrUnsignedDecimalLiteral (neg : bool) (s : string) : number :=
  if String.eqb s "Infinity" then S754_infinity neg
  else
    let '(i, ni, r1) := read_digits s 0 0 in
    let '(m, nf, r2) :=
      match r1 with
      | String "." t => read_digits t i 0
      | _ => (i, 0, r1)
      end in
    if 0 <? ni + nf then
      match read_exponent r2 with
      | Some e => of_decimal neg m (e - nf)
      | None => NaN
      end
    else NaN.

(** Digits of a [0x], [0o] or [0b] literal; at least one is required. *)
Fixpoint read_radix (radix : Z) (s : string) (acc : Z) : option Z :=
  match s with
  | EmptyString => Some acc
  | String c r =>
      match digit_val c with
      | Some d => if d <? radix then read_radix radix r (radix * acc + d)
                  else None
      | None => None
      end
  end.

Definition NonDecimalIntegerLiteral (radix : Z) (s : string) : number :=
  match s with
  | EmptyString => NaN
  | _ => match read_radix radix s 0 with
         | Some v => of_Z v
         | None => NaN
         end
  end.

(** [Number(s)] for a string [s]. *)
Definition of_string (s : string) : number :=
  match JSString.trim s with
  | EmptyString => S754_zero false
  | String "0" (String "x" r) | String "0" (String "X" r) =>
      NonDecimalIntegerLiteral 16 r
  | String "0" (String "o" r) | String "0" (String "O" r) =>
      NonDecimalIntegerLiteral 8 r
  | String "0" (String "b" r) | String "0" (String "B" r) =>
      NonDecimalIntegerLiteral 2 r
  | String "+" r => StrUnsignedDecimalLiteral false r
  | String "-" r => StrUnsignedDecimalLiteral true r
  | t => StrUnsignedDecimalLiteral false t
  end.

(** *** Number::toString (radix 10)

    For a positive finite [x = m * 2^e], kept as the fraction [a/b]:
    [n] is the decimal exponent ([10^(n-1) <= x < 10^n]); the digits are
    the shortest [s] (of [k] digits) such that [s * 10^(n-k)] reads back
    as [x], and among the two neighbours of that length the closer one. *)

Definition ratio (m : positive) (e : Z) : Z * Z :=
  if 0 <=? e then (Zpos m * 2 ^ e, 1) else (Zpos m, 2 ^ (- e)).

Definition scale10 (q : Z * Z) (p : Z) : Z * Z :=
  let '(a, b) := q in
  if 0 <=? p then (a * 10 ^ p, b) else (a, b * 10 ^ (- p)).

(** [x < 10^j] *)
Definition lt_pow10 (q : Z * Z) (j : Z) : bool :=
  let '(a, b) := scale10 q (- j) in a <? b.

Fixpoint find_exp10 (fuel : nat) (q : Z * Z) (j : Z) : Z :=
  match fuel with
  | O => j
  | S f => if lt_pow10 q j then j else find_exp10 f q (j + 1)
  end.

(** [2^(bits-1) <= x], hence the search starts below [n]; it ends
    within four steps, since [x < 2^bits]. *)
Definition exp10 (m : positive) (e : Z) : Z :=
  let bits := Z.log2 (Zpos m) + 1 + e in
  find_exp10 8 (ratio m e) ((bits - 1) * 30103 / 100000 - 1).

Definition reads_back (m : positive) (e : Z) (s p : Z) : bool :=
  match of_decimal false s p with
  | S754_finite _ m' e' => Pos.eqb m m' && (e =? e')
  | _ => false
  end.

(** The [k]-digit candidate for [x], if one reads back as [x]. *)
Definition candidate (m : positive) (e : Z) (n k : Z) : option Z :=
  let '(a, b) := scale10 (ratio m e) (k - n) in
  let lo := a / b in
  let hi := lo + 1 in
  let lo_ok := reads_back m e lo (n - k) in
  let hi_ok := reads_back m e hi (n - k) in
  let d_lo := a - lo * b in
  let d_hi := hi * b - a in
  if lo_ok && (negb hi_ok || (d_lo <? d_hi) || ((d_lo =? d_hi) && Z.even lo))
  then Some lo
  else if hi_ok then Some hi else None.

(** Result: digits [s], their number [k], decimal exponent [n]. *)
Fixpoint shortest (fuel : nat) (m : positive) (e : Z) (n k : Z)
  : Z * Z * Z :=
  match candidate m e n k, fuel with
  | Some s, _ => if s =? 10 ^ k then (10 ^ (k - 1), k, n + 1) else (s, k, n)
  | None, S f => shortest f m e n (k + 1)
  | None, O => (fst (scale10 (ratio m e) (k - n)) /
                snd (scale10 (ratio m e) (k - n)), k, n)
  end.

Definition format_digits (s k n : Z) : string :=
  let d := JSString.of_Z s in
  let sub i j := JSString.substring d (Z.to_nat i) (Z.to_nat j) in
  let zeros i := JSString.zeros (Z.to_nat i) in
  let sign := if 0 <=? n - 1 then "+"%string else "-"%string in
  let expo := ("e" ++ sign ++ JSString.of_Z (Z.abs (n - 1)))%string in
  if (k <=? n) && (n <=? 21) then (d ++ zeros (n - k))%string
  else if (0 <? n) && (n <=? 21) then (sub 0 n ++ "." ++ sub n k)%string
  else if (-6 <? n) && (n <=? 0) then ("0." ++ zeros (- n) ++ d)%string
  else if k =? 1 then (d ++ expo)%string
  else (sub 0 1 ++ "." ++ sub 1 k ++ expo)%string.

(** [String(x)] for a number [x]. *)
Definition to_string (x : number) : string :=
  match x with
  | S754_nan => "NaN"
  | S754_zero _ => "0"
  | S754_infinity s => if s then "-Infinity" else "Infinity"
  | S754_finite sg m e =>
      let '(s, k, n) := shortest 16 m e (exp10 m e) 1 in
      ((if sg then "-" else "") ++ format_digits s k n)%string
  end.

End JSNumber.

(* ================================================================== *)
(** ** Primitive values and operators *)

Module JS.
Import JSNumber.
Open Scope string_scope.

Inductive value : Type :=
| VUndefined
| VNull
| VBool (b : bool)
| VNum (x : number)
| VStr (s : string).

Inductive error : Type :=
| SyntaxError (message : string)
| TypeError (message : string).

(** [e.message] *)
Definition error_message (e : error) : string :=
  match e with SyntaxError m | TypeError m => m end.

(** The outcome of running a piece of code: a value or an exception. *)
Inductive completion (A : Type) : Type :=
| Normal (a : A)
| Throw (e : error).
Arguments Normal {A} a.
Arguments Throw {A} e.

Definition bind {A B} (c : completion A) (k : A -> completion B)
  : completion B :=
  match c with
  | Normal a => k a
  | Throw e => Throw e
  end.

Definition typeof (v : value) : string :=
  match v with
  | VUndefined => "undefined"
  | VNull => "object"
  | VBool _ => "boolean"
  | VNum _ => "number"
  | VStr _ => "string"
  end.

(** Truthiness, as tested by [if (v)], [!v] and [v || w]. *)
Definition ToBoolean (v : value) : bool :=
  match v with
  | VUndefined | VNull => false
  | VBool b => b
  | VNum (S754_nan | S754_zero _) => false
  | VNum _ => true
  | VStr s => negb (String.eqb s "")
  end.

(** [Number(v)] *)
Definition ToNumber (v : value) : number :=
  match v with
  | VUndefined => NaN
  | VNull => S754_zero false
  | VBool b => if b then of_Z 1 else S754_zero false
  | VNum x => x
  | VStr s => of_string s
  end.

(** [String(v)], also the conversion of [${v}] in a template. *)
Definition ToString (v : value) : string :=
  match v with
  | VUndefined => "undefined"
  | VNull => "null"
  | VBool b => if b then "true" else "false"
  | VNum x => to_string x
  | VStr s => s
  end.

(** [a === b] *)
Definition strict_equals (a b : value) : bool :=
  match a, b with
  | VUndefined, VUndefined | VNull, VNull => true
  | VBool x, VBool y => Bool.eqb x y
  | VNum x, VNum y => eqb x y
  | VStr s, VStr t => String.eqb s t
  | _, _ => false
  end.

(** [a == b]: [null] and [undefined] equal each other only; operands of
    one type compare strictly; otherwise both are converted to numbers
    (string against number directly, a boolean after its own
    conversion). *)
Definition loose_equals (a b : value) : bool :=
  match a, b with
  | (VUndefined | VNull), (VUndefined | VNull) => true
  | (VUndefined | VNull), _ | _, (VUndefined | VNull) => false
  | VBool x, VBool y => Bool.eqb x y
  | VStr s, VStr t => String.eqb s t
  | _, _ => eqb (ToNumber a) (ToNumber b)
  end.

(** [a < b]: two strings compare by code units, anything else as
    numbers; a comparison with NaN is false. *)
Definition less_than (a b : value) : bool :=
  match a, b with
  | VStr s, VStr t => String.ltb s t
  | _, _ => ltb (ToNumber a) (ToNumber b)
  end.

(** [a > b] *)
Definition greater_than (a b : value) : bool := less_than b a.

(** [a <= b] *)
Definition less_equal (a b : value) : bool :=
  match a, b with
  | VStr s, VStr t => negb (String.ltb t s)
  | _, _ => leb (ToNumber a) (ToNumber b)
  end.

(** [a >= b] *)
Definition greater_equal (a b : value) : bool := less_equal b a.

(** [a || b] *)
Definition or_else (a b : value) : value := if ToBoolean a then a else b.

(** *** Plain objects holding primitives *)

(** Own enumerable properties, in the order in which [Object.keys] and
    [for ... in] enumerate them (for an object read from JSON text:
    the names that are array indices first, ascending, then the other
    names as written). *)
Definition object : Type := list (string * value).

Fixpoint own (o : object) (key : string) : option value :=
  match o with
  | [] => None
  | (k, v) :: rest => if String.eqb k key then Some v else own rest key
  end.

(** [o[key]], read on [o] itself: the own property, [undefined] without
    one.  This is what the code reads whenever [reads_own o key] holds
    (below); the statements about a name taken from a rule's
    configuration carry that condition where their truth depends on
    it. *)
Definition get (o : object) (key : string) : value :=
  match own o key with
  | Some v => v
  | None => VUndefined
  end.

(** The property names that [Object.prototype] defines (ECMAScript,
    "Properties of the Object Prototype Object").  Under one of
    these names, an object without an own property of that name yields
    the inherited member (a function, or the prototype itself for
    [__proto__]) instead of [undefined]; such members are not values of
    this embedding. *)
Definition prototype_names : list string :=
  ["constructor"; "hasOwnProperty"; "isPrototypeOf"; "propertyIsEnumerable";
   "toLocaleString"; "toString"; "valueOf"; "__proto__";
   "__defineGetter__"; "__defineSetter__";
   "__lookupGetter__"; "__lookupSetter__"].

(** [o[key]] is found on [o] itself or nowhere: [o] has the key, or the
    key is no member of [Object.prototype].  Then [get o key] is
    [o[key]]. *)
Definition reads_own (o : object) (key : string) : bool :=
  match own o key with
  | Some _ => true
  | None => negb (existsb (String.eqb key) prototype_names)
  end.

(** [Object.keys(o)], also the order in which [for (k in o)] runs. *)
Definition keys (o : object) : list string := map fst o.

(** [o.hasOwnProperty(key)]: the method is looked up on [o] itself
    first; an own field of that name holds a primitive, and calling a
    primitive throws.  Otherwise the inherited method answers. *)
Definition hasOwnProperty (o : object) (key : string) : completion bool :=
  match own o "hasOwnProperty" with
  | Some _ => Throw (TypeError "dataset.hasOwnProperty is not a function")
  | None =>
      Normal (match own o key with Some _ => true | None => false end)
  end.

End JS.

(* ================================================================== *)
(** ** Host built-ins *)

Module Host.
Import JS.

(** [RegExp_new source flags] is [new RegExp(source, flags)], which
    throws a [SyntaxError] on a malformed pattern; [RegExp_test] is
    [regex.test(s)].  [Date_parse s] is the time value of
    [new Date(s)], NaN for an invalid date.  [URL_new s] is
    [new URL(s)], which throws a [TypeError] on an invalid URL. *)
Record t : Type := {
  RegExp : Type;
  RegExp_new : string -> string -> completion RegExp;
  RegExp_test : RegExp -> string -> bool;
  Date_parse : string -> JSNumber.number;
  URL_new : string -> completion unit
}.
End Host.

(* ================================================================== *)
(** ** The engine *)

Module Engine.
Import JSNumber JS.
Open Scope string_scope.

(** [configuration.targetCondition] of a conditional cross-field rule. *)
Record target_condition : Type := {
  tc_type : value;
  tc_pattern : value;
  tc_min : value;
  tc_max : value;
  tc_message : value
}.

(** [rule.configuration]: every documented key, [VUndefined] when the
    key is absent. *)
Record configuration_object : Type := {
  (* format *)
  dataType : value;
  pattern : value;
  (* range *)
  min : value;
  max : value;
  inclusive : value;
  (* completeness *)
  required : value;
  notEmpty : value;
  minLength : value;
  (* crossField *)
  type : value;
  conditionField : value;
  conditionValue : value;
  conditionOperator : value;
  targetField : value;
  targetCondition : option target_condition;
  field1 : value;
  field2 : value;
  comparisonOperator : value;
  expectedSum : value;
  dependentField : value;
  requiredValue : value;
  businessRule : value;
  condition : value
}.

(** The configuration [{}]. *)
Definition no_keys : configuration_object :=
  {| dataType := VUndefined; pattern := VUndefined;
     min := VUndefined; max := VUndefined; inclusive := VUndefined;
     required := VUndefined; notEmpty := VUndefined; minLength := VUndefined;
     type := VUndefined;
     conditionField := VUndefined; conditionValue := VUndefined;
     conditionOperator := VUndefined; targetField := VUndefined;
     targetCondition := None;
     field1 := VUndefined; field2 := VUndefined;
     comparisonOperator := VUndefined; expectedSum := VUndefined;
     dependentField := VUndefined; requiredValue := VUndefined;
     businessRule := VUndefined; condition := VUndefined |}.

(** A RuleDefinition.  [target_field] is [rule.target.field];
    [configuration] is [None] when the rule has none. *)
Record rule : Type := {
  id : value;
  name : value;
  ruleType : value;
  target_field : string;
  configuration : option configuration_object;
  severity : value;
  enabled : value
}.

(** What a validator returns: [{ passed, message }]; [message] is
    [VUndefined] when the object literal has no such key. *)
Record outcome : Type := {
  passed : bool;
  message : value
}.

(** An element of [this.results]. *)
Record ValidationResult : Type := {
  res_ruleId : value;
  res_ruleName : value;
  res_field : string;
  res_value : value;
  res_severity : value;
  res_message : value;
  res_passed : bool
}.

(** The engine object: [this.rules] and [this.results]. *)
Record engine : Type := {
  rules : list rule;
  results : list ValidationResult
}.

(** [new ValidationEngine()] *)
Definition constructor : engine := {| rules := []; results := [] |}.

(** [loadRules(rules)] *)
Definition loadRules (rules : list rule) (this : engine) : engine :=
  {| rules := rules; results := results this |}.

(** [this.results.push(r)] *)
Definition push (this : engine) (r : ValidationResult) : engine :=
  {| rules := rules this; results := results this ++ [r] |}.

(** [{ passed: true }] *)
Definition pass : outcome := {| passed := true; message := VUndefined |}.

(** [{ passed: false, message: m }] *)
Definition fail (m : string) : outcome :=
  {| passed := false; message := VStr m |}.

Definition is_nullish (v : value) : bool :=
  strict_equals v VUndefined || strict_equals v VNull.

(** Reading a key of [rule.configuration] when the rule has none. *)
Definition no_configuration (key : string) : error :=
  TypeError ("Cannot read properties of undefined (reading '" ++ key ++ "')").

(** The receiver of [dataset[v]] is a property key: [v] as a string.
    Read on the record itself, as [get] is: it is [dataset[v]] when
    [reads_own d (ToString v)] holds. *)
Definition field_of (d : object) (v : value) : value := get d (ToString v).

(** *** validateRange(rule, value)

    [passed] and [message] are the two local variables of the method;
    each [if] statement maps their current pair to the next one. *)
Definition validateRange (rule : rule) (value : JS.value)
  : completion outcome :=
  if is_nullish value then Normal pass
  else
    let numValue := ToNumber value in
    if isNaN numValue then
      Normal (fail ("Value '" ++ ToString value
                    ++ "' is not a valid number for range validation"))
    else
      match configuration rule with
      | None => Throw (no_configuration "min")
      | Some c =>
          let min := min c in
          let max := max c in
          let inclusive := negb (strict_equals (inclusive c) (VBool false)) in
          let passed := true in
          let message := "" in
          let '(passed, message) :=
            if negb (strict_equals min VUndefined) then
              if (if inclusive then less_than (VNum numValue) min
                  else less_equal (VNum numValue) min)
              then (false,
                    "Value " ++ to_string numValue ++ " is below minimum "
                    ++ (if inclusive then "" else "exclusive ")
                    ++ "limit of " ++ ToString min)
              else (passed, message)
            else (passed, message) in
          let '(passed, message) :=
            if negb (strict_equals max VUndefined) && passed then
              if (if inclusive then greater_than (VNum numValue) max
                  else greater_equal (VNum numValue) max)
              then (false,
                    "Value " ++ to_string numValue ++ " is above maximum "
                    ++ (if inclusive then "" else "exclusive ")
                    ++ "limit of " ++ ToString max)
              else (passed, message)
            else (passed, message) in
          Normal {| passed := passed; message := VStr message |}
      end.

(** *** validateCompleteness(rule, value) *)
Definition validateCompleteness (rule : rule) (value : JS.value)
  : completion outcome :=
  match configuration rule with
  | None => Throw (no_configuration "required")
  | Some c =>
      if strict_equals (required c) (VBool true) && is_nullish value
      then Normal (fail "Required field is missing")
      else
      if strict_equals (notEmpty c) (VBool true)
         && (is_nullish value
             || String.eqb (JSString.trim (ToString value)) "")
      then Normal (fail "Field must not be empty")
      else
      if negb (strict_equals (minLength c) VUndefined) then
        if is_nullish value then
          if negb (strict_equals (required c) (VBool true))
          then Normal pass
          else Normal pass
        else
          let stringValue := ToString value in
          if less_than (VNum (of_nat (String.length stringValue)))
                       (minLength c)
          then Normal (fail ("Field length "
                             ++ to_string (of_nat (String.length stringValue))
                             ++ " is below minimum required length of "
                             ++ ToString (minLength c)))
          else Normal pass
      else Normal pass
  end.

(** *** validateUniqueness(rule, value, dataset) *)
Definition validateUniqueness (rule : rule) (value : JS.value)
           (dataset : object) : outcome :=
  if is_nullish value then pass
  else
    let count :=
      fold_left
        (fun count field =>
           if strict_equals (get dataset field) value then S count
           else count)
        (keys dataset) O in
    if (1 <? count)%nat
    then fail ("Value '" ++ ToString value
               ++ "' is not unique within the dataset")
    else pass.

(** *** resolveValue(value, dataset) *)
Definition resolveValue (value : JS.value) (dataset : object) : JS.value :=
  match value with
  | VStr s =>
      if JSString.startsWith s "{" && JSString.endsWith s "}" then
        let fieldName := JSString.substring s 1 (String.length s - 1) in
        get dataset fieldName
      else value
  | _ => value
  end.

(** The value bound to [right] by
    [const [left, right] = expression.split(op).map(s => s.trim())]. *)
Definition split_right (expression op : string) : JS.value :=
  match map JSString.trim (JSString.split expression op) with
  | _ :: r :: _ => VStr r
  | _ => VUndefined
  end.

(** *** evaluateExpression(expression, dependentValue, dataset) *)
Definition evaluateExpression (expression dependentValue : JS.value)
           (dataset : object) : completion bool :=
  match expression with
  | VStr e =>
      let right op := resolveValue (split_right e op) dataset in
      if JSString.includes e "==" then
        Normal (loose_equals dependentValue (right "=="))
      else if JSString.includes e "!=" then
        Normal (negb (loose_equals dependentValue (right "!=")))
      else if JSString.includes e ">=" then
        Normal (greater_equal (VNum (ToNumber dependentValue))
                              (VNum (ToNumber (right ">="))))
      else if JSString.includes e "<=" then
        Normal (less_equal (VNum (ToNumber dependentValue))
                           (VNum (ToNumber (right "<="))))
      else if JSString.includes e ">" then
        Normal (greater_than (VNum (ToNumber dependentValue))
                             (VNum (ToNumber (right ">"))))
      else if JSString.includes e "<" then
        Normal (less_than (VNum (ToNumber dependentValue))
                          (VNum (ToNumber (right "<"))))
      else if JSString.includes e "includes" then
        Normal (JSString.includes (ToString dependentValue)
                                  (ToString (right "includes")))
      else Normal (ToBoolean expression)
  | VBool b => Normal b
  | _ => Normal (ToBoolean expression)
  end.

(** *** validateLegacyCrossField(rule, value, dataset)

    The [match] on the completion is the method's [try]/[catch]. *)
Definition validateLegacyCrossField (rule : rule) (value : JS.value)
           (dataset : object) : completion outcome :=
  match configuration rule with
  | None => Throw (no_configuration "dependentField")
  | Some c =>
      let dependentField := dependentField c in
      let condition := condition c in
      if negb (ToBoolean dependentField) || negb (ToBoolean condition)
      then Normal pass
      else
        let dependentValue := field_of dataset dependentField in
        match evaluateExpression condition dependentValue dataset with
        | Normal result =>
            Normal {| passed := result; message := VUndefined |}
        | Throw e =>
            Normal (fail ("Error evaluating cross-field condition: "
                          ++ error_message e))
        end
  end.

(** *** validateDependencyCrossField(rule, value, dataset) *)
Definition validateDependencyCrossField (rule : rule) (value : JS.value)
           (dataset : object) : completion outcome :=
  match configuration rule with
  | None => Throw (no_configuration "dependentField")
  | Some c =>
      let dependentField := dependentField c in
      let requiredValue := requiredValue c in
      let targetField := targetField c in
      if negb (ToBoolean dependentField) || negb (ToBoolean targetField)
      then Normal pass
      else
        let dependentValue := field_of dataset dependentField in
        let targetValue := field_of dataset targetField in
        if loose_equals dependentValue requiredValue then
          if is_nullish targetValue || strict_equals targetValue (VStr "")
          then Normal (fail ("When " ++ ToString dependentField ++ " is "
                             ++ ToString requiredValue ++ ", "
                             ++ ToString targetField ++ " is required"))
          else Normal pass
        else Normal pass
  end.

(** *** The catalogue of business rules *)

Definition validateAgeVerificationRule (dataset : object) : outcome :=
  let age := get dataset "age" in
  let idType := get dataset "idType" in
  let verificationDocument := get dataset "verificationDocument" in
  if greater_equal age (VNum (of_Z 18)) then
    if negb (ToBoolean idType) || negb (ToBoolean verificationDocument)
    then fail "For users 18 or older, ID type and verification document are required"
    else pass
  else pass.

Definition validateEmailOrPhoneRequiredRule (dataset : object) : outcome :=
  let email := get dataset "email" in
  let phone := get dataset "phone" in
  if (negb (ToBoolean email) || strict_equals email (VStr ""))
     && (negb (ToBoolean phone) || strict_equals phone (VStr ""))
  then fail "Either email or phone must be provided"
  else pass.

Definition validateMinorsConsentRule (dataset : object) : outcome :=
  let age := get dataset "age" in
  let guardianConsent := get dataset "guardianConsent" in
  let guardianEmail := get dataset "guardianEmail" in
  if less_than age (VNum (of_Z 18)) then
    if negb (ToBoolean guardianConsent)
    then fail "Guardian consent is required for users under 18"
    else if negb (ToBoolean guardianEmail)
    then fail "Guardian email is required for users under 18"
    else pass
  else pass.

Definition validateSalaryVerificationRule (dataset : object) : outcome :=
  let salary := get dataset "salary" in
  let salaryVerification := get dataset "salaryVerification" in
  let employmentStatus := get dataset "employmentStatus" in
  let employment_check :=
    if greater_than salary (VNum (of_Z 0))
     && negb (strict_equals employmentStatus (VStr "employed"))
     && negb (strict_equals employmentStatus (VStr "self-employed"))
     && negb (strict_equals employmentStatus (VStr "retired"))
     && negb (strict_equals employmentStatus (VStr "unemployed"))
     && negb (strict_equals employmentStatus (VStr "student"))
    then fail "Valid employment status must be provided when salary is specified"
    else pass in
  if greater_than salary (VNum (of_Z 100000)) then
    if negb (ToBoolean salaryVerification)
    then fail "Salary verification is required for salaries above 100,000"
    else employment_check
  else employment_check.

(** *** validateBusinessRuleCrossField(rule, value, dataset) *)
Definition validateBusinessRuleCrossField (rule : rule) (value : JS.value)
           (dataset : object) : completion outcome :=
  match configuration rule with
  | None => Throw (no_configuration "businessRule")
  | Some c =>
      let businessRule := businessRule c in
      if negb (ToBoolean businessRule) then Normal pass
      else if strict_equals businessRule (VStr "age-verification")
      then Normal (validateAgeVerificationRule dataset)
      else if strict_equals businessRule (VStr "email-phone-required")
      then Normal (validateEmailOrPhoneRequiredRule dataset)
      else if strict_equals businessRule (VStr "minors-consent")
      then Normal (validateMinorsConsentRule dataset)
      else if strict_equals businessRule (VStr "salary-verification")
      then Normal (validateSalaryVerificationRule dataset)
      else Normal pass
  end.

(** *** validateCustom(rule, value, dataset) *)
Definition validateCustom (rule : rule) (value : JS.value)
           (dataset : object) : outcome := pass.

Section WithHost.
Variable host : Host.t.

Local Abbreviation RegExp_new := (Host.RegExp_new host).
Local Abbreviation RegExp_test := (Host.RegExp_test host).
Local Abbreviation Date_parse := (Host.Date_parse host).
Local Abbreviation URL_new := (Host.URL_new host).

(** *** findMatchingFields(pattern, dataset) *)
Definition findMatchingFields (pattern : string) (dataset : object)
  : completion (list string) :=
  if String.eqb pattern "*" then Normal (keys dataset)
  else if JSString.includes pattern "*" then
    let regexPattern := JSString.replace_stars pattern in
    bind (RegExp_new ("^" ++ regexPattern ++ "$") "i") (fun regex =>
    Normal (filter (fun field => RegExp_test regex field) (keys dataset)))
  else
    bind (hasOwnProperty dataset pattern) (fun has =>
    Normal (if has then [pattern] else [])).

(** *** getFieldValue(field, dataset) *)
Definition getFieldValue (field : string) (dataset : object) : JS.value :=
  get dataset field.

Definition emailRegex : string :=
  "^[a-zA-Z0-9._%+-]+@[a-zA-Z0-9.-]+\.[a-zA-Z]{2,}$".

Definition phoneRegex : string :=
  "^\(?(\d{3})\)?[-.\s]?(\d{3})[-.\s]?(\d{4})$".

(** *** checkDataType(value, dataType) *)
Definition checkDataType (value : string) (dataType : JS.value)
  : completion outcome :=
  if strict_equals dataType (VStr "email") then
    bind (RegExp_new emailRegex "") (fun emailRegex =>
    Normal {| passed := RegExp_test emailRegex value;
              message := VStr ("Value '" ++ value
                               ++ "' is not a valid email address") |})
  else if strict_equals dataType (VStr "phone") then
    bind (RegExp_new phoneRegex "") (fun phoneRegex =>
    Normal {| passed := RegExp_test phoneRegex value;
              message := VStr ("Value '" ++ value
                               ++ "' is not a valid phone number") |})
  else if strict_equals dataType (VStr "url") then
    match URL_new value with
    | Normal _ => Normal pass
    | Throw e =>
        Normal (fail ("Value '" ++ value ++ "' is not a valid URL"))
    end
  else if strict_equals dataType (VStr "number") then
    Normal {| passed := negb (isNaN (of_string value));
              message := VStr ("Value '" ++ value
                               ++ "' is not a valid number") |}
  else if strict_equals dataType (VStr "date") then
    let date := Date_parse value in
    Normal {| passed := negb (isNaN date);
              message := VStr ("Value '" ++ value
                               ++ "' is not a valid date") |}
  else Normal pass.

(** *** validateFormat(rule, value) *)
Definition validateFormat (rule : rule) (value : JS.value)
  : completion outcome :=
  if is_nullish value then Normal pass
  else
    let stringValue := ToString value in
    match configuration rule with
    | None => Throw (no_configuration "dataType")
    | Some c =>
        let check_pattern :=
          if ToBoolean (pattern c) then
            bind (RegExp_new (ToString (pattern c)) "") (fun regex =>
            if negb (RegExp_test regex stringValue)
            then Normal (fail ("Value '" ++ stringValue
                               ++ "' does not match required format pattern"))
            else Normal pass)
          else Normal pass in
        if ToBoolean (dataType c) then
          bind (checkDataType stringValue (dataType c)) (fun typeCheck =>
          if negb (passed typeCheck) then Normal typeCheck
          else check_pattern)
        else check_pattern
    end.

(** *** evaluateTargetCondition(value, condition) *)
Definition evaluateTargetCondition (value : JS.value)
           (condition : target_condition) : completion outcome :=
  let failing default :=
    {| passed := false;
       message := or_else (tc_message condition) (VStr default) |} in
  if strict_equals (tc_type condition) (VStr "required") then
    if is_nullish value || strict_equals value (VStr "")
    then Normal (failing "Field is required based on conditional rule")
    else Normal pass
  else if strict_equals (tc_type condition) (VStr "format") then
    if ToBoolean (tc_pattern condition) then
      bind (RegExp_new (ToString (tc_pattern condition)) "") (fun regex =>
      if negb (RegExp_test regex (ToString value))
      then Normal (failing ("Value does not match required format: "
                            ++ ToString (tc_pattern condition)))
      else Normal pass)
    else Normal pass
  else if strict_equals (tc_type condition) (VStr "range") then
    let numValue := ToNumber value in
    if isNaN numValue then Normal (failing "Value must be a number")
    else if negb (strict_equals (tc_min condition) VUndefined)
            && less_than (VNum numValue) (tc_min condition)
    then Normal (failing ("Value " ++ to_string numValue
                          ++ " is below minimum "
                          ++ ToString (tc_min condition)))
    else if negb (strict_equals (tc_max condition) VUndefined)
            && greater_than (VNum numValue) (tc_max condition)
    then Normal (failing ("Value " ++ to_string numValue
                          ++ " is above maximum "
                          ++ ToString (tc_max condition)))
    else Normal pass
  else Normal pass.

(** *** validateConditionalCrossField(rule, value, dataset) *)
Definition validateConditionalCrossField (rule : rule) (value : JS.value)
           (dataset : object) : completion outcome :=
  match configuration rule with
  | None => Throw (no_configuration "conditionField")
  | Some c =>
      let conditionField := conditionField c in
      let conditionValue := conditionValue c in
      let conditionOperator := or_else (conditionOperator c) (VStr "equals") in
      let targetField := targetField c in
      let targetCondition := targetCondition c in
      if negb (ToBoolean conditionField) || negb (ToBoolean targetField)
      then Normal pass
      else
        let conditionFieldValue := field_of dataset conditionField in
        let targetFieldValue := field_of dataset targetField in
        let op_is op := strict_equals conditionOperator (VStr op) in
        let left := VNum (ToNumber conditionFieldValue) in
        let right := VNum (ToNumber conditionValue) in
        let conditionMet :=
          if op_is "equals" then loose_equals conditionFieldValue conditionValue
          else if op_is "notEquals"
          then negb (loose_equals conditionFieldValue conditionValue)
          else if op_is "greaterThan" then greater_than left right
          else if op_is "lessThan" then less_than left right
          else if op_is "greaterThanOrEqual" then greater_equal left right
          else if op_is "lessThanOrEqual" then less_equal left right
          else if op_is "contains"
          then JSString.includes (ToString conditionFieldValue)
                                 (ToString conditionValue)
          else if op_is "startsWith"
          then JSString.startsWith (ToString conditionFieldValue)
                                   (ToString conditionValue)
          else if op_is "endsWith"
          then JSString.endsWith (ToString conditionFieldValue)
                                 (ToString conditionValue)
          else loose_equals conditionFieldValue conditionValue in
        if conditionMet then
          match targetCondition with
          | Some targetCondition =>
              bind (evaluateTargetCondition targetFieldValue targetCondition)
                   (fun targetValidation =>
              if negb (passed targetValidation)
              then Normal (fail ("Conditional validation failed: "
                                 ++ ToString (message targetValidation)))
              else Normal pass)
          | None => Normal pass
          end
        else Normal pass
  end.

(** *** isValidDate(value) *)
Definition isValidDate (value : JS.value) : bool :=
  match value with
  | VStr s => let date := Date_parse s in negb (isNaN date)
  | _ => false
  end.

(** [new Date(value)], kept as its time value: that is all that [<],
    [>], [<=], [>=] and [Number()] read of a Date.  The engine builds
    a Date from a string only. *)
Definition new_Date (value : JS.value) : JS.value :=
  match value with
  | VStr s => VNum (Date_parse s)
  | _ => VNum (ToNumber value)
  end.

(** *** validateComparisonCrossField(rule, value, dataset) *)
Definition validateComparisonCrossField (rule : rule) (value : JS.value)
           (dataset : object) : completion outcome :=
  match configuration rule with
  | None => Throw (no_configuration "field1")
  | Some c =>
      let field1 := field1 c in
      let field2 := field2 c in
      let comparisonOperator := comparisonOperator c in
      if negb (ToBoolean field1) || negb (ToBoolean field2)
         || negb (ToBoolean comparisonOperator)
      then Normal pass
      else
        let value1 := field_of dataset field1 in
        let value2 := field_of dataset field2 in
        let op_is op := strict_equals comparisonOperator (VStr op) in
        let '(value1, value2) :=
          if op_is "lessThan" || op_is "greaterThan"
             || op_is "lessThanOrEqual" || op_is "greaterThanOrEqual"
             || op_is "sumEquals" || op_is "sumLessThan" || op_is "sumGreaterThan"
          then
            if isValidDate value1 && isValidDate value2
            then (new_Date value1, new_Date value2)
            else (VNum (ToNumber value1), VNum (ToNumber value2))
          else (value1, value2) in
        let sum := VNum (add (ToNumber value1) (ToNumber value2)) in
        let expectedSum := VNum (ToNumber (expectedSum c)) in
        let comparisonResult :=
          if op_is "equals" then loose_equals value1 value2
          else if op_is "notEquals" then negb (loose_equals value1 value2)
          else if op_is "greaterThan" then greater_than value1 value2
          else if op_is "lessThan" then less_than value1 value2
          else if op_is "greaterThanOrEqual" then greater_equal value1 value2
          else if op_is "lessThanOrEqual" then less_equal value1 value2
          else if op_is "sumEquals" then loose_equals sum expectedSum
          else if op_is "sumLessThan" then less_than sum expectedSum
          else if op_is "sumGreaterThan" then greater_than sum expectedSum
          else loose_equals value1 value2 in
        if negb comparisonResult
        then Normal (fail ("Comparison validation failed: "
                           ++ ToString field1 ++ " "
                           ++ ToString comparisonOperator ++ " "
                           ++ ToString field2 ++ " condition not met"))
        else Normal pass
  end.

(** *** validateCrossField(rule, value, dataset) *)
Definition validateCrossField (rule : rule) (value : JS.value)
           (dataset : object) : completion outcome :=
  match configuration rule with
  | None => Normal pass
  | Some c =>
      if strict_equals (type c) (VStr "conditional")
      then validateConditionalCrossField rule value dataset
      else if strict_equals (type c) (VStr "comparison")
      then validateComparisonCrossField rule value dataset
      else if strict_equals (type c) (VStr "dependency")
      then validateDependencyCrossField rule value dataset
      else if strict_equals (type c) (VStr "businessRule")
      then validateBusinessRuleCrossField rule value dataset
      else validateLegacyCrossField rule value dataset
  end.

(** *** executeRule(rule, value, dataset) *)
Definition executeRule (rule : rule) (value : JS.value) (dataset : object)
  : completion outcome :=
  let op_is kind := strict_equals (ruleType rule) (VStr kind) in
  if op_is "format" then validateFormat rule value
  else if op_is "range" then validateRange rule value
  else if op_is "completeness" then validateCompleteness rule value
  else if op_is "uniqueness"
  then Normal (validateUniqueness rule value dataset)
  else if op_is "crossField" then validateCrossField rule value dataset
  else if op_is "custom" then Normal (validateCustom rule value dataset)
  else Normal (fail ("Unknown rule type: " ++ ToString (ruleType rule))).

(** *** applyRule(rule, dataset)

    [applyRule_loop] is the [for (const field of matchingFields)]
    loop.  A validator always returns an object, so the guard
    [if (validationResult)] holds at every iteration and the result
    is pushed. *)
Fixpoint applyRule_loop (rule : rule) (dataset : object)
         (matchingFields : list string) (this : engine)
  : completion engine :=
  match matchingFields with
  | [] => Normal this
  | field :: rest =>
      let fieldValue := getFieldValue field dataset in
      bind (executeRule rule fieldValue dataset) (fun validationResult =>
      applyRule_loop rule dataset rest
        (push this
           {| res_ruleId := id rule;
              res_ruleName := name rule;
              res_field := field;
              res_value := fieldValue;
              res_severity := or_else (severity rule) (VStr "error");
              res_message := message validationResult;
              res_passed := passed validationResult |}))
  end.

Definition applyRule (rule : rule) (dataset : object) (this : engine)
  : completion engine :=
  bind (findMatchingFields (target_field rule) dataset)
       (fun matchingFields =>
  applyRule_loop rule dataset matchingFields this).

(** *** validate(dataset)

    [validate_loop] is the [for (const rule of this.rules)] loop. *)
Fixpoint validate_loop (rules : list rule) (dataset : object)
         (this : engine) : completion engine :=
  match rules with
  | [] => Normal this
  | rule :: rest =>
      if negb (strict_equals (enabled rule) (VBool false)) then
        bind (applyRule rule dataset this) (fun this =>
        validate_loop rest dataset this)
      else validate_loop rest dataset this
  end.

Definition validate (dataset : object) (this : engine)
  : completion (list ValidationResult * engine) :=
  let this := {| rules := rules this; results := [] |} in
  bind (validate_loop (rules this) dataset this) (fun this =>
  Normal (results this, this)).

End WithHost.

End Engine.


(* ================================================================== *)
(** ** A reference host

    One implementation of [Host.t], used to run the engine on concrete
    inputs.  It covers the part of each built-in that the language
    standard fixes:
    - regular expressions without flags or with [i], over literals, [.],
      classes, the escapes [\d \D \w \W \s \S \t \n \r \f \v \0],
      identity escapes, groups, alternation, [^], [$] and the quantifiers
      [* + ? {n} {n,} {n,m}]; a pattern outside this fragment is refused
      like a malformed one;
    - dates in the Date Time String Format, read as UTC.  What a host
      makes of any other string is implementation-defined (V8 reads
      "10" as a date, and "2023-02-30" as the second of March); this
      host reads every such string as an invalid date, so it stands for
      the engine that runs the code on strings of the format only, and
      the dates of the examples are of the format;
    - URLs by their scheme, and by a non-empty host for the special
      schemes.
    The theorems that quantify over [Host.t] do not depend on it. *)

Module RefHost.
Import JS.
Open Scope string_scope.

(** *** Regular expressions *)

Inductive regex : Type :=
| Chars (accepts : ascii -> bool)
| Bol
| Eol
| Eps
| Seq (r1 r2 : regex)
| Alt (r1 r2 : regex)
| Repeat (lo : nat) (hi : option nat) (r : regex).

Definition code (c : ascii) : nat := nat_of_ascii c.

Definition in_range (lo hi : nat) (c : ascii) : bool :=
  ((lo <=? code c) && (code c <=? hi))%nat.

Definition is_digit : ascii -> bool := in_range 48 57.
Definition is_upper : ascii -> bool := in_range 65 90.
Definition is_lower : ascii -> bool := in_range 97 122.

Definition is_word (c : ascii) : bool :=
  is_digit c || is_upper c || is_lower c || Ascii.eqb c "_".

Definition is_line_terminator (c : ascii) : bool :=
  Ascii.eqb c "010" || Ascii.eqb c "013".

(** The other case of a letter, the character itself otherwise. *)
Definition swap_case (c : ascii) : ascii :=
  if is_upper c then ascii_of_nat (code c + 32)
  else if is_lower c then ascii_of_nat (code c - 32)
  else c.

(** Under the [i] flag a set accepts a character when it accepts either
    case of it. *)
Definition fold_case (ignoreCase : bool) (p : ascii -> bool) : ascii -> bool :=
  if ignoreCase then fun c => p c || p (swap_case c) else p.

(** [m r s bol k]: [r] matches a prefix of [s], and [k] accepts what
    follows; [bol] tells whether [s] is the whole input.  A starred
    body that has met its lower bound must consume a character, which
    bounds the number of iterations by [lo] plus the length of [s]. *)
Fixpoint m (r : regex) (s : string) (bol : bool)
         (k : string -> bool -> bool) {struct r} : bool :=
  match r with
  | Chars p =>
      match s with
      | String c rest => p c && k rest false
      | EmptyString => false
      end
  | Bol => bol && k s bol
  | Eol => match s with EmptyString => k s bol | _ => false end
  | Eps => k s bol
  | Seq r1 r2 => m r1 s bol (fun s' bol' => m r2 s' bol' k)
  | Alt r1 r2 => m r1 s bol k || m r2 s bol k
  | Repeat lo hi body =>
      (fix loop (fuel lo : nat) (hi : option nat) (s : string) (bol : bool)
         {struct fuel} : bool :=
         let again :=
           match fuel, hi with
           | O, _ | _, Some O => false
           | S fuel', _ =>
               m body s bol (fun s' bol' =>
                 ((0 <? lo)%nat || (String.length s' <? String.length s)%nat)
                 && loop fuel' (Nat.pred lo) (option_map Nat.pred hi) s' bol')
           end in
         again || ((lo =? 0)%nat && k s bol))
        (String.length s + lo + 1)%nat lo hi s bol
  end.

(** [regex.test(s)]: a match may start at any position. *)
Fixpoint search (r : regex) (s : string) (bol : bool) : bool :=
  m r s bol (fun _ _ => true)
  || match s with
     | EmptyString => false
     | String _ rest => search r rest false
     end.

Definition test (r : regex) (s : string) : bool := search r s true.

Definition union (p q : ascii -> bool) : ascii -> bool :=
  fun c => p c || q c.

Definition complement (p : ascii -> bool) : ascii -> bool :=
  fun c => negb (p c).

(** The set denoted by the character after a backslash; [None] for an
    escape outside the fragment. *)
Definition escape (c : ascii) : option (ascii -> bool) :=
  if Ascii.eqb c "d" then Some is_digit
  else if Ascii.eqb c "D" then Some (complement is_digit)
  else if Ascii.eqb c "w" then Some is_word
  else if Ascii.eqb c "W" then Some (complement is_word)
  else if Ascii.eqb c "s" then Some JSString.is_white_space
  else if Ascii.eqb c "S" then Some (complement JSString.is_white_space)
  else if Ascii.eqb c "t" then Some (Ascii.eqb "009")
  else if Ascii.eqb c "n" then Some (Ascii.eqb "010")
  else if Ascii.eqb c "v" then Some (Ascii.eqb "011")
  else if Ascii.eqb c "f" then Some (Ascii.eqb "012")
  else if Ascii.eqb c "r" then Some (Ascii.eqb "013")
  else if Ascii.eqb c "0" then Some (Ascii.eqb "000")
  else if is_digit c then None
  else if existsb (Ascii.eqb c) (list_ascii_of_string "bBcukxpP") then None
  else Some (Ascii.eqb c).

(** The items of a class up to its closing bracket. *)
Fixpoint parse_class (s : string) (acc : ascii -> bool)
  : option ((ascii -> bool) * string) :=
  match s with
  | EmptyString => None
  | String "]" rest => Some (acc, rest)
  | String "\" EmptyString => None
  | String "\" (String e rest) =>
      match escape e with
      | Some p => parse_class rest (union acc p)
      | None => None
      end
  | String c (String "-" (String d rest) as tail) =>
      if Ascii.eqb d "]" || Ascii.eqb d "\"
      then parse_class tail (union acc (Ascii.eqb c))
      else if (code d <? code c)%nat then None
      else parse_class rest (union acc (in_range (code c) (code d)))
  | String c rest => parse_class rest (union acc (Ascii.eqb c))
  end.

(** The inside of a braced quantifier, after its opening brace. *)
Definition parse_braces (s : string) : option (nat * option nat * string) :=
  let '(lo, n, r1) := JSNumber.read_digits s 0 0 in
  if (n =? 0)%Z then None
  else
    match r1 with
    | String "}" rest => Some (Z.to_nat lo, Some (Z.to_nat lo), rest)
    | String "," (String "}" rest) => Some (Z.to_nat lo, None, rest)
    | String "," r2 =>
        let '(hi, n', r3) := JSNumber.read_digits r2 0 0 in
        match r3 with
        | String "}" rest =>
            if (n' =? 0)%Z then None
            else Some (Z.to_nat lo, Some (Z.to_nat hi), rest)
        | _ => None
        end
    | _ => None
    end.

(** The parser's state: the alternatives closed so far, the terms of the
    current alternative, and the last atom, which a quantifier may still
    take. *)
Record pstate : Type := {
  alts : option regex;
  terms : regex;
  last : option regex
}.

Definition start : pstate := {| alts := None; terms := Eps; last := None |}.

Definition close_terms (st : pstate) : regex :=
  match last st with
  | Some a => Seq (terms st) a
  | None => terms st
  end.

Definition close_alt (st : pstate) : regex :=
  match alts st with
  | Some a => Alt a (close_terms st)
  | None => close_terms st
  end.

Definition with_atom (st : pstate) (a : regex) : pstate :=
  {| alts := alts st; terms := close_terms st; last := Some a |}.

Definition with_assertion (st : pstate) (a : regex) : pstate :=
  {| alts := alts st; terms := Seq (close_terms st) a; last := None |}.

(** A quantifier needs an atom, and bounds in order. *)
Definition quantify (st : pstate) (lo : nat) (hi : option nat)
  : option pstate :=
  match last st, hi with
  | None, _ => None
  | Some a, Some h =>
      if (h <? lo)%nat then None
      else Some {| alts := alts st;
                   terms := Seq (terms st) (Repeat lo hi a);
                   last := None |}
  | Some a, None =>
      Some {| alts := alts st;
              terms := Seq (terms st) (Repeat lo hi a);
              last := None |}
  end.

(** A quantifier may be followed by one [?]. *)
Definition skip_lazy (s : string) : string :=
  match s with
  | String "?" rest => rest
  | _ => s
  end.

(** A disjunction, up to the end of the pattern or, when [inside] a
    group, up to its closing parenthesis. *)
Fixpoint parse (fuel : nat) (ignoreCase inside : bool) (st : pstate)
         (s : string) {struct fuel} : option (regex * string) :=
  match fuel with
  | O => None
  | S fuel' =>
      let continue st' s' := parse fuel' ignoreCase inside st' s' in
      let quantified lo hi rest :=
        match quantify st lo hi with
        | Some st' => continue st' (skip_lazy rest)
        | None => None
        end in
      let literal c rest :=
        continue (with_atom st (Chars (fold_case ignoreCase (Ascii.eqb c))))
                 rest in
      match s with
      | EmptyString =>
          if inside then None else Some (close_alt st, EmptyString)
      | String ")" rest =>
          if inside then Some (close_alt st, rest) else None
      | String "|" rest =>
          continue {| alts := Some (close_alt st); terms := Eps; last := None |}
                   rest
      | String "(" rest =>
          let body :=
            match rest with
            | String "?" (String ":" r) => Some r
            | String "?" _ => None
            | _ => Some rest
            end in
          match body with
          | None => None
          | Some b =>
              match parse fuel' ignoreCase true start b with
              | Some (g, rest') => continue (with_atom st g) rest'
              | None => None
              end
          end
      | String "*" rest => quantified O None rest
      | String "+" rest => quantified 1%nat None rest
      | String "?" rest => quantified O (Some 1%nat) rest
      | String "{" rest =>
          match parse_braces rest with
          | Some (lo, hi, rest') => quantified lo hi rest'
          | None => literal "{"%char rest
          end
      | String "^" rest => continue (with_assertion st Bol) rest
      | String "$" rest => continue (with_assertion st Eol) rest
      | String "." rest =>
          continue (with_atom st (Chars (complement is_line_terminator))) rest
      | String "\" EmptyString => None
      | String "\" (String e rest) =>
          match escape e with
          | Some p => continue (with_atom st (Chars p)) rest
          | None => None
          end
      | String "[" rest =>
          let '(negated, items) :=
            match rest with
            | String "^" r => (true, r)
            | _ => (false, rest)
            end in
          match parse_class items (fun _ => false) with
          | Some (p, rest') =>
              let q := fold_case ignoreCase p in
              continue
                (with_atom st (Chars (if negated then complement q else q)))
                rest'
          | None => None
          end
      | String c rest => literal c rest
      end
  end.

(** [new RegExp(source, flags)] *)
Definition RegExp_new (source flags : string) : completion regex :=
  let invalid reason :=
    Throw (SyntaxError ("Invalid regular expression: /" ++ source ++ "/: "
                        ++ reason)) in
  if String.eqb flags "" || String.eqb flags "i" then
    match parse (String.length source + 1) (String.eqb flags "i") false
                start source with
    | Some (r, _) => Normal r
    | None => invalid "not a pattern of the fragment"
    end
  else invalid "flags outside the fragment".

(** *** Dates

    [YYYY], [YYYY-MM] or [YYYY-MM-DD], then optionally [THH:mm],
    [THH:mm:ss] or [THH:mm:ss.sss], then optionally [Z] or a signed
    [HH:mm] offset, with a day that the month has.  Every other string
    is read as an invalid date here; a host may read some of them as
    dates. *)

Open Scope Z_scope.

Fixpoint take_digits (n : nat) (s : string) (acc : Z) : option (Z * string) :=
  match n, s with
  | O, _ => Some (acc, s)
  | S n', String c r =>
      match JSNumber.digit_val c with
      | Some d => if d <? 10 then take_digits n' r (10 * acc + d) else None
      | None => None
      end
  | S _, EmptyString => None
  end.

Definition is_leap (y : Z) : bool :=
  ((y mod 4 =? 0) && negb (y mod 100 =? 0)) || (y mod 400 =? 0).

Definition days_in_month (y mo : Z) : Z :=
  if mo =? 2 then (if is_leap y then 29 else 28)
  else if (mo =? 4) || (mo =? 6) || (mo =? 9) || (mo =? 11) then 30
  else 31.

(** Days from 1970-01-01 to the given day of the proleptic Gregorian
    calendar. *)
Definition days_from_civil (y mo d : Z) : Z :=
  let y' := if mo <=? 2 then y - 1 else y in
  let era := y' / 400 in
  let yoe := y' - era * 400 in
  let doy := (153 * (if 2 <? mo then mo - 3 else mo + 9) + 2) / 5 + d - 1 in
  let doe := yoe * 365 + yoe / 4 - yoe / 100 + doy in
  era * 146097 + doe - 719468.

Definition parse_date (s : string) : option (Z * Z * Z * string) :=
  match take_digits 4 s 0 with
  | None => None
  | Some (y, String "-" r1) =>
      match take_digits 2 r1 0 with
      | None => None
      | Some (mo, String "-" r2) =>
          match take_digits 2 r2 0 with
          | None => None
          | Some (d, r3) => Some (y, mo, d, r3)
          end
      | Some (mo, r2) => Some (y, mo, 1, r2)
      end
  | Some (y, r) => Some (y, 1, 1, r)
  end.

(** Minutes east of UTC. *)
Definition parse_offset (s : string) : option Z :=
  match s with
  | EmptyString => Some 0
  | String "Z" EmptyString => Some 0
  | String sign r =>
      if Ascii.eqb sign "+" || Ascii.eqb sign "-" then
        match take_digits 2 r 0 with
        | Some (h, String ":" r1) =>
            match take_digits 2 r1 0 with
            | Some (mi, EmptyString) =>
                if (h <? 24) && (mi <? 60)
                then Some ((if Ascii.eqb sign "-" then -1 else 1) * (60 * h + mi))
                else None
            | _ => None
            end
        | _ => None
        end
      else None
  end.

(** Milliseconds since midnight, UTC. *)
Definition parse_time (s : string) : option Z :=
  match s with
  | EmptyString => Some 0
  | String "T" r =>
      match take_digits 2 r 0 with
      | Some (h, String ":" r1) =>
          match take_digits 2 r1 0 with
          | Some (mi, r2) =>
              let '(sec, r3) :=
                match r2 with
                | String ":" r' =>
                    match take_digits 2 r' 0 with
                    | Some (x, r'') => (Some x, r'')
                    | None => (None, r2)
                    end
                | _ => (Some 0, r2)
                end in
              let '(ms, r4) :=
                match r3 with
                | String "." r' =>
                    match take_digits 3 r' 0 with
                    | Some (x, r'') => (Some x, r'')
                    | None => (None, r3)
                    end
                | _ => (Some 0, r3)
                end in
              match sec, ms, parse_offset r4 with
              | Some sec, Some ms, Some off =>
                  let t := ((h * 60 + mi) * 60 + sec) * 1000 + ms in
                  if (mi <? 60) && (sec <? 60) && (t <=? 86400000)
                  then Some (t - off * 60000)
                  else None
              | _, _, _ => None
              end
          | None => None
          end
      | _ => None
      end
  | _ => None
  end.

(** [Date.parse(s)] *)
Definition Date_parse (s : string) : JSNumber.number :=
  match parse_date s with
  | Some (y, mo, d, rest) =>
      match parse_time rest with
      | Some t =>
          if (1 <=? mo) && (mo <=? 12) && (1 <=? d) && (d <=? days_in_month y mo)
          then JSNumber.of_Z (days_from_civil y mo d * 86400000 + t)
          else JSNumber.NaN
      | None => JSNumber.NaN
      end
  | None => JSNumber.NaN
  end.

Close Scope Z_scope.

(** *** URLs *)

Definition is_alpha (c : ascii) : bool := is_upper c || is_lower c.

Definition lower (c : ascii) : ascii := if is_upper c then swap_case c else c.

(** The scheme, in lower case, and what follows its colon. *)
Fixpoint parse_scheme (s acc : string) : option (string * string) :=
  match s with
  | EmptyString => None
  | String ":" rest => Some (JSString.rev acc, rest)
  | String c rest =>
      if is_alpha c || is_digit c || Ascii.eqb c "+" || Ascii.eqb c "-"
         || Ascii.eqb c "."
      then parse_scheme rest (String (lower c) acc)
      else None
  end.

Definition is_slash (c : ascii) : bool := Ascii.eqb c "/" || Ascii.eqb c "\".

Fixpoint skip_slashes (s : string) : string :=
  match s with
  | String c rest => if is_slash c then skip_slashes rest else s
  | EmptyString => s
  end.

(** The host of an authority: after the last [@], before the port, up
    to the path, query or fragment. *)
Fixpoint host_of (s acc : string) (port : bool) : string :=
  match s with
  | EmptyString => JSString.rev acc
  | String c rest =>
      if is_slash c || Ascii.eqb c "?" || Ascii.eqb c "#" then JSString.rev acc
      else if Ascii.eqb c "@" then host_of rest EmptyString false
      else if Ascii.eqb c ":" then host_of rest acc true
      else if port then host_of rest acc port
      else host_of rest (String c acc) port
  end.

(** [new URL(s)] *)
Definition URL_new (s : string) : completion unit :=
  let invalid := Throw (TypeError "Invalid URL") in
  match JSString.trim s with
  | EmptyString => invalid
  | String c _ as t =>
      if is_alpha c then
        match parse_scheme t EmptyString with
        | Some (scheme, rest) =>
            if existsb (String.eqb scheme) ["http"; "https"; "ftp"; "ws"; "wss"]
            then
              match host_of (skip_slashes rest) EmptyString false with
              | EmptyString => invalid
              | _ => Normal tt
              end
            else Normal tt
        | None => invalid
        end
      else invalid
  end.

(** The host itself. *)
Definition host : Host.t :=
  {| Host.RegExp := regex;
     Host.RegExp_new := RegExp_new;
     Host.RegExp_test := test;
     Host.Date_parse := Date_parse;
     Host.URL_new := URL_new |}.

End RefHost.

(* ================================================================== *)
(** ** The specification's reading of the validators

    Each definition below follows the wording of the specification, not
    the code; the theorems compare the two. *)

Module Spec.
Import JSNumber JS Engine.
Open Scope string_scope.

(** *** Range (section 4.4)

    "Below minimum (strict if inclusive=false) => fail with a message
    naming the bound and whether it is exclusive.  Else above maximum
    (same exclusivity rule) => fail similarly.  Otherwise pass." *)

Definition is_inclusive (c : configuration_object) : bool :=
  negb (strict_equals (inclusive c) (VBool false)).

Definition below_minimum (c : configuration_object) (x : number) : bool :=
  negb (strict_equals (min c) VUndefined)
  && (if is_inclusive c then less_than (VNum x) (min c)
      else less_equal (VNum x) (min c)).

Definition above_maximum (c : configuration_object) (x : number) : bool :=
  negb (strict_equals (max c) VUndefined)
  && (if is_inclusive c then greater_than (VNum x) (max c)
      else greater_equal (VNum x) (max c)).

Definition bound_message (c : configuration_object) (x : number)
           (side : string) (bound : value) : string :=
  "Value " ++ to_string x ++ " is " ++ side ++ " "
  ++ (if is_inclusive c then "" else "exclusive ")
  ++ "limit of " ++ ToString bound.

Definition range_verdict (c : configuration_object) (x : number) : outcome :=
  if below_minimum c x then fail (bound_message c x "below minimum" (min c))
  else if above_maximum c x
  then fail (bound_message c x "above maximum" (max c))
  else {| passed := true; message := VStr "" |}.

Definition not_a_number_message (v : value) : string :=
  "Value '" ++ ToString v ++ "' is not a valid number for range validation".

(** "Value must coerce to a finite number" *)
Definition is_finite (x : number) : bool :=
  match x with
  | S754_zero _ | S754_finite _ _ _ => true
  | S754_infinity _ | S754_nan => false
  end.

Definition zero : number := S754_zero false.

(** Zero lies within the configured bounds: at or above the minimum and
    at or below the maximum, strictly so when the bounds are exclusive;
    an absent bound does not constrain. *)
Definition zero_within_bounds (c : configuration_object) : Prop :=
  (min c = VUndefined
   \/ (if is_inclusive c then less_equal (min c) (VNum zero)
       else less_than (min c) (VNum zero)) = true)
  /\ (max c = VUndefined
      \/ (if is_inclusive c then less_equal (VNum zero) (max c)
          else less_than (VNum zero) (max c)) = true).

(** *** Completeness (section 4.5)

    Three independent checks, each giving the message of its failure. *)

Definition required_check (c : configuration_object) (v : value)
  : option string :=
  if strict_equals (required c) (VBool true) && is_nullish v
  then Some "Required field is missing" else None.

Definition notEmpty_check (c : configuration_object) (v : value)
  : option string :=
  if strict_equals (notEmpty c) (VBool true)
     && (is_nullish v || String.eqb (JSString.trim (ToString v)) "")
  then Some "Field must not be empty" else None.

(** "if value is undefined/null and required is not true, pass;
    otherwise stringify and fail if shorter than minLength" *)
Definition minLength_check (c : configuration_object) (v : value)
  : option string :=
  if strict_equals (minLength c) VUndefined then None
  else if is_nullish v && negb (strict_equals (required c) (VBool true))
  then None
  else
    let len := of_nat (String.length (ToString v)) in
    if less_than (VNum len) (minLength c)
    then Some ("Field length " ++ to_string len
               ++ " is below minimum required length of "
               ++ ToString (minLength c))
    else None.

(** "first-failure short-circuits": the first check that fails decides. *)
Fixpoint first_failure (checks : list (option string)) : outcome :=
  match checks with
  | [] => pass
  | Some m :: _ => fail m
  | None :: rest => first_failure rest
  end.

(** *** Uniqueness (section 4.6): the fields holding the value. *)
Definition occurrences (v : value) (d : object) : nat :=
  List.length (filter (fun kv => strict_equals (snd kv) v) d).

(** *** Cross-field comparison (section 4.7b)

    "If both field values parse as valid dates, compare as dates;
    otherwise coerce both to numbers." *)

Definition date_of (h : Host.t) (v : value) : value :=
  match v with
  | VStr s => VNum (Host.Date_parse h s)
  | _ => VNum NaN
  end.

Definition coerced (h : Host.t) (v1 v2 : value) : value * value :=
  if isValidDate h v1 && isValidDate h v2
  then (date_of h v1, date_of h v2)
  else (VNum (ToNumber v1), VNum (ToNumber v2)).

(** "equals/notEquals/greaterThan(OrEqual)/lessThan(OrEqual) compare the
    two values directly; sumEquals/sumLessThan/sumGreaterThan compare
    value1+value2 against expectedSum."  An operator outside the list is
    read as equals. *)
Definition compares (op expectedSum a b : value) : bool :=
  let op_is name := strict_equals op (VStr name) in
  let sum := add (ToNumber a) (ToNumber b) in
  if op_is "notEquals" then negb (loose_equals a b)
  else if op_is "greaterThan" then greater_than a b
  else if op_is "lessThan" then less_than a b
  else if op_is "greaterThanOrEqual" then greater_equal a b
  else if op_is "lessThanOrEqual" then less_equal a b
  else if op_is "sumEquals" then eqb sum (ToNumber expectedSum)
  else if op_is "sumLessThan" then ltb sum (ToNumber expectedSum)
  else if op_is "sumGreaterThan" then ltb (ToNumber expectedSum) sum
  else loose_equals a b.

(** The operators that order or add their operands. *)
Definition orders_or_adds (op : value) : bool :=
  existsb (fun name => strict_equals op (VStr name))
          ["lessThan"; "greaterThan"; "lessThanOrEqual"; "greaterThanOrEqual";
           "sumEquals"; "sumLessThan"; "sumGreaterThan"].

(** The comparison as the sentence above states it for every operator:
    always on the coerced operands. *)
Definition comparison_on_coerced (h : Host.t) (op expectedSum v1 v2 : value)
  : bool :=
  let '(a, b) := coerced h v1 v2 in compares op expectedSum a b.

(** The comparison with the coercion kept to the ordering and additive
    operators; the others see the field values as they are. *)
Definition comparison (h : Host.t) (op expectedSum v1 v2 : value) : bool :=
  let '(a, b) := if orders_or_adds op then coerced h v1 v2 else (v1, v2) in
  compares op expectedSum a b.

Definition comparison_message (field1 op field2 : value) : string :=
  "Comparison validation failed: " ++ ToString field1 ++ " " ++ ToString op
  ++ " " ++ ToString field2 ++ " condition not met".

(** *** Legacy conditions (section 4.7e)

    "recognizes exactly one of the substrings ==, !=, >=, <=, >, <,
    includes (checked in that priority order against the expression
    text)" *)

Inductive operator : Type :=
| OpEq | OpNe | OpGe | OpLe | OpGt | OpLt | OpIncludes.

Definition text (op : operator) : string :=
  match op with
  | OpEq => "==" | OpNe => "!=" | OpGe => ">=" | OpLe => "<="
  | OpGt => ">" | OpLt => "<" | OpIncludes => "includes"
  end.

Definition priority : list operator :=
  [OpEq; OpNe; OpGe; OpLe; OpGt; OpLt; OpIncludes].

(** The operator an expression selects: the first of [priority] whose
    text occurs in it. *)
Definition selected (expression : string) : option operator :=
  find (fun op => JSString.includes expression (text op)) priority.

(** "compares the dependent field's value against the right-hand
    operand": equality is loose, orderings are numeric, [includes] is on
    strings. *)
Definition holds (op : operator) (dependentValue operand : value) : bool :=
  match op with
  | OpEq => loose_equals dependentValue operand
  | OpNe => negb (loose_equals dependentValue operand)
  | OpGe => leb (ToNumber operand) (ToNumber dependentValue)
  | OpLe => leb (ToNumber dependentValue) (ToNumber operand)
  | OpGt => ltb (ToNumber operand) (ToNumber dependentValue)
  | OpLt => ltb (ToNumber dependentValue) (ToNumber operand)
  | OpIncludes =>
      JSString.includes (ToString dependentValue) (ToString operand)
  end.

(** "the operand may be a field reference written as {fieldName}
    (resolved from the record) or a literal" *)
Inductive operand : Type :=
| FieldReference (fieldName : string)
| Literal (v : value).

Definition denotes (o : operand) (d : object) : value :=
  match o with
  | FieldReference f => get d f
  | Literal v => v
  end.

(** The text strictly between the braces of [s], when [s] has the shape
    of a field reference. *)
Definition reading (v : value) : operand :=
  match v with
  | VStr (String first rest) =>
      match JSString.rev rest with
      | String final inner =>
          if Ascii.eqb first "{" && Ascii.eqb final "}"
          then FieldReference (JSString.rev inner)
          else Literal v
      | EmptyString => Literal v
      end
  | _ => Literal v
  end.

(** The operand is read from the record itself: a literal, or a
    reference to a field that the record has or that is no member of
    [Object.prototype]. *)
Definition operand_reads_own (o : operand) (d : object) : bool :=
  match o with
  | FieldReference f => reads_own d f
  | Literal _ => true
  end.

(** *** The RuleDefinition shape (sections 3 and 7)

    [configuration] is an object, and the keys documented as regular
    expressions ([pattern], and [targetCondition.pattern]) hold
    patterns that [RegExp] accepts whenever they are set. *)

Definition compiles (h : Host.t) (source flags : string) : Prop :=
  exists regex, Host.RegExp_new h source flags = Normal regex.

Definition is_pattern (h : Host.t) (p : value) : Prop :=
  ToBoolean p = true -> compiles h (ToString p) "".

Definition well_shaped (h : Host.t) (r : rule) : Prop :=
  exists c,
    configuration r = Some c
    /\ is_pattern h (pattern c)
    /\ forall tc, targetCondition c = Some tc -> is_pattern h (tc_pattern tc).

(** The host accepts the two regular-expression literals of the source. *)
Definition accepts_literals (h : Host.t) : Prop :=
  compiles h emailRegex "" /\ compiles h phoneRegex "".

(** *** Messages (section 3)

    "message (string, populated on failure ...)" *)

Definition populated (message : value) : Prop :=
  exists s, message = VStr s /\ s <> "".

(** A cross-field rule whose configuration names none of the four
    types: the legacy mode. *)
Definition legacy_mode (r : rule) : Prop :=
  ruleType r = VStr "crossField"
  /\ exists c,
      configuration r = Some c
      /\ strict_equals (type c) (VStr "conditional") = false
      /\ strict_equals (type c) (VStr "comparison") = false
      /\ strict_equals (type c) (VStr "dependency") = false
      /\ strict_equals (type c) (VStr "businessRule") = false.

(** The target pattern of a rule needs no regular expression, or needs
    one that [RegExp] accepts. *)
Definition target_compiles (h : Host.t) (target : string) : Prop :=
  target = "*"
  \/ JSString.includes target "*" = false
  \/ compiles h ("^" ++ JSString.replace_stars target ++ "$") "i".

End Spec.

(* ================================================================== *)
(** ** Rules and records used in the examples *)

Module Examples.
Import JSNumber JS Engine.
Open Scope string_scope.

Definition num (z : Z) : value := VNum (of_Z z).

(** [{ id, name, ruleType, target: { field }, configuration }] *)
Definition a_rule (kind target : string) (c : configuration_object) : rule :=
  {| id := VStr (kind ++ "-rule"); name := VStr kind; ruleType := VStr kind;
     target_field := target; configuration := Some c;
     severity := VUndefined; enabled := VUndefined |}.

(** [{ min, max, inclusive }] *)
Definition range_keys (min max inclusive : value) : configuration_object :=
  {| dataType := VUndefined; pattern := VUndefined;
     min := min; max := max; inclusive := inclusive;
     required := VUndefined; notEmpty := VUndefined; minLength := VUndefined;
     type := VUndefined;
     conditionField := VUndefined; conditionValue := VUndefined;
     conditionOperator := VUndefined; targetField := VUndefined;
     targetCondition := None;
     field1 := VUndefined; field2 := VUndefined;
     comparisonOperator := VUndefined; expectedSum := VUndefined;
     dependentField := VUndefined; requiredValue := VUndefined;
     businessRule := VUndefined; condition := VUndefined |}.

(** [{ required, notEmpty, minLength }] *)
Definition completeness_keys (required notEmpty minLength : value)
  : configuration_object :=
  {| dataType := VUndefined; pattern := VUndefined;
     min := VUndefined; max := VUndefined; inclusive := VUndefined;
     required := required; notEmpty := notEmpty; minLength := minLength;
     type := VUndefined;
     conditionField := VUndefined; conditionValue := VUndefined;
     conditionOperator := VUndefined; targetField := VUndefined;
     targetCondition := None;
     field1 := VUndefined; field2 := VUndefined;
     comparisonOperator := VUndefined; expectedSum := VUndefined;
     dependentField := VUndefined; requiredValue := VUndefined;
     businessRule := VUndefined; condition := VUndefined |}.

(** [{ type: 'comparison', field1, field2, comparisonOperator }] *)
Definition comparison_keys (field1 field2 comparisonOperator : string)
  : configuration_object :=
  {| dataType := VUndefined; pattern := VUndefined;
     min := VUndefined; max := VUndefined; inclusive := VUndefined;
     required := VUndefined; notEmpty := VUndefined; minLength := VUndefined;
     type := VStr "comparison";
     conditionField := VUndefined; conditionValue := VUndefined;
     conditionOperator := VUndefined; targetField := VUndefined;
     targetCondition := None;
     field1 := VStr field1; field2 := VStr field2;
     comparisonOperator := VStr comparisonOperator; expectedSum := VUndefined;
     dependentField := VUndefined; requiredValue := VUndefined;
     businessRule := VUndefined; condition := VUndefined |}.

(** [{ dependentField, condition }], the legacy cross-field shape. *)
Definition legacy_keys (dependentField condition : string)
  : configuration_object :=
  {| dataType := VUndefined; pattern := VUndefined;
     min := VUndefined; max := VUndefined; inclusive := VUndefined;
     required := VUndefined; notEmpty := VUndefined; minLength := VUndefined;
     type := VUndefined;
     conditionField := VUndefined; conditionValue := VUndefined;
     conditionOperator := VUndefined; targetField := VUndefined;
     targetCondition := None;
     field1 := VUndefined; field2 := VUndefined;
     comparisonOperator := VUndefined; expectedSum := VUndefined;
     dependentField := VStr dependentField; requiredValue := VUndefined;
     businessRule := VUndefined; condition := VStr condition |}.

(** [{ min: 0, max: 150, inclusive: true }] on the field [age]. *)
Definition age_range : rule :=
  a_rule "range" "age" (range_keys (num 0) (num 150) (VBool true)).

(** A range rule with no bound at all. *)
Definition unbounded : rule :=
  a_rule "range" "age" (range_keys VUndefined VUndefined VUndefined).

(** [{ required: true, notEmpty: true }] on the field [name]. *)
Definition name_complete : rule :=
  a_rule "completeness" "name"
         (completeness_keys (VBool true) (VBool true) VUndefined).

(** [startDate] before [endDate]. *)
Definition start_before_end : rule :=
  a_rule "crossField" "startDate"
         (comparison_keys "startDate" "endDate" "lessThan").

(** [quantity] equal to [shipped]. *)
Definition quantity_shipped : rule :=
  a_rule "crossField" "quantity" (comparison_keys "quantity" "shipped" "equals").

(** The legacy rule "age >= 18", attached to the field [age]. *)
Definition adult : rule :=
  a_rule "crossField" "age" (legacy_keys "age" "age >= 18").

(** A legacy rule whose condition names none of the seven operators. *)
Definition adult_in_words : rule :=
  a_rule "crossField" "age" (legacy_keys "age" "age is adult").

(** A legacy rule whose operand refers to another field of the
    record. *)
Definition within_limit : rule :=
  a_rule "crossField" "total" (legacy_keys "total" "total <= {limit}").

(** A uniqueness rule on every field. *)
Definition unique_everywhere : rule :=
  a_rule "uniqueness" "*" no_keys.

(** A completeness rule on every field. *)
Definition all_required : rule :=
  a_rule "completeness" "*"
         (completeness_keys (VBool true) (VBool true) VUndefined).

(** [{ dataType, pattern }] *)
Definition format_keys (dataType pattern : value) : configuration_object :=
  {| dataType := dataType; pattern := pattern;
     min := VUndefined; max := VUndefined; inclusive := VUndefined;
     required := VUndefined; notEmpty := VUndefined; minLength := VUndefined;
     type := VUndefined;
     conditionField := VUndefined; conditionValue := VUndefined;
     conditionOperator := VUndefined; targetField := VUndefined;
     targetCondition := None;
     field1 := VUndefined; field2 := VUndefined;
     comparisonOperator := VUndefined; expectedSum := VUndefined;
     dependentField := VUndefined; requiredValue := VUndefined;
     businessRule := VUndefined; condition := VUndefined |}.

(** A range rule on the fields whose name starts with [price (]. *)
Definition price_range : rule :=
  a_rule "range" "price (*" (range_keys (num 0) VUndefined VUndefined).

(** A format rule whose pattern opens a group and never closes it. *)
Definition unclosed_pattern : rule :=
  a_rule "format" "code" (format_keys VUndefined (VStr "(")).

(** What [validate] pushes for the rule [adult] on a record whose [age]
    is 15. *)
Definition adult_result_at_15 : ValidationResult :=
  {| res_ruleId := VStr "crossField-rule";
     res_ruleName := VStr "crossField";
     res_field := "age";
     res_value := num 15;
     res_severity := VStr "error";
     res_message := VUndefined;
     res_passed := false |}.

(** A completeness rule on the fields whose name starts with
    [contact]. *)
Definition contact_required : rule :=
  a_rule "completeness" "contact*"
         (completeness_keys (VBool true) VUndefined VUndefined).

(** The regular expression the reference host builds for that target,
    [new RegExp('^contact.*$', 'i')]. *)
Definition contact_regex : RefHost.regex :=
  match RefHost.RegExp_new "^contact.*$" "i" with
  | Normal regex => regex
  | Throw _ => RefHost.Eps
  end.

(** [{ type: 'dependency', dependentField, requiredValue, targetField }] *)
Definition dependency_keys (dependentField : string) (requiredValue : value)
           (targetField : string) : configuration_object :=
  {| dataType := VUndefined; pattern := VUndefined;
     min := VUndefined; max := VUndefined; inclusive := VUndefined;
     required := VUndefined; notEmpty := VUndefined; minLength := VUndefined;
     type := VStr "dependency";
     conditionField := VUndefined; conditionValue := VUndefined;
     conditionOperator := VUndefined; targetField := VStr targetField;
     targetCondition := None;
     field1 := VUndefined; field2 := VUndefined;
     comparisonOperator := VUndefined; expectedSum := VUndefined;
     dependentField := VStr dependentField; requiredValue := requiredValue;
     businessRule := VUndefined; condition := VUndefined |}.

(** [{ type: 'conditional', conditionField, conditionValue, targetField,
       targetCondition }] *)
Definition conditional_keys (conditionField : string) (conditionValue : value)
           (targetField : string) (targetCondition : target_condition)
  : configuration_object :=
  {| dataType := VUndefined; pattern := VUndefined;
     min := VUndefined; max := VUndefined; inclusive := VUndefined;
     required := VUndefined; notEmpty := VUndefined; minLength := VUndefined;
     type := VStr "conditional";
     conditionField := VStr conditionField; conditionValue := conditionValue;
     conditionOperator := VUndefined; targetField := VStr targetField;
     targetCondition := Some targetCondition;
     field1 := VUndefined; field2 := VUndefined;
     comparisonOperator := VUndefined; expectedSum := VUndefined;
     dependentField := VUndefined; requiredValue := VUndefined;
     businessRule := VUndefined; condition := VUndefined |}.

(** [{ type: 'required' }] *)
Definition required_condition : target_condition :=
  {| tc_type := VStr "required"; tc_pattern := VUndefined;
     tc_min := VUndefined; tc_max := VUndefined; tc_message := VUndefined |}.

(** [{ type: 'range', min, max }] *)
Definition range_condition (min max : value) : target_condition :=
  {| tc_type := VStr "range"; tc_pattern := VUndefined;
     tc_min := min; tc_max := max; tc_message := VUndefined |}.

(** When [needsShipping] is true, [shippingAddress] is required: as a
    dependency rule and as a conditional rule. *)
Definition shipping_dependency : rule :=
  a_rule "crossField" "shippingAddress"
         (dependency_keys "needsShipping" (VBool true) "shippingAddress").

Definition shipping_conditional : rule :=
  a_rule "crossField" "shippingAddress"
         (conditional_keys "needsShipping" (VBool true) "shippingAddress"
                           required_condition).

(** A dependency rule that names no required value. *)
Definition guardian_dependency : rule :=
  a_rule "crossField" "guardianEmail"
         (dependency_keys "age" VUndefined "guardianEmail").

(** [{ type: 'format', pattern }] *)
Definition format_condition (pattern : value) : target_condition :=
  {| tc_type := VStr "format"; tc_pattern := pattern;
     tc_min := VUndefined; tc_max := VUndefined; tc_message := VUndefined |}.

(** A format rule asking for capital letters only. *)
Definition capitals : rule :=
  a_rule "format" "code" (format_keys VUndefined (VStr "^[A-Z]+$")).

(** When [amount] is above 1000, [approval] is required: a conditional
    rule with an ordering operator. *)
Definition above_threshold : rule :=
  a_rule "crossField" "approval"
    {| dataType := VUndefined; pattern := VUndefined;
       min := VUndefined; max := VUndefined; inclusive := VUndefined;
       required := VUndefined; notEmpty := VUndefined; minLength := VUndefined;
       type := VStr "conditional";
       conditionField := VStr "amount"; conditionValue := num 1000;
       conditionOperator := VStr "greaterThan"; targetField := VStr "approval";
       targetCondition := Some required_condition;
       field1 := VUndefined; field2 := VUndefined;
       comparisonOperator := VUndefined; expectedSum := VUndefined;
       dependentField := VUndefined; requiredValue := VUndefined;
       businessRule := VUndefined; condition := VUndefined |}.

(** A completeness rule asking for at least three characters. *)
Definition three_characters : rule :=
  a_rule "completeness" "name"
         (completeness_keys VUndefined VUndefined (num 3)).

End Examples.

(* ================================================================== *)
(** ** The results of a run, without the engine's state

    What [validate] pushes, written as a function of the rules and the
    record alone.  These definitions are not methods of the class; the
    properties relate [validate] to them. *)

Module Outline.
Import JS Engine.
Open Scope string_scope.

(** [rule.enabled !== false] *)
Definition is_enabled (r : rule) : bool :=
  negb (strict_equals (enabled r) (VBool false)).

(** The object literal that [applyRule] pushes. *)
Definition result_of (r : rule) (field : string) (fieldValue : value)
           (o : outcome) : ValidationResult :=
  {| res_ruleId := id r;
     res_ruleName := name r;
     res_field := field;
     res_value := fieldValue;
     res_severity := or_else (severity r) (VStr "error");
     res_message := message o;
     res_passed := passed o |}.

(** The results of one rule on the given fields, in order. *)
Fixpoint on_fields (h : Host.t) (r : rule) (d : object)
         (fields : list string) : completion (list ValidationResult) :=
  match fields with
  | [] => Normal []
  | field :: rest =>
      bind (executeRule h r (get d field) d) (fun o =>
      bind (on_fields h r d rest) (fun others =>
      Normal (result_of r field (get d field) o :: others)))
  end.

(** The results of one rule on its matching fields. *)
Definition of_rule (h : Host.t) (r : rule) (d : object)
  : completion (list ValidationResult) :=
  bind (findMatchingFields h (target_field r) d) (on_fields h r d).

(** The results of the enabled rules, rule after rule. *)
Fixpoint of_rules (h : Host.t) (rs : list rule) (d : object)
  : completion (list ValidationResult) :=
  match rs with
  | [] => Normal []
  | r :: rest =>
      if is_enabled r then
        bind (of_rule h r d) (fun first =>
        bind (of_rules h rest d) (fun others =>
        Normal (first ++ others)%list))
      else of_rules h rest d
  end.

(** What the caller of [validate] receives: the returned array, or the
    exception. *)
Definition returned (c : completion (list ValidationResult * engine))
  : completion (list ValidationResult) :=
  bind c (fun p => Normal (fst p)).

End Outline.

(* ================================================================== *)
(** ** The validation endpoint (validation-framework/src/index.js)

    The handler of [POST /validate], from the point where the rules
    have been obtained: [rules] is what the rule source returned.
    [data] is [req.body.data]: [None] when it is absent or falsy, an
    object otherwise.  The handler answers through [res]; the model
    returns that answer. *)

Module Server.
Import JS Engine.
Open Scope string_scope.

(** [{ total, passed, failed }] *)
Record summary : Type := {
  total : nat;
  passed_count : nat;
  failed_count : nat
}.

(** The JSON bodies the handler sends. *)
Inductive body : Type :=
| Error (error : string)
| Report (valid : bool) (passed failed : list ValidationResult)
         (summary : summary).

Record response : Type := {
  status : nat;
  json : body
}.

(** The body of [app.post('/validate', ...)]. *)
Definition post_validate (h : Host.t) (rules : list rule)
           (data : option object) (validationEngine : engine) : response :=
  match data with
  | None =>
      {| status := 400; json := Error "Data is required for validation" |}
  | Some data =>
      let validationEngine := loadRules rules validationEngine in
      match validate h data validationEngine with
      | Normal (results, _) =>
          let passed := filter (fun r => res_passed r) results in
          let failed := filter (fun r => negb (res_passed r)) results in
          {| status := 200;
             json := Report (List.length failed =? 0)%nat passed failed
                       {| total := List.length results;
                          passed_count := List.length passed;
                          failed_count := List.length failed |} |}
      | Throw error =>
          {| status := 500; json := Error (error_message error) |}
      end
  end.

End Server.

(* ================================================================== *)
(** ** Properties *)

Import JSNumber JS Engine.
Open Scope string_scope.
Unset Implicit Arguments.

(** *** Values *)

Lemma strict_equals_string (v : value) (s : string) :
  strict_equals v (VStr s) = true -> v = VStr s.
Proof.
  destruct v; simpl; try discriminate.
  intros H. apply String.eqb_eq in H. now subst.
Qed.

Lemma strict_equals_undefined (v : value) :
  strict_equals v VUndefined = true <-> v = VUndefined.
Proof.
  split.
  - destruct v; simpl; congruence.
  - intros ->. reflexivity.
Qed.

Lemma is_nullish_number (x : number) : is_nullish (VNum x) = false.
Proof. reflexivity. Qed.

Lemma is_nullish_string (s : string) : is_nullish (VStr s) = false.
Proof. reflexivity. Qed.

(** Against zero, [<=] one way excludes [<] the other way, for every
    number, NaN and the infinities included. *)
Lemma leb_zero_not_ltb (x : number) :
  leb x Spec.zero = true -> ltb Spec.zero x = false.
Proof. destruct x as [s | s | | s m e]; try destruct s; cbv; congruence. Qed.

Lemma ltb_zero_not_leb (x : number) :
  ltb x Spec.zero = true -> leb Spec.zero x = false.
Proof. destruct x as [s | s | | s m e]; try destruct s; cbv; congruence. Qed.

Lemma zero_leb_not_ltb (x : number) :
  leb Spec.zero x = true -> ltb x Spec.zero = false.
Proof. destruct x as [s | s | | s m e]; try destruct s; cbv; congruence. Qed.

Lemma zero_ltb_not_leb (x : number) :
  ltb Spec.zero x = true -> leb x Spec.zero = false.
Proof. destruct x as [s | s | | s m e]; try destruct s; cbv; congruence. Qed.

(** *** The range validator *)

(** Past its two guards, the method computes the verdict of the
    specification: the [passed] flag that guards the maximum check is
    the "else" of "Else above maximum". *)
Lemma validateRange_verdict (rule : rule) (c : configuration_object)
      (value : JS.value) :
  configuration rule = Some c ->
  is_nullish value = false ->
  isNaN (ToNumber value) = false ->
  validateRange rule value = Normal (Spec.range_verdict c (ToNumber value)).
Proof.
  intros Hc Hnull Hnan.
  unfold validateRange. rewrite Hnull, Hnan, Hc.
  unfold Spec.range_verdict, Spec.below_minimum, Spec.above_maximum,
    Spec.bound_message, Spec.is_inclusive.
  cbv zeta.
  destruct (strict_equals (min c) VUndefined),
    (strict_equals (max c) VUndefined),
    (strict_equals (inclusive c) (VBool false)); cbn [negb andb];
    repeat match goal with
      | |- context [if ?b then _ else _] => destruct b; cbn [negb andb]
      end; reflexivity.
Qed.

Lemma validateRange_not_a_number (rule : rule) (value : JS.value) :
  is_nullish value = false ->
  isNaN (ToNumber value) = true ->
  validateRange rule value = Normal (fail (Spec.not_a_number_message value)).
Proof.
  intros Hnull Hnan. unfold validateRange. now rewrite Hnull, Hnan.
Qed.

(** A value that coerces to a number other than NaN is validated as
    that number. *)
Lemma validateRange_as_number (rule : rule) (value : JS.value) :
  is_nullish value = false ->
  isNaN (ToNumber value) = false ->
  validateRange rule value = validateRange rule (VNum (ToNumber value)).
Proof.
  intros Hnull Hnan. unfold validateRange.
  rewrite Hnull, is_nullish_number. cbn [ToNumber]. now rewrite Hnan.
Qed.

Lemma less_than_number_l (x : number) (v : value) :
  less_than (VNum x) v = ltb x (ToNumber v).
Proof. reflexivity. Qed.

Lemma less_than_number_r (v : value) (x : number) :
  less_than v (VNum x) = ltb (ToNumber v) x.
Proof. now destruct v. Qed.

Lemma less_equal_number_l (x : number) (v : value) :
  less_equal (VNum x) v = leb x (ToNumber v).
Proof. reflexivity. Qed.

Lemma less_equal_number_r (v : value) (x : number) :
  less_equal v (VNum x) = leb (ToNumber v) x.
Proof. now destruct v. Qed.

(** With zero inside the bounds, neither check of the verdict fires. *)
Lemma range_verdict_zero (c : configuration_object) :
  Spec.zero_within_bounds c ->
  Spec.range_verdict c Spec.zero = {| passed := true; message := VStr "" |}.
Proof.
  intros [Hmin Hmax].
  assert (Hb : Spec.below_minimum c Spec.zero = false).
  { unfold Spec.below_minimum.
    destruct Hmin as [-> | Hmin]; [reflexivity |].
    destruct (strict_equals (min c) VUndefined); [reflexivity |].
    cbn [negb andb].
    destruct (Spec.is_inclusive c).
    - rewrite less_equal_number_r in Hmin. rewrite less_than_number_l.
      now apply leb_zero_not_ltb.
    - rewrite less_than_number_r in Hmin. rewrite less_equal_number_l.
      now apply ltb_zero_not_leb. }
  assert (Ha : Spec.above_maximum c Spec.zero = false).
  { unfold Spec.above_maximum, greater_than, greater_equal.
    destruct Hmax as [-> | Hmax]; [reflexivity |].
    destruct (strict_equals (max c) VUndefined); [reflexivity |].
    cbn [negb andb].
    destruct (Spec.is_inclusive c).
    - rewrite less_equal_number_l in Hmax. rewrite less_than_number_r.
      now apply zero_leb_not_ltb.
    - rewrite less_than_number_l in Hmax. rewrite less_equal_number_r.
      now apply zero_ltb_not_leb. }
  unfold Spec.range_verdict. now rewrite Hb, Ha.
Qed.

(** C4 as stated does not hold.  The string "Infinity" is neither null
    nor undefined and coerces to positive infinity, which is not a finite
    number; a range rule without bounds passes it, so the validator does
    not fail with the message "not a valid number for range
    validation". *)
Lemma range_passes_Infinity :
  is_nullish (VStr "Infinity") = false
  /\ Spec.is_finite (ToNumber (VStr "Infinity")) = false
  /\ validateRange Examples.unbounded (VStr "Infinity")
     = Normal {| passed := true; message := VStr "" |}
  /\ validateRange Examples.unbounded (VStr "Infinity")
     <> Normal (fail (Spec.not_a_number_message (VStr "Infinity"))).
Proof.
  assert (H : validateRange Examples.unbounded (VStr "Infinity")
              = Normal {| passed := true; message := VStr "" |})
    by (vm_compute; reflexivity).
  repeat split; try reflexivity; try exact H.
  rewrite H. discriminate.
Qed.

(** C4, amended.  For every value other than null and undefined: when
    the value coerces to NaN the range validator fails with
    "Value '<value>' is not a valid number for range validation",
    whatever the rule; when it coerces to any other number, the
    infinities included, the validator does not reject it as
    non-numeric: it validates it as that number, against the minimum
    and the maximum. *)
Theorem range_rejects_NaN_only (rule : rule) (value : JS.value) :
  is_nullish value = false ->
  (isNaN (ToNumber value) = true ->
   validateRange rule value
   = Normal (fail (Spec.not_a_number_message value)))
  /\ (isNaN (ToNumber value) = false ->
      validateRange rule value = validateRange rule (VNum (ToNumber value))
      /\ forall c, configuration rule = Some c ->
                   validateRange rule value
                   = Normal (Spec.range_verdict c (ToNumber value))).
Proof.
  intros Hnull. split; intros Hnan.
  - now apply validateRange_not_a_number.
  - split.
    + now apply validateRange_as_number.
    + intros c Hc. now apply validateRange_verdict.
Qed.

Lemma range_rejects_NaN_only_witness :
  is_nullish (VStr "abc") = false
  /\ validateRange Examples.age_range (VStr "abc")
     = Normal (fail "Value 'abc' is not a valid number for range validation")
  /\ validateRange Examples.age_range (VStr "Infinity")
     = validateRange Examples.age_range (VNum (S754_infinity false)).
Proof.
  split; [reflexivity |]. split.
  - apply (proj1 (range_rejects_NaN_only Examples.age_range (VStr "abc")
                    eq_refl)).
    reflexivity.
  - apply (proj2 (range_rejects_NaN_only Examples.age_range (VStr "Infinity")
                    eq_refl)).
    reflexivity.
Defined.

(** C5.  For every numeric value and every range configuration with
    both bounds set, the validator returns the verdict in which the
    minimum is checked first and the maximum only otherwise; a value
    below the minimum is reported with the minimum's message, whatever
    the maximum is.  With min 0, max 150, inclusive: 150 passes, 151
    and -1 fail, and "abc" fails with the non-numeric message. *)
Theorem range_minimum_before_maximum :
  (forall (rule : rule) (c : configuration_object) (value : JS.value),
      configuration rule = Some c ->
      is_nullish value = false ->
      isNaN (ToNumber value) = false ->
      min c <> VUndefined ->
      max c <> VUndefined ->
      validateRange rule value
      = Normal (Spec.range_verdict c (ToNumber value))
      /\ (Spec.below_minimum c (ToNumber value) = true ->
          validateRange rule value
          = Normal (fail (Spec.bound_message c (ToNumber value)
                                             "below minimum" (min c)))))
  /\ validateRange Examples.age_range (Examples.num 150)
     = Normal {| passed := true; message := VStr "" |}
  /\ validateRange Examples.age_range (Examples.num 151)
     = Normal (fail "Value 151 is above maximum limit of 150")
  /\ validateRange Examples.age_range (Examples.num (-1))
     = Normal (fail "Value -1 is below minimum limit of 0")
  /\ validateRange Examples.age_range (VStr "abc")
     = Normal (fail "Value 'abc' is not a valid number for range validation").
Proof.
  split; [| repeat split; vm_compute; reflexivity].
  intros rule c value Hc Hnull Hnan _ _.
  pose proof (validateRange_verdict rule c value Hc Hnull Hnan) as H.
  split; [exact H |].
  intros Hbelow. rewrite H. unfold Spec.range_verdict. now rewrite Hbelow.
Qed.

Lemma range_minimum_before_maximum_witness :
  Spec.below_minimum (Examples.range_keys (Examples.num 10) (Examples.num 5)
                                          (VBool true))
                     (ToNumber (Examples.num 7)) = true
  /\ Spec.above_maximum (Examples.range_keys (Examples.num 10) (Examples.num 5)
                                             (VBool true))
                        (ToNumber (Examples.num 7)) = true
  /\ validateRange
       (Examples.a_rule "range" "age"
          (Examples.range_keys (Examples.num 10) (Examples.num 5) (VBool true)))
       (Examples.num 7)
     = Normal (fail "Value 7 is below minimum limit of 10").
Proof.
  split; [reflexivity |]. split; [reflexivity |].
  apply (proj1 range_minimum_before_maximum
           (Examples.a_rule "range" "age"
              (Examples.range_keys (Examples.num 10) (Examples.num 5)
                                   (VBool true)))
           _ (Examples.num 7) eq_refl eq_refl eq_refl);
    [discriminate | discriminate | reflexivity].
Defined.

(** C9.  The empty string is not reported as non-numeric by the range
    validator, for any configuration: it coerces to the number 0 and is
    validated exactly as 0 is, against the minimum and the maximum; it
    passes whenever 0 lies within the configured bounds. *)
Theorem range_reads_empty_string_as_zero :
  ToNumber (VStr "") = Spec.zero
  /\ (forall rule : rule,
         validateRange rule (VStr "") = validateRange rule (VNum Spec.zero))
  /\ (forall (rule : rule) (c : configuration_object),
         configuration rule = Some c ->
         validateRange rule (VStr "")
         = Normal (Spec.range_verdict c Spec.zero)
         /\ (Spec.zero_within_bounds c ->
             validateRange rule (VStr "")
             = Normal {| passed := true; message := VStr "" |})).
Proof.
  split; [reflexivity |]. split.
  - intros rule. now apply (validateRange_as_number rule (VStr "")).
  - intros rule c Hc.
    assert (H : validateRange rule (VStr "")
                = Normal (Spec.range_verdict c Spec.zero))
      by now apply (validateRange_verdict rule c (VStr "") Hc).
    split; [exact H |].
    intros Hin. rewrite H. now rewrite range_verdict_zero.
Qed.

Lemma range_reads_empty_string_as_zero_witness :
  Spec.zero_within_bounds
    (Examples.range_keys (Examples.num 0) (Examples.num 150) (VBool true))
  /\ validateRange Examples.age_range (VStr "")
     = Normal {| passed := true; message := VStr "" |}.
Proof.
  assert (Hin : Spec.zero_within_bounds
                  (Examples.range_keys (Examples.num 0) (Examples.num 150)
                                       (VBool true)))
    by (split; right; reflexivity).
  split; [exact Hin |].
  apply (proj2 (proj2 range_reads_empty_string_as_zero)
           Examples.age_range _ eq_refl).
  exact Hin.
Defined.

(** *** The completeness validator *)

Lemma validateCompleteness_first_failure
      (rule : rule) (c : configuration_object) (value : JS.value) :
  configuration rule = Some c ->
  validateCompleteness rule value
  = Normal (Spec.first_failure [Spec.required_check c value;
                                Spec.notEmpty_check c value;
                                Spec.minLength_check c value]).
Proof.
  intros Hc. unfold validateCompleteness. rewrite Hc.
  unfold Spec.required_check, Spec.notEmpty_check, Spec.minLength_check.
  cbv zeta.
  destruct (strict_equals (required c) (VBool true)),
    (is_nullish value),
    (strict_equals (notEmpty c) (VBool true)),
    (String.eqb (JSString.trim (ToString value)) ""),
    (strict_equals (minLength c) VUndefined);
    cbn [negb andb orb Spec.first_failure]; try reflexivity;
    destruct (less_than _ (minLength c)); reflexivity.
Qed.

(** C6.  The completeness validator returns the first failure among its
    three checks taken in the order required, notEmpty, minLength; a
    check whose key is absent from the configuration never fails; and
    with [{required: true, notEmpty: true}] the value [""] fails with
    "Field must not be empty", not with the required-field message. *)
Theorem completeness_checks_in_order :
  (forall (rule : rule) (c : configuration_object) (value : JS.value),
      configuration rule = Some c ->
      validateCompleteness rule value
      = Normal (Spec.first_failure [Spec.required_check c value;
                                    Spec.notEmpty_check c value;
                                    Spec.minLength_check c value]))
  /\ (forall (c : configuration_object) (value : JS.value),
         (required c = VUndefined -> Spec.required_check c value = None)
         /\ (notEmpty c = VUndefined -> Spec.notEmpty_check c value = None)
         /\ (minLength c = VUndefined -> Spec.minLength_check c value = None))
  /\ validateCompleteness Examples.name_complete (VStr "")
     = Normal (fail "Field must not be empty")
  /\ Spec.required_check
       (Examples.completeness_keys (VBool true) (VBool true) VUndefined)
       (VStr "") = None.
Proof.
  split; [exact validateCompleteness_first_failure |].
  split; [| split; reflexivity].
  intros c value. unfold Spec.required_check, Spec.notEmpty_check,
    Spec.minLength_check.
  repeat split; intros ->; reflexivity.
Qed.

Lemma completeness_checks_in_order_witness :
  validateCompleteness
    (Examples.a_rule "completeness" "name"
       (Examples.completeness_keys (VBool true) (VBool true) (Examples.num 3)))
    VNull
  = Normal (fail "Required field is missing").
Proof.
  rewrite (proj1 completeness_checks_in_order
             (Examples.a_rule "completeness" "name"
                (Examples.completeness_keys (VBool true) (VBool true)
                                            (Examples.num 3)))
             _ VNull eq_refl).
  reflexivity.
Defined.

(** *** The uniqueness validator *)

Lemma count_fold_left {A : Type} (p : A -> bool) (l : list A) (n : nat) :
  fold_left (fun count x => if p x then S count else count) l n
  = (n + List.length (filter p l))%nat.
Proof.
  revert n. induction l as [| x l IH]; intros n; simpl.
  - now rewrite Nat.add_0_r.
  - rewrite IH. destruct (p x); simpl; lia.
Qed.

(** In a record without repeated keys, reading a key gives the value
    stored with it. *)
Lemma get_of_entry (d : object) (k : string) (v : value) :
  NoDup (keys d) -> In (k, v) d -> get d k = v.
Proof.
  unfold get, keys. induction d as [| [k' v'] d IH]; simpl; [easy |].
  intros Hnd [Heq | Hin].
  - injection Heq as -> ->. now rewrite String.eqb_refl.
  - inversion Hnd as [| ? ? Hnotin Hnd']; subst.
    destruct (String.eqb_spec k' k) as [-> | _].
    + exfalso. apply Hnotin. now apply (in_map fst) in Hin.
    + now apply IH.
Qed.

Lemma count_by_key (d : object) (p : value -> bool) :
  NoDup (keys d) ->
  List.length (filter (fun field => p (get d field)) (keys d))
  = List.length (filter (fun kv => p (snd kv)) d).
Proof.
  intros Hnd. unfold keys. rewrite filter_map_swap, length_map.
  f_equal. apply filter_ext_in. intros [k v] Hin. simpl.
  now rewrite (get_of_entry d k v Hnd Hin).
Qed.


Lemma validateUniqueness_occurrences
      (rule : rule) (value : JS.value) (d : object) :
  NoDup (keys d) ->
  is_nullish value = false ->
  validateUniqueness rule value d
  = if (1 <? Spec.occurrences value d)%nat
    then fail ("Value '" ++ ToString value
               ++ "' is not unique within the dataset")
    else pass.
Proof.
  intros Hnd Hnull. unfold validateUniqueness, Spec.occurrences.
  rewrite Hnull, count_fold_left. cbn [Nat.add].
  now rewrite (count_by_key d (fun x => strict_equals x value) Hnd).
Qed.

Lemma strict_equals_same_type (a b : value) :
  typeof a <> typeof b -> strict_equals a b = false.
Proof. destruct a, b; simpl; intros H; try reflexivity; now elim H. Qed.

(** C10.  On a record (no field name repeated) and a value other than
    null and undefined, the uniqueness validator fails exactly when more
    than one field holds a value strictly equal to it; values of
    different types are never strictly equal, so the string "5" and the
    number 5, equal after coercion, do not count as duplicates of each
    other; and a value held by exactly one field passes. *)
Theorem uniqueness_counts_strictly_equal_fields :
  (forall (rule : rule) (value : JS.value) (d : object),
      NoDup (keys d) ->
      is_nullish value = false ->
      validateUniqueness rule value d
      = (if (1 <? Spec.occurrences value d)%nat
         then fail ("Value '" ++ ToString value
                    ++ "' is not unique within the dataset")
         else pass)
      /\ (Spec.occurrences value d = 1%nat ->
          validateUniqueness rule value d = pass))
  /\ (forall a b : value, typeof a <> typeof b -> strict_equals a b = false)
  /\ strict_equals (VStr "5") (Examples.num 5) = false
  /\ loose_equals (VStr "5") (Examples.num 5) = true
  /\ validateUniqueness Examples.unique_everywhere (VStr "5")
       [("code", VStr "5"); ("count", Examples.num 5)] = pass
  /\ validateUniqueness Examples.unique_everywhere (Examples.num 5)
       [("code", VStr "5"); ("count", Examples.num 5)] = pass
  /\ validateUniqueness Examples.unique_everywhere (VStr "5")
       [("code", VStr "5"); ("copy", VStr "5")]
     = fail "Value '5' is not unique within the dataset".
Proof.
  split; [| split; [exact strict_equals_same_type |
                    repeat split; vm_compute; reflexivity]].
  intros rule value d Hnd Hnull.
  pose proof (validateUniqueness_occurrences rule value d Hnd Hnull) as H.
  split; [exact H |].
  intros Hone. rewrite H, Hone. reflexivity.
Qed.

Lemma uniqueness_counts_strictly_equal_fields_witness :
  NoDup (keys [("code", VStr "5"); ("count", Examples.num 5);
               ("total", Examples.num 5)])
  /\ Spec.occurrences (VStr "5")
       [("code", VStr "5"); ("count", Examples.num 5);
        ("total", Examples.num 5)] = 1%nat
  /\ validateUniqueness Examples.unique_everywhere (VStr "5")
       [("code", VStr "5"); ("count", Examples.num 5);
        ("total", Examples.num 5)] = pass.
Proof.
  assert (Hnd : NoDup (keys [("code", VStr "5"); ("count", Examples.num 5);
                             ("total", Examples.num 5)])).
  { simpl. repeat constructor; simpl; intuition discriminate. }
  split; [exact Hnd |]. split; [reflexivity |].
  apply (proj1 uniqueness_counts_strictly_equal_fields
           Examples.unique_everywhere (VStr "5") _ Hnd eq_refl).
  reflexivity.
Defined.

(** *** Strings *)

Lemma append_assoc' (a b c : string) : ((a ++ b) ++ c = a ++ (b ++ c))%string.
Proof. induction a; simpl; congruence. Qed.
Lemma append_nil_r (a : string) : (a ++ "" = a)%string.
Proof. induction a; simpl; congruence. Qed.

Lemma rev_append_app (s acc : string) :
  JSString.rev_append s acc = (JSString.rev s ++ acc)%string.
Proof.
  unfold JSString.rev. revert acc.
  induction s as [| c s IH]; intros acc; simpl; [reflexivity |].
  rewrite (IH (String c acc)), (IH (String c "")).
  rewrite append_assoc'. reflexivity.
Qed.

Lemma rev_cons (c : ascii) (s : string) :
  JSString.rev (String c s) = (JSString.rev s ++ String c "")%string.
Proof. unfold JSString.rev at 1. simpl. apply rev_append_app. Qed.

Lemma rev_app (a b : string) :
  JSString.rev (a ++ b) = (JSString.rev b ++ JSString.rev a)%string.
Proof.
  induction a as [| c a IH]; simpl.
  - now rewrite append_nil_r.
  - now rewrite !rev_cons, IH, append_assoc'.
Qed.

Lemma rev_involutive (s : string) : JSString.rev (JSString.rev s) = s.
Proof.
  induction s as [| c s IH]; [reflexivity |].
  now rewrite rev_cons, rev_app, IH.
Qed.

Lemma substring_whole_prefix (a b : string) :
  String.substring 0 (String.length a) (a ++ b) = a.
Proof. induction a as [| c a IH]; simpl; [now destruct b | now rewrite IH]. Qed.

Lemma length_app (a b : string) :
  String.length (a ++ b) = (String.length a + String.length b)%nat.
Proof. induction a; simpl; congruence. Qed.

Lemma prefix_char (c c' : ascii) (s : string) :
  prefix (String c "") (String c' s) = Ascii.eqb c' c.
Proof.
  simpl. destruct (ascii_dec c c') as [-> | Hne].
  - rewrite Ascii.eqb_refl. now destruct s.
  - symmetry. apply Ascii.eqb_neq. congruence.
Qed.

Lemma resolveValue_denotes (v : value) (d : object) :
  resolveValue v d = Spec.denotes (Spec.reading v) d.
Proof.
  destruct v as [| | b | x | s]; try reflexivity.
  destruct s as [| first rest]; [reflexivity |].
  unfold resolveValue, Spec.reading, JSString.startsWith, JSString.endsWith.
  change (JSString.rev "}") with "}"%string.
  rewrite prefix_char, (rev_cons first rest).
  destruct (JSString.rev rest) as [| final inner] eqn:Hrev.
  - cbn [String.append Spec.denotes]. rewrite prefix_char. 
    destruct (Ascii.eqb first "{") eqn:E; [|reflexivity].
    apply Ascii.eqb_eq in E. subst. reflexivity.
  - change ((String final inner ++ String first "")%string) with (String final (inner ++ String first ""))%string.
    rewrite prefix_char.
    destruct (Ascii.eqb first "{" && Ascii.eqb final "}") eqn:E; [| reflexivity].
    apply andb_prop in E as [E1 E2]. apply Ascii.eqb_eq in E2. subst final.
    assert (Hrest : rest = (JSString.rev inner ++ "}")%string).
    { rewrite <- (rev_involutive rest), Hrev, rev_cons. reflexivity. }
    subst rest. simpl Spec.denotes. f_equal.
    unfold JSString.substring. simpl String.length.
    rewrite length_app. simpl String.length.
    replace (S (String.length (JSString.rev inner) + 1) - 1 - 1)%nat with (String.length (JSString.rev inner)) by lia.
    simpl. apply substring_whole_prefix.
Qed.

(** *** The legacy expression evaluator *)

Lemma find_first {A : Type} (p : A -> bool) (l : list A) (x : A) :
  find p l = Some x ->
  p x = true
  /\ exists before after,
      l = (before ++ x :: after)%list
      /\ forall y, In y before -> p y = false.
Proof.
  induction l as [| a l IH]; simpl; [discriminate |].
  destruct (p a) eqn:Hpa.
  - intros [= ->]. split; [exact Hpa |].
    exists [], l. split; [reflexivity | intros y []].
  - intros Hfind. destruct (IH Hfind) as [Hpx (before & after & -> & Hb)].
    split; [exact Hpx |].
    exists (a :: before), after. split; [reflexivity |].
    intros y [<- | Hin]; [exact Hpa | now apply Hb].
Qed.

Lemma evaluateExpression_selected (e : string) (v : value) (d : object) :
  evaluateExpression (VStr e) v d
  = Normal (match Spec.selected e with
            | Some op =>
                Spec.holds op v
                  (resolveValue (split_right e (Spec.text op)) d)
            | None => ToBoolean (VStr e)
            end).
Proof.
  unfold evaluateExpression, Spec.selected, Spec.priority.
  cbn [find Spec.text].
  repeat match goal with
    | |- context [if JSString.includes e ?op then _ else _] =>
        destruct (JSString.includes e op); [reflexivity |]
    end.
  reflexivity.
Qed.
Lemma prefix_app_self (a b : string) : prefix a (a ++ b) = true.
Proof.
  induction a as [| c a IH]; simpl; [now destruct b |].
  destruct (ascii_dec c c); [exact IH | congruence].
Qed.

Lemma split_from_skip (sep a r cur : string) :
  JSString.split_from sep (a ++ r) cur (String.length a)
  = JSString.split_from sep r cur 0.
Proof. induction a as [| c a IH]; simpl; [reflexivity | exact IH]. Qed.

(** When the first occurrence of the separator in [left ++ sep ++ right]
    is the one written out, the first piece is [left]. *)
Lemma split_from_first (sep left right : string) :
  sep <> "" ->
  (forall l1 l2, left = l1 ++ l2 -> l2 <> "" ->
                 prefix sep (l2 ++ sep ++ right) = false) ->
  forall cur,
    JSString.split_from sep (left ++ sep ++ right) cur 0
    = (JSString.rev cur ++ left) :: JSString.split_from sep right "" 0.
Proof.
  intros Hsep. induction left as [| c left IH]; intros Hfirst cur.
  - destruct sep as [| s sep']; [congruence |].
    cbn [String.append JSString.split_from].
    change (String s (sep' ++ right)) with (String s sep' ++ right).
    rewrite prefix_app_self, append_nil_r.
    replace (String.length (String s sep') - 1)%nat with (String.length sep')
      by (simpl; lia).
    now rewrite split_from_skip.
  - cbn [String.append JSString.split_from].
    change (String c (left ++ sep ++ right))
      with (String c left ++ sep ++ right).
    rewrite (Hfirst "" (String c left) eq_refl) by discriminate.
    rewrite IH.
    + now rewrite rev_cons, append_assoc'.
    + intros l1 l2 -> Hl2. now apply (Hfirst (String c l1) l2).
Qed.

Lemma split_from_none (sep s : string) :
  JSString.includes s sep = false ->
  forall cur, JSString.split_from sep s cur 0 = [JSString.rev cur ++ s].
Proof.
  induction s as [| c s IH]; intros Hnone cur.
  - simpl. now rewrite append_nil_r.
  - cbn [JSString.includes] in Hnone. apply orb_false_elim in Hnone as [H1 H2].
    cbn [JSString.split_from]. rewrite H1, (IH H2).
    now rewrite rev_cons, append_assoc'.
Qed.

(** The right-hand operand of [left op right] is [right], trimmed. *)
Lemma split_right_operand (op left right : string) :
  op <> "" ->
  (forall l1 l2, left = l1 ++ l2 -> l2 <> "" ->
                 prefix op (l2 ++ op ++ right) = false) ->
  JSString.includes right op = false ->
  split_right (left ++ op ++ right) op = VStr (JSString.trim right).
Proof.
  intros Hop Hfirst Hnone. unfold split_right, JSString.split.
  rewrite (split_from_first op left right Hop Hfirst).
  rewrite (split_from_none op right Hnone). reflexivity.
Qed.

Lemma selected_none (e : string) :
  Spec.selected e = None ->
  forall op, JSString.includes e (Spec.text op) = false.
Proof.
  intros Hnone op.
  apply (find_none _ _ Hnone op).
  destruct op; simpl; tauto.
Qed.

Lemma validateLegacyCrossField_selected
      (rule : rule) (c : configuration_object) (value : JS.value)
      (d : object) (e : string) :
  configuration rule = Some c ->
  ToBoolean (dependentField c) = true ->
  condition c = VStr e ->
  e <> "" ->
  validateLegacyCrossField rule value d
  = Normal {| passed :=
                match Spec.selected e with
                | Some op =>
                    Spec.holds op (field_of d (dependentField c))
                      (Spec.denotes
                         (Spec.reading (split_right e (Spec.text op))) d)
                | None => true
                end;
              message := VUndefined |}.
Proof.
  intros Hc Hdep Hcond He. unfold validateLegacyCrossField.
  rewrite Hc. cbv zeta. rewrite Hdep, Hcond.
  assert (Ht : ToBoolean (VStr e) = true).
  { simpl. now apply negb_true_iff, String.eqb_neq. }
  rewrite Ht. cbn [negb orb].
  rewrite evaluateExpression_selected.
  destruct (Spec.selected e) as [op |]; [| now rewrite Ht].
  now rewrite resolveValue_denotes.
Qed.

(** C7 as stated does not hold of every condition string: in
    "age is adult" none of the seven substrings occurs, so no operator
    is selected and nothing is compared; the evaluator answers [true]
    whatever the dependent value and the record are, and the rule
    passes. *)
Lemma condition_without_operator_is_not_compared :
  Spec.selected "age is adult" = None
  /\ (forall op : Spec.operator,
         JSString.includes "age is adult" (Spec.text op) = false)
  /\ (forall (v : value) (d : object),
         evaluateExpression (VStr "age is adult") v d = Normal true)
  /\ validateLegacyCrossField Examples.adult_in_words (Examples.num 15)
       [("age", Examples.num 15)] = Normal pass
  /\ validateLegacyCrossField Examples.adult_in_words (Examples.num 40)
       [("age", Examples.num 40)] = Normal pass.
Proof.
  split; [reflexivity |].
  split; [intros op; now destruct op |].
  split; [intros v d; reflexivity |].
  split; reflexivity.
Qed.

(** C7, amended.  For every legacy condition string in which one of
    ==, !=, >=, <=, >, <, includes occurs, the evaluator selects exactly
    one operator, the first of these (in that order) that occurs in the
    string, and its answer is the comparison of the dependent field's
    value with the right-hand operand under that operator.  The operand
    is the second piece of the string split at that operator, trimmed;
    written {fieldName} it denotes the record's value of that field,
    and anything else denotes itself.  A string in which none of the
    seven occurs selects no operator and is not compared: it evaluates
    to its truthiness, so the rule passes.

    The values of the dependent field and of a referenced field are
    those read on the record itself ([reads_own],
    [Spec.operand_reads_own]): under the name of a member of
    [Object.prototype] that the record lacks, the code compares the
    inherited member, which is outside this statement. *)
Theorem legacy_condition_selects_by_priority :
  (forall (e : string) (op : Spec.operator) (v : value) (d : object),
      Spec.selected e = Some op ->
      Spec.operand_reads_own
        (Spec.reading (split_right e (Spec.text op))) d = true ->
      evaluateExpression (VStr e) v d
      = Normal (Spec.holds op v
                  (Spec.denotes
                     (Spec.reading (split_right e (Spec.text op))) d)))
  /\ (forall (e : string) (v : value) (d : object),
         Spec.selected e = None ->
         evaluateExpression (VStr e) v d = Normal (ToBoolean (VStr e)))
  /\ (forall (e : string) (op : Spec.operator),
         Spec.selected e = Some op ->
         JSString.includes e (Spec.text op) = true
         /\ exists before after,
             Spec.priority = (before ++ op :: after)%list
             /\ forall op', In op' before ->
                            JSString.includes e (Spec.text op') = false)
  /\ (forall (e : string) (op : Spec.operator),
         JSString.includes e (Spec.text op) = true ->
         exists op', Spec.selected e = Some op')
  /\ (forall op left right : string,
         op <> "" ->
         (forall l1 l2, left = l1 ++ l2 -> l2 <> "" ->
                        prefix op (l2 ++ op ++ right) = false) ->
         JSString.includes right op = false ->
         split_right (left ++ op ++ right) op = VStr (JSString.trim right))
  /\ (forall (rule : rule) (c : configuration_object) (value : JS.value)
             (d : object) (e : string) (op : Spec.operator),
         configuration rule = Some c ->
         ToBoolean (dependentField c) = true ->
         condition c = VStr e ->
         Spec.selected e = Some op ->
         reads_own d (ToString (dependentField c)) = true ->
         Spec.operand_reads_own
           (Spec.reading (split_right e (Spec.text op))) d = true ->
         validateLegacyCrossField rule value d
         = Normal {| passed :=
                       Spec.holds op (field_of d (dependentField c))
                         (Spec.denotes
                            (Spec.reading (split_right e (Spec.text op))) d);
                     message := VUndefined |})
  /\ (forall (rule : rule) (c : configuration_object) (value : JS.value)
             (d : object) (e : string),
         configuration rule = Some c ->
         ToBoolean (dependentField c) = true ->
         condition c = VStr e ->
         e <> "" ->
         Spec.selected e = None ->
         validateLegacyCrossField rule value d = Normal pass)
  /\ Spec.selected "age >= 18" = Some Spec.OpGe
  /\ Spec.selected "a != b == c" = Some Spec.OpEq
  /\ Spec.reading (VStr "{limit}") = Spec.FieldReference "limit"
  /\ Spec.reading (VStr "18") = Spec.Literal (VStr "18")
  /\ evaluateExpression (VStr "total <= {limit}") (Examples.num 5)
       [("limit", Examples.num 10)] = Normal true
  /\ evaluateExpression (VStr "total <= {limit}") (Examples.num 5)
       [("limit", Examples.num 3)] = Normal false
  /\ evaluateExpression (VStr "age >= 18") (Examples.num 15) []
     = Normal false.
Proof.
  split.
  { intros e op v d Hsel _. rewrite evaluateExpression_selected, Hsel.
    now rewrite resolveValue_denotes. }
  split.
  { intros e v d Hsel. now rewrite evaluateExpression_selected, Hsel. }
  split.
  { intros e op Hsel. unfold Spec.selected in Hsel.
    now apply find_first in Hsel. }
  split.
  { intros e op Hin. destruct (Spec.selected e) as [op' |] eqn:Hsel.
    - now exists op'.
    - rewrite (selected_none e Hsel op) in Hin. discriminate. }
  split; [exact split_right_operand |].
  split.
  { intros rule c value d e op Hc Hdep Hcond Hsel _ _.
    assert (He : e <> "").
    { intros ->. discriminate Hsel. }
    rewrite (validateLegacyCrossField_selected rule c value d e
               Hc Hdep Hcond He).
    now rewrite Hsel. }
  split.
  { intros rule c value d e Hc Hdep Hcond He Hsel.
    rewrite (validateLegacyCrossField_selected rule c value d e
               Hc Hdep Hcond He).
    now rewrite Hsel. }
  repeat split; vm_compute; reflexivity.
Qed.

Lemma legacy_condition_selects_by_priority_witness :
  Spec.selected "total <= {limit}" = Some Spec.OpLe
  /\ reads_own [("total", Examples.num 5); ("limit", Examples.num 3)]
       "total" = true
  /\ Spec.operand_reads_own
       (Spec.reading (split_right "total <= {limit}" "<="))
       [("total", Examples.num 5); ("limit", Examples.num 3)] = true
  /\ validateLegacyCrossField Examples.within_limit (Examples.num 5)
       [("total", Examples.num 5); ("limit", Examples.num 3)]
     = Normal {| passed := false; message := VUndefined |}.
Proof.
  split; [reflexivity |]. split; [reflexivity |]. split; [reflexivity |].
  rewrite (proj1 (proj2 (proj2 (proj2 (proj2 (proj2
             legacy_condition_selects_by_priority)))))
             Examples.within_limit _ (Examples.num 5)
             [("total", Examples.num 5); ("limit", Examples.num 3)]
             "total <= {limit}" Spec.OpLe
             eq_refl eq_refl eq_refl eq_refl eq_refl eq_refl).
  reflexivity.
Defined.

(** *** The cross-field comparison validator *)

Lemma isValidDate_string (h : Host.t) (v : value) :
  isValidDate h v = true -> exists s, v = VStr s.
Proof. destruct v; simpl; try discriminate. intros _. now eexists. Qed.

Lemma coerced_operands (h : Host.t) (v1 v2 : value) :
  (if isValidDate h v1 && isValidDate h v2
   then (new_Date h v1, new_Date h v2)
   else (VNum (ToNumber v1), VNum (ToNumber v2)))
  = Spec.coerced h v1 v2.
Proof.
  unfold Spec.coerced.
  destruct (isValidDate h v1) eqn:H1; [| reflexivity].
  destruct (isValidDate h v2) eqn:H2; [| reflexivity].
  apply isValidDate_string in H1 as [s1 ->].
  apply isValidDate_string in H2 as [s2 ->].
  reflexivity.
Qed.

(** Splits on whether the operator is the one named; in the branch where
    it is, every test on the operator computes. *)
Ltac operator_is op name :=
  let E := fresh "E" in
  destruct (strict_equals op (VStr name)) eqn:E;
  [ apply strict_equals_string in E; subst op;
    cbn [strict_equals String.eqb Ascii.eqb Bool.eqb orb andb negb existsb]
  | ].

Lemma validateComparisonCrossField_comparison
      (h : Host.t) (rule : rule) (c : configuration_object)
      (value : JS.value) (d : object) :
  configuration rule = Some c ->
  ToBoolean (field1 c) = true ->
  ToBoolean (field2 c) = true ->
  ToBoolean (comparisonOperator c) = true ->
  validateComparisonCrossField h rule value d
  = Normal (if Spec.comparison h (comparisonOperator c) (expectedSum c)
                 (field_of d (field1 c)) (field_of d (field2 c))
            then pass
            else fail (Spec.comparison_message
                         (field1 c) (comparisonOperator c) (field2 c))).
Proof.
  intros Hc H1 H2 Hop. unfold validateComparisonCrossField.
  rewrite Hc. cbv zeta. rewrite H1, H2, Hop. cbn [negb orb].
  rewrite coerced_operands.
  unfold Spec.comparison, Spec.compares, Spec.orders_or_adds,
    Spec.comparison_message.
  cbv zeta. cbn [existsb].
  generalize (field_of d (field1 c)) (field_of d (field2 c)).
  intros v1 v2. clear Hop.
  generalize (expectedSum c). intros es.
  generalize (ToString (field1 c)) (ToString (field2 c)). intros f1 f2.
  generalize (comparisonOperator c). intros op.
  operator_is op "equals";
    [destruct (loose_equals v1 v2); reflexivity |].
  operator_is op "notEquals";
    [destruct (loose_equals v1 v2); reflexivity |].
  operator_is op "greaterThan";
    [destruct (Spec.coerced h v1 v2) as [a b];
     destruct (greater_than a b); reflexivity |].
  operator_is op "lessThan";
    [destruct (Spec.coerced h v1 v2) as [a b];
     destruct (less_than a b); reflexivity |].
  operator_is op "greaterThanOrEqual";
    [destruct (Spec.coerced h v1 v2) as [a b];
     destruct (greater_equal a b); reflexivity |].
  operator_is op "lessThanOrEqual";
    [destruct (Spec.coerced h v1 v2) as [a b];
     destruct (less_equal a b); reflexivity |].
  operator_is op "sumEquals";
    [destruct (Spec.coerced h v1 v2) as [a b]; cbn [loose_equals ToNumber];
     destruct (eqb _ _); reflexivity |].
  operator_is op "sumLessThan";
    [destruct (Spec.coerced h v1 v2) as [a b];
     cbn [less_than ToNumber]; destruct (ltb _ _); reflexivity |].
  operator_is op "sumGreaterThan";
    [destruct (Spec.coerced h v1 v2) as [a b];
     unfold greater_than; cbn [less_than ToNumber];
     destruct (ltb _ _); reflexivity |].
  cbn [orb existsb]. destruct (loose_equals v1 v2); reflexivity.
Qed.

(** C2 as stated does not hold for every operator.  Under [equals],
    [null] against 0: [null] is no date string on any host, and the two
    are equal once coerced to numbers; the validator compares the field
    values as they are, [null == 0] is false, and the record fails. *)
Lemma equals_is_not_coerced :
  Spec.comparison_on_coerced RefHost.host (VStr "equals") VUndefined
    VNull (Examples.num 0) = true
  /\ validateComparisonCrossField RefHost.host Examples.quantity_shipped
       VNull [("quantity", VNull); ("shipped", Examples.num 0)]
     = Normal (fail "Comparison validation failed: quantity equals shipped condition not met")
  /\ (forall h : Host.t,
         isValidDate h VNull = false
         /\ Spec.coerced h VNull (Examples.num 0)
            = (Examples.num 0, Examples.num 0)
         /\ Spec.comparison_on_coerced h (VStr "equals") VUndefined
              VNull (Examples.num 0) = true
         /\ validateComparisonCrossField h Examples.quantity_shipped
              VNull [("quantity", VNull); ("shipped", Examples.num 0)]
            = Normal (fail "Comparison validation failed: quantity equals shipped condition not met")).
Proof.
  split; [vm_compute; reflexivity |]. split; [vm_compute; reflexivity |].
  intros h. repeat split; vm_compute; reflexivity.
Qed.

(** C2, amended.  In the cross-field comparison validator, for the
    operators lessThan, greaterThan, lessThanOrEqual,
    greaterThanOrEqual, sumEquals, sumLessThan and sumGreaterThan, if
    both field values parse as valid dates the comparison is performed
    on the parsed dates, and otherwise both values are coerced to
    numbers before comparing; for equals, notEquals and any other
    operator the two field values are compared as they are.  With
    lessThan, "2023-01-01" against "2023-12-31" passes and the reversed
    dates fail.

    The two field values are those read on the record itself
    ([reads_own]): under the name of a member of [Object.prototype]
    that the record lacks, the code compares the inherited member,
    which is outside this statement. *)
Theorem comparison_coerces_for_ordering_operators :
  (forall (h : Host.t) (rule : rule) (c : configuration_object)
          (value : JS.value) (d : object),
      configuration rule = Some c ->
      ToBoolean (field1 c) = true ->
      ToBoolean (field2 c) = true ->
      ToBoolean (comparisonOperator c) = true ->
      reads_own d (ToString (field1 c)) = true ->
      reads_own d (ToString (field2 c)) = true ->
      validateComparisonCrossField h rule value d
      = Normal (if Spec.comparison h (comparisonOperator c) (expectedSum c)
                     (field_of d (field1 c)) (field_of d (field2 c))
                then pass
                else fail (Spec.comparison_message
                             (field1 c) (comparisonOperator c) (field2 c))))
  /\ (forall (h : Host.t) (op expectedSum v1 v2 : value),
         Spec.orders_or_adds op = true ->
         Spec.comparison h op expectedSum v1 v2
         = Spec.comparison_on_coerced h op expectedSum v1 v2)
  /\ (forall (h : Host.t) (op expectedSum v1 v2 : value),
         Spec.orders_or_adds op = false ->
         Spec.comparison h op expectedSum v1 v2
         = Spec.compares op expectedSum v1 v2)
  /\ isValidDate RefHost.host (VStr "2023-01-01") = true
  /\ isValidDate RefHost.host (VStr "2023-12-31") = true
  /\ validateComparisonCrossField RefHost.host Examples.start_before_end
       (VStr "2023-01-01")
       [("startDate", VStr "2023-01-01"); ("endDate", VStr "2023-12-31")]
     = Normal pass
  /\ validateComparisonCrossField RefHost.host Examples.start_before_end
       (VStr "2023-12-31")
       [("startDate", VStr "2023-12-31"); ("endDate", VStr "2023-01-01")]
     = Normal (fail "Comparison validation failed: startDate lessThan endDate condition not met").
Proof.
  split.
  { intros h rule c value d Hc H1 H2 Hop _ _.
    exact (validateComparisonCrossField_comparison h rule c value d
             Hc H1 H2 Hop). }
  split; [| split].
  - intros h op es v1 v2 Hop.
    unfold Spec.comparison, Spec.comparison_on_coerced. now rewrite Hop.
  - intros h op es v1 v2 Hop. unfold Spec.comparison. now rewrite Hop.
  - repeat split; vm_compute; reflexivity.
Qed.

(** Two numbers are no date strings on any host: the comparison is
    numeric, here 7 below 10. *)
Lemma comparison_coerces_for_ordering_operators_witness :
  ToBoolean (VStr "startDate") = true
  /\ ToBoolean (VStr "endDate") = true
  /\ ToBoolean (VStr "lessThan") = true
  /\ reads_own [("startDate", Examples.num 7); ("endDate", Examples.num 10)]
       "startDate" = true
  /\ reads_own [("startDate", Examples.num 7); ("endDate", Examples.num 10)]
       "endDate" = true
  /\ validateComparisonCrossField RefHost.host Examples.start_before_end
       VUndefined
       [("startDate", Examples.num 7); ("endDate", Examples.num 10)]
     = Normal pass.
Proof.
  split; [reflexivity |]. split; [reflexivity |]. split; [reflexivity |].
  split; [reflexivity |]. split; [reflexivity |].
  rewrite (proj1 comparison_coerces_for_ordering_operators RefHost.host
             Examples.start_before_end _ VUndefined
             [("startDate", Examples.num 7); ("endDate", Examples.num 10)]
             eq_refl eq_refl eq_refl eq_refl eq_refl eq_refl).
  reflexivity.
Defined.

(** *** Which validators can throw *)

(** Destructs the tests of the goal until every branch is a [Normal]. *)
Ltac returns :=
  repeat first
    [ match goal with
      | |- exists o, Normal _ = Normal o => eexists; reflexivity
      | |- exists o, (if ?b then _ else _) = Normal o => destruct b
      | |- exists o, match ?x with Normal _ => _ | Throw _ => _ end = Normal o =>
          destruct x
      end ].

Lemma checkDataType_returns (h : Host.t) (s : string) (dataType : value) :
  Spec.accepts_literals h ->
  exists o, checkDataType h s dataType = Normal o.
Proof.
  intros [[re1 H1] [re2 H2]]. unfold checkDataType.
  rewrite H1, H2. cbn [bind]. returns.
Qed.

Lemma validateFormat_returns
      (h : Host.t) (rule : rule) (c : configuration_object) (v : value) :
  Spec.accepts_literals h ->
  configuration rule = Some c ->
  Spec.is_pattern h (pattern c) ->
  exists o, validateFormat h rule v = Normal o.
Proof.
  intros Hlit Hc Hp. unfold validateFormat.
  destruct (is_nullish v); [returns |].
  rewrite Hc. cbv zeta.
  assert (Hcheck :
    exists o,
      (if ToBoolean (pattern c)
       then bind (Host.RegExp_new h (ToString (pattern c)) "")
                 (fun regex =>
                    if negb (Host.RegExp_test h regex (ToString v))
                    then Normal (fail ("Value '" ++ ToString v
                                       ++ "' does not match required format pattern"))
                    else Normal pass)
       else Normal pass) = Normal o).
  { destruct (ToBoolean (pattern c)) eqn:E; [| returns].
    destruct (Hp E) as [re Hre]. rewrite Hre. cbn [bind]. returns. }
  destruct (ToBoolean (dataType c)); [| exact Hcheck].
  destruct (checkDataType_returns h (ToString v) (dataType c) Hlit) as [o Ho].
  rewrite Ho. cbn [bind].
  destruct (negb (passed o)); [returns | exact Hcheck].
Qed.

Lemma validateRange_returns
      (rule : rule) (c : configuration_object) (v : value) :
  configuration rule = Some c -> exists o, validateRange rule v = Normal o.
Proof.
  intros Hc.
  destruct (is_nullish v) eqn:Hnull.
  { unfold validateRange. rewrite Hnull. returns. }
  destruct (isNaN (ToNumber v)) eqn:Hnan.
  { unfold validateRange. rewrite Hnull, Hnan. returns. }
  rewrite (validateRange_verdict rule c v Hc Hnull Hnan).
  eexists. reflexivity.
Qed.

Lemma validateCompleteness_returns
      (rule : rule) (c : configuration_object) (v : value) :
  configuration rule = Some c ->
  exists o, validateCompleteness rule v = Normal o.
Proof.
  intros Hc. rewrite (validateCompleteness_first_failure rule c v Hc).
  eexists. reflexivity.
Qed.

Lemma evaluateTargetCondition_returns
      (h : Host.t) (v : value) (tc : target_condition) :
  Spec.is_pattern h (tc_pattern tc) ->
  exists o, evaluateTargetCondition h v tc = Normal o.
Proof.
  intros Hp. unfold evaluateTargetCondition. cbv zeta.
  destruct (strict_equals (tc_type tc) (VStr "required")); [returns |].
  destruct (strict_equals (tc_type tc) (VStr "format")); [| returns].
  destruct (ToBoolean (tc_pattern tc)) eqn:E; [| returns].
  destruct (Hp E) as [re Hre]. rewrite Hre. cbn [bind]. returns.
Qed.

Lemma validateConditionalCrossField_returns
      (h : Host.t) (rule : rule) (c : configuration_object) (v : value)
      (d : object) :
  configuration rule = Some c ->
  (forall tc, targetCondition c = Some tc ->
              Spec.is_pattern h (tc_pattern tc)) ->
  exists o, validateConditionalCrossField h rule v d = Normal o.
Proof.
  intros Hc Hp. unfold validateConditionalCrossField. rewrite Hc. cbv zeta.
  destruct (negb (ToBoolean (conditionField c))
            || negb (ToBoolean (targetField c))); [returns |].
  match goal with
  | |- exists o, (if ?met then _ else _) = Normal o => destruct met
  end; [| returns].
  destruct (targetCondition c) as [tc |] eqn:Htc; [| returns].
  destruct (evaluateTargetCondition_returns
              h (field_of d (targetField c)) tc (Hp tc eq_refl)) as [o Ho].
  rewrite Ho. cbn [bind]. returns.
Qed.

Lemma validateCrossField_returns
      (h : Host.t) (rule : rule) (v : value) (d : object) :
  (forall c, configuration rule = Some c ->
             forall tc, targetCondition c = Some tc ->
                        Spec.is_pattern h (tc_pattern tc)) ->
  exists o, validateCrossField h rule v d = Normal o.
Proof.
  intros Hp. unfold validateCrossField.
  destruct (configuration rule) as [c |] eqn:Hc; [| returns].
  destruct (strict_equals (type c) (VStr "conditional")).
  { exact (validateConditionalCrossField_returns h rule c v d Hc
             (Hp c eq_refl)). }
  destruct (strict_equals (type c) (VStr "comparison")).
  { unfold validateComparisonCrossField. rewrite Hc. cbv zeta.
    match goal with
    | |- exists o, (if ?b then _ else ?rest) = Normal o =>
        destruct b; [returns |]
    end.
    match goal with
    | |- exists o, (let '(_, _) := ?p in _) = Normal o => destruct p
    end.
    returns. }
  destruct (strict_equals (type c) (VStr "dependency")).
  { unfold validateDependencyCrossField. rewrite Hc. cbv zeta. returns. }
  destruct (strict_equals (type c) (VStr "businessRule")).
  { unfold validateBusinessRuleCrossField. rewrite Hc. cbv zeta. returns. }
  unfold validateLegacyCrossField. rewrite Hc. cbv zeta.
  destruct (negb (ToBoolean (dependentField c))
            || negb (ToBoolean (condition c))); [returns |].
  destruct (evaluateExpression _ _ _); returns.
Qed.

Lemma executeRule_returns
      (h : Host.t) (rule : rule) (v : value) (d : object) :
  Spec.accepts_literals h ->
  Spec.well_shaped h rule ->
  exists o, executeRule h rule v d = Normal o.
Proof.
  intros Hlit (c & Hc & Hp & Htc). unfold executeRule. cbv zeta.
  destruct (strict_equals (ruleType rule) (VStr "format")).
  { exact (validateFormat_returns h rule c v Hlit Hc Hp). }
  destruct (strict_equals (ruleType rule) (VStr "range")).
  { exact (validateRange_returns rule c v Hc). }
  destruct (strict_equals (ruleType rule) (VStr "completeness")).
  { exact (validateCompleteness_returns rule c v Hc). }
  destruct (strict_equals (ruleType rule) (VStr "uniqueness")); [returns |].
  destruct (strict_equals (ruleType rule) (VStr "crossField")); [| returns].
  apply validateCrossField_returns.
  intros c' Hc'. rewrite Hc in Hc'. injection Hc' as <-. exact Htc.
Qed.

(** *** The engine *)

(** When the dispatcher returns for every value, the loop over the
    matching fields appends one result per field, in order, each
    carrying the field's name and value. *)
Lemma applyRule_loop_results
      (h : Host.t) (rule : rule) (d : object) (fields : list string) :
  (forall v, exists o, executeRule h rule v d = Normal o) ->
  forall this,
  exists this',
    applyRule_loop h rule d fields this = Normal this'
    /\ rules this' = rules this
    /\ exists added,
        results this' = (results this ++ added)%list
        /\ map res_field added = fields
        /\ map res_value added = map (get d) fields.
Proof.
  intros Hexec. induction fields as [| field rest IH]; intros this.
  - exists this. split; [reflexivity |]. split; [reflexivity |].
    exists []. now rewrite app_nil_r.
  - cbn [applyRule_loop]. cbv zeta. unfold getFieldValue.
    destruct (Hexec (get d field)) as [o Ho]. rewrite Ho. cbn [bind].
    match goal with
    | |- context [applyRule_loop h rule d rest ?this1] =>
        destruct (IH this1) as (this' & Hrun & Hrules & added & Hres & Hf & Hv)
    end.
    exists this'. split; [exact Hrun |]. split; [exact Hrules |].
    eexists (_ :: added). split; [| split].
    + rewrite Hres. cbn [push results]. rewrite <- app_assoc. reflexivity.
    + cbn [map res_field]. now rewrite Hf.
    + cbn [map res_value]. now rewrite Hv.
Qed.

(** C3.  For every record and every enabled, well-shaped rule whose
    target pattern is "*", loaded alone, [validate] returns, and it
    returns exactly one result per field of the record, in the record's
    field order, each with the field's value.  (The record need not
    even be non-empty.) *)
Theorem wildcard_rule_yields_one_result_per_field
        (h : Host.t) (rule : rule) (d : object) (this : engine) :
  Spec.accepts_literals h ->
  Spec.well_shaped h rule ->
  target_field rule = "*" ->
  strict_equals (enabled rule) (VBool false) = false ->
  exists results this',
    validate h d (loadRules [rule] this) = Normal (results, this')
    /\ map res_field results = keys d
    /\ map res_value results = map (get d) (keys d)
    /\ List.length results = List.length d.
Proof.
  intros Hlit Hshape Htarget Henabled.
  unfold validate, loadRules. cbv zeta. cbn [rules validate_loop].
  rewrite Henabled. cbn [negb]. unfold applyRule, findMatchingFields.
  rewrite Htarget. cbn [String.eqb Ascii.eqb Bool.eqb bind].
  match goal with
  | |- context [applyRule_loop h rule d (keys d) ?this0] =>
      destruct (applyRule_loop_results h rule d (keys d)
                  (fun v => executeRule_returns h rule v d Hlit Hshape)
                  this0)
        as (this' & Hrun & _ & added & Hres & Hf & Hv)
  end.
  rewrite Hrun. cbn [bind results app] in *.
  exists (results this'), this'. rewrite Hres.
  split; [reflexivity |]. split; [exact Hf |]. split; [exact Hv |].
  rewrite <- (length_map res_field), Hf. unfold keys. apply length_map.
Qed.

Lemma reference_host_accepts_literals : Spec.accepts_literals RefHost.host.
Proof.
  split; unfold Spec.compiles; cbn [Host.RegExp_new RefHost.host].
  - destruct (RefHost.RegExp_new emailRegex "") as [re | e] eqn:E;
      [now exists re | vm_compute in E; discriminate].
  - destruct (RefHost.RegExp_new phoneRegex "") as [re | e] eqn:E;
      [now exists re | vm_compute in E; discriminate].
Qed.

Lemma wildcard_rule_yields_one_result_per_field_witness :
  Spec.accepts_literals RefHost.host
  /\ Spec.well_shaped RefHost.host Examples.all_required
  /\ exists results this',
      validate RefHost.host
        [("name", VStr "Ann"); ("email", VStr ""); ("age", Examples.num 30)]
        (loadRules [Examples.all_required] constructor)
      = Normal (results, this')
      /\ map res_field results = ["name"; "email"; "age"]
      /\ map res_value results = [VStr "Ann"; VStr ""; Examples.num 30]
      /\ List.length results = 3%nat.
Proof.
  assert (Hshape : Spec.well_shaped RefHost.host Examples.all_required).
  { eexists. split; [reflexivity |]. split; [discriminate |].
    intros tc Htc. discriminate Htc. }
  split; [exact reference_host_accepts_literals |].
  split; [exact Hshape |].
  exact (wildcard_rule_yields_one_result_per_field
           RefHost.host Examples.all_required
           [("name", VStr "Ann"); ("email", VStr ""); ("age", Examples.num 30)]
           constructor reference_host_accepts_literals Hshape
           eq_refl eq_refl).
Defined.

(** The conditions under which [validate] returns: every loaded rule is
    well shaped and has a target pattern that compiles, and the record
    has no field named [hasOwnProperty]. *)
Lemma findMatchingFields_returns (h : Host.t) (target : string) (d : object) :
  Spec.target_compiles h target ->
  own d "hasOwnProperty" = None ->
  exists fields, findMatchingFields h target d = Normal fields.
Proof.
  intros Htarget Hown. unfold findMatchingFields.
  destruct (String.eqb target "*") eqn:Estar; [now eexists |].
  destruct (JSString.includes target "*") eqn:Einc.
  - destruct Htarget as [-> | [Hno | [re Hre]]].
    + discriminate Estar.
    + congruence.
    + rewrite Hre. cbn [bind]. now eexists.
  - unfold hasOwnProperty. rewrite Hown. cbn [bind]. now eexists.
Qed.

Lemma validate_loop_returns (h : Host.t) (d : object) (rs : list rule) :
  Spec.accepts_literals h ->
  own d "hasOwnProperty" = None ->
  Forall (fun r => Spec.well_shaped h r
                   /\ Spec.target_compiles h (target_field r)) rs ->
  forall this, exists this', validate_loop h rs d this = Normal this'.
Proof.
  intros Hlit Hown Hall. induction Hall as [| r rs [Hshape Htarget] _ IH];
    intros this; cbn [validate_loop]; [now eexists |].
  destruct (negb (strict_equals (enabled r) (VBool false))); [| apply IH].
  unfold applyRule.
  destruct (findMatchingFields_returns h (target_field r) d Htarget Hown)
    as [fields Hfields].
  rewrite Hfields. cbn [bind].
  destruct (applyRule_loop_results h r d fields
              (fun v => executeRule_returns h r v d Hlit Hshape) this)
    as (this1 & Hrun & _).
  rewrite Hrun. cbn [bind]. apply IH.
Qed.

Lemma validate_returns (h : Host.t) (d : object) (this : engine) :
  Spec.accepts_literals h ->
  own d "hasOwnProperty" = None ->
  Forall (fun r => Spec.well_shaped h r
                   /\ Spec.target_compiles h (target_field r))
         (rules this) ->
  exists results this', validate h d this = Normal (results, this').
Proof.
  intros Hlit Hown Hall. unfold validate. cbv zeta. cbn [rules].
  destruct (validate_loop_returns h d (rules this) Hlit Hown Hall
              {| rules := rules this; results := [] |}) as [this' Hrun].
  rewrite Hrun. cbn [bind]. now eexists _, _.
Qed.

(** A record with a field named [hasOwnProperty] makes the first enabled
    rule with an exact target throw, on every host. *)
Lemma validate_throws_on_shadowed_method
      (h : Host.t) (d : object) (v : value) (rule : rule)
      (rest : list Engine.rule) (this : engine) :
  own d "hasOwnProperty" = Some v ->
  JSString.includes (target_field rule) "*" = false ->
  strict_equals (enabled rule) (VBool false) = false ->
  validate h d (loadRules (rule :: rest) this)
  = Throw (TypeError "dataset.hasOwnProperty is not a function").
Proof.
  intros Hown Hexact Henabled.
  unfold validate, loadRules. cbv zeta. cbn [rules validate_loop].
  rewrite Henabled. cbn [negb].
  unfold applyRule, findMatchingFields.
  destruct (String.eqb (target_field rule) "*") eqn:Estar.
  { apply String.eqb_eq in Estar. rewrite Estar in Hexact. discriminate. }
  rewrite Hexact. unfold hasOwnProperty. rewrite Hown. reflexivity.
Qed.

(** A wildcard target that [RegExp] refuses makes the first enabled
    rule bearing it throw, on every host. *)
Lemma validate_throws_on_refused_target
      (h : Host.t) (d : object) (e : error) (rule : rule)
      (rest : list Engine.rule) (this : engine) :
  target_field rule <> "*" ->
  JSString.includes (target_field rule) "*" = true ->
  Host.RegExp_new h ("^" ++ JSString.replace_stars (target_field rule) ++ "$")
                  "i" = Throw e ->
  strict_equals (enabled rule) (VBool false) = false ->
  validate h d (loadRules (rule :: rest) this) = Throw e.
Proof.
  intros Hstar Hwild Hrefused Henabled.
  unfold validate, loadRules. cbv zeta. cbn [rules validate_loop].
  rewrite Henabled. cbn [negb].
  unfold applyRule, findMatchingFields.
  apply String.eqb_neq in Hstar. rewrite Hstar, Hwild, Hrefused. reflexivity.
Qed.

(** Outside the RuleDefinition shape: a format rule whose [pattern] is
    not a regular expression makes [validate] throw as well, which is
    why the shape asks for patterns that compile. *)
Lemma validate_throws_on_malformed_pattern :
  validate RefHost.host [("code", VStr "A1")]
    (loadRules [Examples.unclosed_pattern] constructor)
  = Throw (SyntaxError "Invalid regular expression: /(/: not a pattern of the fragment").
Proof. vm_compute. reflexivity. Qed.

(** C1 fails on the code.  Each of these two rule sets conforms to the
    RuleDefinition shape (the target is a string, the configuration an
    object with documented keys) and each record maps field names to
    scalars, yet [validate] throws instead of returning:
    - a record with a field named [hasOwnProperty], under a rule with an
      exact target: the engine calls [dataset.hasOwnProperty], which is
      then the field's value, not a function;
    - a target pattern with a wildcard and an opening parenthesis: the
      wildcard is turned into a regular expression without escaping
      the rest of the pattern. *)
Theorem validate_can_throw :
  validate RefHost.host
    [("hasOwnProperty", VStr "yes"); ("age", Examples.num 30)]
    (loadRules [Examples.age_range] constructor)
  = Throw (TypeError "dataset.hasOwnProperty is not a function")
  /\ Spec.well_shaped RefHost.host Examples.age_range
  /\ validate RefHost.host [("price (usd)", Examples.num 30)]
       (loadRules [Examples.price_range] constructor)
     = Throw (SyntaxError "Invalid regular expression: /^price (.*$/: not a pattern of the fragment")
  /\ Spec.well_shaped RefHost.host Examples.price_range.
Proof.
  assert (Hshape : forall kind target min max inclusive,
             Spec.well_shaped RefHost.host
               (Examples.a_rule kind target
                  (Examples.range_keys min max inclusive))).
  { intros. eexists. split; [reflexivity |]. split; [discriminate |].
    intros tc Htc. discriminate Htc. }
  split.
  - apply (validate_throws_on_shadowed_method RefHost.host _ (VStr "yes"));
      reflexivity.
  - split; [apply Hshape |]. split; [vm_compute; reflexivity | apply Hshape].
Qed.

(** *** Messages of failed results *)

Lemma evaluateExpression_returns (e v : value) (d : object) :
  exists b, evaluateExpression e v d = Normal b.
Proof.
  unfold evaluateExpression. destruct e; try (now eexists).
  cbv zeta.
  repeat match goal with
    | |- exists b, (if ?c then _ else _) = Normal b => destruct c
    end; now eexists.
Qed.

(** In legacy mode a failed outcome never has a message: the only
    branch that sets one is the [catch], and the evaluator does not
    throw. *)
Lemma legacy_failure_has_no_message
      (rule : rule) (value : JS.value) (d : object) (o : outcome) :
  validateLegacyCrossField rule value d = Normal o ->
  passed o = false ->
  message o = VUndefined.
Proof.
  unfold validateLegacyCrossField.
  destruct (configuration rule) as [c |]; [| discriminate].
  cbv zeta.
  destruct (negb (ToBoolean (dependentField c))
            || negb (ToBoolean (condition c))).
  { intros [= <-]. discriminate. }
  destruct (evaluateExpression_returns
              (condition c) (field_of d (dependentField c)) d) as [b ->].
  now intros [= <-].
Qed.

(** Every failed outcome outside the legacy mode has a populated
    message. *)
Ltac failed :=
  unfold bind, Spec.populated;
  repeat match goal with
    | |- (if ?b then _ else _) = Normal _ -> _ => destruct b
    | |- match ?x with Normal _ => _ | Throw _ => _ end = Normal _ -> _ =>
        destruct x
    end;
  try discriminate;
  (let Hp := fresh "Hp" in
   intros [= <-] Hp; try discriminate Hp;
   eexists; (split; [reflexivity | discriminate])).

Lemma checkDataType_failure
      (h : Host.t) (s : string) (dataType : value) (o : outcome) :
  checkDataType h s dataType = Normal o ->
  passed o = false -> Spec.populated (message o).
Proof. unfold checkDataType. failed. Qed.

Lemma validateFormat_failure
      (h : Host.t) (rule : rule) (v : value) (o : outcome) :
  validateFormat h rule v = Normal o ->
  passed o = false -> Spec.populated (message o).
Proof.
  unfold validateFormat.
  destruct (is_nullish v); [failed |].
  destruct (configuration rule) as [c |]; [| discriminate].
  cbv zeta.
  destruct (ToBoolean (dataType c)); [| failed].
  destruct (checkDataType h (ToString v) (dataType c)) as [t | e] eqn:Ht;
    [| discriminate].
  cbn [bind].
  destruct (negb (passed t)) eqn:Hpassed; [| failed].
  intros [= <-]. exact (checkDataType_failure h _ _ t Ht).
Qed.

Lemma validateRange_failure (rule : rule) (v : value) (o : outcome) :
  validateRange rule v = Normal o ->
  passed o = false -> Spec.populated (message o).
Proof.
  destruct (is_nullish v) eqn:Hnull.
  { unfold validateRange. rewrite Hnull. failed. }
  destruct (isNaN (ToNumber v)) eqn:Hnan.
  { unfold validateRange. rewrite Hnull, Hnan. failed. }
  destruct (configuration rule) as [c |] eqn:Hc.
  - rewrite (validateRange_verdict rule c v Hc Hnull Hnan).
    unfold Spec.range_verdict, Spec.bound_message.
    destruct (Spec.below_minimum c (ToNumber v));
      [| destruct (Spec.above_maximum c (ToNumber v))];
      intros [= <-] Hp; try discriminate Hp;
      eexists; (split; [reflexivity | discriminate]).
  - unfold validateRange. rewrite Hnull, Hnan, Hc. discriminate.
Qed.

Lemma validateCompleteness_failure (rule : rule) (v : value) (o : outcome) :
  validateCompleteness rule v = Normal o ->
  passed o = false -> Spec.populated (message o).
Proof.
  unfold validateCompleteness.
  destruct (configuration rule) as [c |]; [| discriminate].
  cbv zeta. failed.
Qed.

Lemma validateUniqueness_failure
      (rule : rule) (v : value) (d : object) :
  passed (validateUniqueness rule v d) = false ->
  Spec.populated (message (validateUniqueness rule v d)).
Proof.
  unfold validateUniqueness. destruct (is_nullish v); [discriminate |].
  cbv zeta. destruct (_ <? _)%nat; [| discriminate].
  intros _. eexists. split; [reflexivity | discriminate].
Qed.

Lemma validateConditionalCrossField_failure
      (h : Host.t) (rule : rule) (v : value) (d : object) (o : outcome) :
  validateConditionalCrossField h rule v d = Normal o ->
  passed o = false -> Spec.populated (message o).
Proof.
  unfold validateConditionalCrossField.
  destruct (configuration rule) as [c |]; [| discriminate].
  cbv zeta.
  destruct (negb (ToBoolean (conditionField c))
            || negb (ToBoolean (targetField c))); [failed |].
  match goal with
  | |- (if ?met then _ else _) = Normal _ -> _ => destruct met
  end; [| failed].
  destruct (targetCondition c) as [tc |]; [| failed].
  failed.
Qed.

Lemma validateComparisonCrossField_failure
      (h : Host.t) (rule : rule) (v : value) (d : object) (o : outcome) :
  validateComparisonCrossField h rule v d = Normal o ->
  passed o = false -> Spec.populated (message o).
Proof.
  unfold validateComparisonCrossField.
  destruct (configuration rule) as [c |]; [| discriminate].
  cbv zeta.
  match goal with
  | |- (if ?b then _ else _) = Normal _ -> _ => destruct b; [failed |]
  end.
  match goal with
  | |- (let '(_, _) := ?p in _) = Normal _ -> _ => destruct p
  end.
  failed.
Qed.

Lemma validateDependencyCrossField_failure
      (rule : rule) (v : value) (d : object) (o : outcome) :
  validateDependencyCrossField rule v d = Normal o ->
  passed o = false -> Spec.populated (message o).
Proof.
  unfold validateDependencyCrossField.
  destruct (configuration rule) as [c |]; [| discriminate].
  cbv zeta. failed.
Qed.

Lemma validateBusinessRuleCrossField_failure
      (rule : rule) (v : value) (d : object) (o : outcome) :
  validateBusinessRuleCrossField rule v d = Normal o ->
  passed o = false -> Spec.populated (message o).
Proof.
  unfold validateBusinessRuleCrossField.
  destruct (configuration rule) as [c |]; [| discriminate].
  cbv zeta.
  unfold validateAgeVerificationRule, validateEmailOrPhoneRequiredRule,
    validateMinorsConsentRule, validateSalaryVerificationRule.
  cbv zeta.
  repeat match goal with
    | |- (if ?b then _ else _) = Normal _ -> _ => destruct b
    end;
    intros [= <-];
    repeat match goal with
      | |- passed (if ?b then _ else _) = false -> _ => destruct b
      end;
    intros Hp; try discriminate Hp;
    eexists; (split; [reflexivity | discriminate]).
Qed.

(** A failed outcome carries a populated message for every rule kind;
    the one exception is the legacy mode of cross-field rules. *)
Lemma failure_is_explained_unless_legacy
      (h : Host.t) (rule : rule) (v : value) (d : object) (o : outcome) :
  executeRule h rule v d = Normal o ->
  passed o = false ->
  Spec.populated (message o) \/ Spec.legacy_mode rule.
Proof.
  unfold executeRule. cbv zeta.
  destruct (strict_equals (ruleType rule) (VStr "format")).
  { left. now apply (validateFormat_failure h rule v). }
  destruct (strict_equals (ruleType rule) (VStr "range")).
  { left. now apply (validateRange_failure rule v). }
  destruct (strict_equals (ruleType rule) (VStr "completeness")).
  { left. now apply (validateCompleteness_failure rule v). }
  destruct (strict_equals (ruleType rule) (VStr "uniqueness")).
  { intros [= <-] Hp. left. now apply validateUniqueness_failure. }
  destruct (strict_equals (ruleType rule) (VStr "crossField")) eqn:Hcross.
  2: { destruct (strict_equals (ruleType rule) (VStr "custom"));
       intros [= <-] Hp; [discriminate Hp |].
       left. eexists. split; [reflexivity | discriminate]. }
  apply strict_equals_string in Hcross.
  unfold validateCrossField.
  destruct (configuration rule) as [c |] eqn:Hc; [| now intros [= <-]].
  destruct (strict_equals (type c) (VStr "conditional")) eqn:E1.
  { left. now apply (validateConditionalCrossField_failure h rule v d). }
  destruct (strict_equals (type c) (VStr "comparison")) eqn:E2.
  { left. now apply (validateComparisonCrossField_failure h rule v d). }
  destruct (strict_equals (type c) (VStr "dependency")) eqn:E3.
  { left. now apply (validateDependencyCrossField_failure rule v d). }
  destruct (strict_equals (type c) (VStr "businessRule")) eqn:E4.
  { left. now apply (validateBusinessRuleCrossField_failure rule v d). }
  intros _ _. right. split; [exact Hcross |]. now exists c.
Qed.

(** C8 fails on the code.  The legacy rule "age >= 18" on the record
    [{age: 15}] yields a result with [passed = false] whose message is
    undefined, and no failure of the legacy mode ever has a message.
    Every other failed outcome of the dispatcher does carry a populated
    message. *)
Theorem legacy_failure_lacks_message :
  validate RefHost.host [("age", Examples.num 15)]
    (loadRules [Examples.adult] constructor)
  = Normal ([Examples.adult_result_at_15],
            {| rules := [Examples.adult];
               results := [Examples.adult_result_at_15] |})
  /\ res_passed Examples.adult_result_at_15 = false
  /\ res_message Examples.adult_result_at_15 = VUndefined
  /\ (forall (rule : rule) (value : JS.value) (d : object) (o : outcome),
         validateLegacyCrossField rule value d = Normal o ->
         passed o = false ->
         message o = VUndefined)
  /\ (forall (h : Host.t) (rule : rule) (value : JS.value) (d : object)
             (o : outcome),
         executeRule h rule value d = Normal o ->
         passed o = false ->
         Spec.populated (message o) \/ Spec.legacy_mode rule).
Proof.
  split; [vm_compute; reflexivity |].
  split; [reflexivity |]. split; [reflexivity |].
  split; [exact legacy_failure_has_no_message |].
  exact failure_is_explained_unless_legacy.
Qed.

Lemma legacy_failure_lacks_message_witness :
  validateLegacyCrossField Examples.adult (Examples.num 15)
    [("age", Examples.num 15)]
  = Normal {| passed := false; message := VUndefined |}
  /\ message {| passed := false; message := VUndefined |} = VUndefined.
Proof.
  split; [reflexivity |].
  apply (proj1 (proj2 (proj2 (proj2 legacy_failure_lacks_message)))
           Examples.adult (Examples.num 15) [("age", Examples.num 15)]);
    reflexivity.
Defined.

(* ================================================================== *)
(** *** A run as a function of the rules and the record *)

(** The loop over the matching fields appends the results of the rule
    on those fields and touches nothing else. *)
Lemma applyRule_loop_outline
      (h : Host.t) (r : rule) (d : object) (fields : list string) :
  forall this,
    applyRule_loop h r d fields this
    = bind (Outline.on_fields h r d fields) (fun added =>
        Normal {| rules := rules this;
                  results := (results this ++ added)%list |}).
Proof.
  induction fields as [| field rest IH]; intros this.
  - cbn [applyRule_loop Outline.on_fields bind]. rewrite app_nil_r.
    now destruct this.
  - cbn [applyRule_loop Outline.on_fields]. cbv zeta. unfold getFieldValue.
    destruct (executeRule h r (get d field) d) as [o | e]; [| reflexivity].
    cbn [bind]. rewrite IH.
    destruct (Outline.on_fields h r d rest) as [others | e]; [| reflexivity].
    cbn [bind push rules results]. unfold Outline.result_of.
    now rewrite <- app_assoc.
Qed.

Lemma applyRule_outline (h : Host.t) (r : rule) (d : object) (this : engine) :
  applyRule h r d this
  = bind (Outline.of_rule h r d) (fun added =>
      Normal {| rules := rules this;
                results := (results this ++ added)%list |}).
Proof.
  unfold applyRule, Outline.of_rule.
  destruct (findMatchingFields h (target_field r) d) as [fields | e];
    [| reflexivity].
  cbn [bind]. apply applyRule_loop_outline.
Qed.

(** The loop over the rules appends the results of the enabled rules. *)
Lemma validate_loop_outline (h : Host.t) (d : object) (rs : list rule) :
  forall this,
    validate_loop h rs d this
    = bind (Outline.of_rules h rs d) (fun added =>
        Normal {| rules := rules this;
                  results := (results this ++ added)%list |}).
Proof.
  induction rs as [| r rest IH]; intros this.
  - cbn [validate_loop Outline.of_rules bind]. rewrite app_nil_r.
    now destruct this.
  - cbn [validate_loop Outline.of_rules]. unfold Outline.is_enabled.
    destruct (negb (strict_equals (enabled r) (VBool false))); [| apply IH].
    rewrite applyRule_outline.
    destruct (Outline.of_rule h r d) as [first | e]; [| reflexivity].
    cbn [bind]. rewrite IH. cbn [rules results].
    destruct (Outline.of_rules h rest d) as [others | e]; [| reflexivity].
    cbn [bind]. now rewrite <- app_assoc.
Qed.

Lemma validate_outline (h : Host.t) (d : object) (this : engine) :
  validate h d this
  = bind (Outline.of_rules h (rules this) d) (fun res =>
      Normal (res, {| rules := rules this; results := res |})).
Proof.
  unfold validate. cbv zeta. cbn [rules]. rewrite validate_loop_outline.
  now destruct (Outline.of_rules h (rules this) d).
Qed.

Lemma returned_validate (h : Host.t) (d : object) (this : engine) :
  Outline.returned (validate h d this) = Outline.of_rules h (rules this) d.
Proof.
  unfold Outline.returned. rewrite validate_outline.
  now destruct (Outline.of_rules h (rules this) d).
Qed.

Lemma of_rules_app (h : Host.t) (d : object) (rs1 rs2 : list rule) :
  Outline.of_rules h (rs1 ++ rs2) d
  = bind (Outline.of_rules h rs1 d) (fun a =>
    bind (Outline.of_rules h rs2 d) (fun b => Normal (a ++ b)%list)).
Proof.
  induction rs1 as [| r rest IH].
  - cbn [app Outline.of_rules bind].
    now destruct (Outline.of_rules h rs2 d).
  - cbn [app Outline.of_rules].
    destruct (Outline.is_enabled r); [| exact IH].
    destruct (Outline.of_rule h r d) as [first | e]; [| reflexivity].
    cbn [bind]. rewrite IH.
    destruct (Outline.of_rules h rest d) as [a | e]; [| reflexivity].
    cbn [bind].
    destruct (Outline.of_rules h rs2 d) as [b | e]; [| reflexivity].
    cbn [bind]. now rewrite app_assoc.
Qed.

Lemma of_rules_enabled (h : Host.t) (d : object) (rs : list rule) :
  Outline.of_rules h (filter Outline.is_enabled rs) d
  = Outline.of_rules h rs d.
Proof.
  induction rs as [| r rest IH]; [reflexivity |].
  cbn [filter Outline.of_rules].
  destruct (Outline.is_enabled r) eqn:E; [| exact IH].
  cbn [Outline.of_rules]. now rewrite E, IH.
Qed.

(** X1.  A run leaves the loaded rules as they were and leaves its own
    results in the engine; what the engine held before a run has no
    part in it.  So the engine that a run leaves behind validates every
    record as the engine before the run does, and validating the same
    record again gives the same results. *)
Theorem validate_leaves_the_engine_ready
        (h : Host.t) (d : object) (this this' : engine)
        (res : list ValidationResult) :
  validate h d this = Normal (res, this') ->
  rules this' = rules this
  /\ results this' = res
  /\ (forall d', validate h d' this' = validate h d' this)
  /\ validate h d this' = Normal (res, this').
Proof.
  intros Hrun. pose proof Hrun as Hrun'.
  rewrite validate_outline in Hrun'.
  destruct (Outline.of_rules h (rules this) d) as [res0 | e];
    [| discriminate].
  cbn [bind] in Hrun'. injection Hrun' as <- <-. cbn [rules results].
  split; [reflexivity |]. split; [reflexivity |].
  split; [reflexivity |]. exact Hrun.
Qed.

Lemma validate_leaves_the_engine_ready_witness :
  validate RefHost.host [("age", Examples.num 15)]
    (loadRules [Examples.adult] constructor)
  = Normal ([Examples.adult_result_at_15],
            {| rules := [Examples.adult];
               results := [Examples.adult_result_at_15] |})
  /\ validate RefHost.host [("age", Examples.num 15)]
       {| rules := [Examples.adult];
          results := [Examples.adult_result_at_15] |}
     = Normal ([Examples.adult_result_at_15],
               {| rules := [Examples.adult];
                  results := [Examples.adult_result_at_15] |}).
Proof.
  split; [reflexivity |].
  exact (proj2 (proj2 (proj2
           (validate_leaves_the_engine_ready
              RefHost.host [("age", Examples.num 15)]
              (loadRules [Examples.adult] constructor)
              {| rules := [Examples.adult];
                 results := [Examples.adult_result_at_15] |}
              [Examples.adult_result_at_15] eq_refl)))).
Defined.

(** X2.  A rule whose [enabled] is [false] takes no part in a run: the
    run returns what it returns once those rules are removed, be it an
    array of results or an exception.  Any other value of [enabled],
    an absent one included, leaves the rule in. *)
Theorem disabled_rules_are_skipped
        (h : Host.t) (d : object) (rs : list rule) (this : engine) :
  Outline.returned (validate h d (loadRules rs this))
  = Outline.returned
      (validate h d (loadRules (filter Outline.is_enabled rs) this)).
Proof.
  rewrite !returned_validate. cbn [loadRules rules].
  symmetry. apply of_rules_enabled.
Qed.

(** X3.  The results of a rule set are those of its rules taken group
    after group: running [rs1 ++ rs2] returns the results of [rs1]
    followed by those of [rs2], and throws what the first of the two
    runs to throw throws. *)
Theorem results_follow_the_order_of_the_rules
        (h : Host.t) (d : object) (rs1 rs2 : list rule) (this : engine) :
  Outline.returned (validate h d (loadRules (rs1 ++ rs2) this))
  = bind (Outline.returned (validate h d (loadRules rs1 this))) (fun a =>
    bind (Outline.returned (validate h d (loadRules rs2 this))) (fun b =>
    Normal (a ++ b)%list)).
Proof.
  rewrite !returned_validate. cbn [loadRules rules]. apply of_rules_app.
Qed.

(** *** What a run reports *)

Lemma own_key (d : object) (k : string) (v : value) :
  own d k = Some v -> In k (keys d).
Proof.
  induction d as [| [k' v'] rest IH]; cbn [own keys map fst];
    [discriminate |].
  destruct (String.eqb k' k) eqn:E.
  - apply String.eqb_eq in E. intros _. now left.
  - intros H. right. exact (IH H).
Qed.

Lemma exact_is_not_star (t : string) :
  JSString.includes t "*" = false -> String.eqb t "*" = false.
Proof.
  intros H. destruct (String.eqb t "*") eqn:E; [| reflexivity].
  apply String.eqb_eq in E. subst t. discriminate H.
Qed.

(** The matching fields are fields of the record, each at most once per
    field of the record. *)
Lemma findMatchingFields_within
      (h : Host.t) (t : string) (d : object) (fields : list string) :
  findMatchingFields h t d = Normal fields ->
  incl fields (keys d) /\ (List.length fields <= List.length d)%nat.
Proof.
  unfold findMatchingFields.
  destruct (String.eqb t "*").
  { intros [= <-]. split; [apply incl_refl |].
    unfold keys. now rewrite length_map. }
  destruct (JSString.includes t "*").
  { destruct (Host.RegExp_new h _ _) as [re | e]; [| discriminate].
    cbn [bind]. intros [= <-]. split; [apply incl_filter |].
    rewrite <- (length_map fst d). apply filter_length_le. }
  unfold hasOwnProperty.
  destruct (own d "hasOwnProperty"); [discriminate |]. cbn [bind].
  destruct (own d t) as [v |] eqn:Hown; intros [= <-].
  - split.
    + intros k [<- | []]. exact (own_key d t v Hown).
    + destruct d; [discriminate Hown | cbn [List.length]; lia].
  - split; [intros k [] | cbn [List.length]; lia].
Qed.

Lemma on_fields_member
      (h : Host.t) (r : rule) (d : object) (fields : list string) :
  forall res x,
    Outline.on_fields h r d fields = Normal res ->
    In x res ->
    exists field o,
      In field fields
      /\ executeRule h r (get d field) d = Normal o
      /\ x = Outline.result_of r field (get d field) o.
Proof.
  induction fields as [| field rest IH]; intros res x;
    cbn [Outline.on_fields].
  - intros [= <-] [].
  - destruct (executeRule h r (get d field) d) as [o | e] eqn:Ho;
      [| discriminate].
    cbn [bind].
    destruct (Outline.on_fields h r d rest) as [others | e];
      [| discriminate].
    cbn [bind]. intros [= <-] [<- | Hin].
    + exists field, o. split; [now left |]. now split.
    + destruct (IH others x eq_refl Hin) as (f & o' & Hf & He & Hx).
      exists f, o'. split; [now right |]. now split.
Qed.

Lemma on_fields_length
      (h : Host.t) (r : rule) (d : object) (fields : list string) :
  forall res,
    Outline.on_fields h r d fields = Normal res ->
    List.length res = List.length fields.
Proof.
  induction fields as [| field rest IH]; intros res;
    cbn [Outline.on_fields].
  - now intros [= <-].
  - destruct (executeRule h r (get d field) d) as [o | e]; [| discriminate].
    cbn [bind].
    destruct (Outline.on_fields h r d rest) as [others | e];
      [| discriminate].
    cbn [bind]. intros [= <-]. cbn [List.length]. now rewrite (IH others).
Qed.

Lemma of_rules_member (h : Host.t) (d : object) (rs : list rule) :
  forall res x,
    Outline.of_rules h rs d = Normal res ->
    In x res ->
    exists r field o,
      In r rs
      /\ Outline.is_enabled r = true
      /\ In field (keys d)
      /\ executeRule h r (get d field) d = Normal o
      /\ x = Outline.result_of r field (get d field) o.
Proof.
  induction rs as [| r rest IH]; intros res x; cbn [Outline.of_rules].
  - intros [= <-] [].
  - destruct (Outline.is_enabled r) eqn:Hen.
    + unfold Outline.of_rule.
      destruct (findMatchingFields h (target_field r) d) as [fields | e]
        eqn:Hfields; [| discriminate].
      cbn [bind].
      destruct (Outline.on_fields h r d fields) as [first | e] eqn:Hfirst;
        [| discriminate].
      cbn [bind].
      destruct (Outline.of_rules h rest d) as [others | e]; [| discriminate].
      cbn [bind]. intros [= <-] Hin. apply in_app_or in Hin.
      destruct Hin as [Hin | Hin].
      * destruct (on_fields_member h r d fields first x Hfirst Hin)
          as (f & o & Hf & He & Hx).
        exists r, f, o. split; [now left |]. split; [exact Hen |].
        split; [| now split].
        exact (proj1 (findMatchingFields_within h _ d fields Hfields) f Hf).
      * destruct (IH others x eq_refl Hin) as (r' & f & o & Hr & H').
        exists r', f, o. split; [now right | exact H'].
    + intros Hrun Hin.
      destruct (IH res x Hrun Hin) as (r' & f & o & Hr & H').
      exists r', f, o. split; [now right | exact H'].
Qed.

Lemma of_rules_length (h : Host.t) (d : object) (rs : list rule) :
  forall res,
    Outline.of_rules h rs d = Normal res ->
    (List.length res
     <= List.length (filter Outline.is_enabled rs) * List.length d)%nat.
Proof.
  induction rs as [| r rest IH]; intros res;
    cbn [Outline.of_rules filter].
  - intros [= <-]. cbn [List.length]. lia.
  - destruct (Outline.is_enabled r); [| apply IH].
    unfold Outline.of_rule.
    destruct (findMatchingFields h (target_field r) d) as [fields | e]
      eqn:Hfields; [| discriminate].
    cbn [bind].
    destruct (Outline.on_fields h r d fields) as [first | e] eqn:Hfirst;
      [| discriminate].
    cbn [bind].
    destruct (Outline.of_rules h rest d) as [others | e]; [| discriminate].
    cbn [bind]. intros [= <-]. rewrite List.length_app.
    cbn [List.length Nat.mul].
    pose proof (IH others eq_refl).
    pose proof (on_fields_length h r d fields first Hfirst).
    pose proof (proj2 (findMatchingFields_within h _ d fields Hfields)).
    lia.
Qed.

Lemma validate_results
      (h : Host.t) (d : object) (this this' : engine)
      (res : list ValidationResult) :
  validate h d this = Normal (res, this') ->
  Outline.of_rules h (rules this) d = Normal res.
Proof.
  intros Hrun. rewrite <- returned_validate, Hrun. reflexivity.
Qed.

(** X4.  Every result of a run reports one field that the record has,
    with the value the record holds there, on behalf of one loaded rule
    that is not disabled: the result carries that rule's id and name,
    its severity or "error" when the rule names none (the severity of a
    result is never empty), and the verdict and message that the
    dispatcher gives for that rule and that value. *)
Theorem every_result_reports_a_field_of_the_record
        (h : Host.t) (d : object) (this this' : engine)
        (res : list ValidationResult) (x : ValidationResult) :
  validate h d this = Normal (res, this') ->
  In x res ->
  In (res_field x) (keys d)
  /\ res_value x = get d (res_field x)
  /\ ToBoolean (res_severity x) = true
  /\ exists r,
      In r (rules this)
      /\ strict_equals (enabled r) (VBool false) = false
      /\ res_ruleId x = id r
      /\ res_ruleName x = name r
      /\ res_severity x = or_else (severity r) (VStr "error")
      /\ executeRule h r (res_value x) d
         = Normal {| passed := res_passed x; message := res_message x |}.
Proof.
  intros Hrun Hin.
  destruct (of_rules_member h d (rules this) res x
              (validate_results h d this this' res Hrun) Hin)
    as (r & f & o & Hr & Hen & Hf & He & ->).
  cbn [Outline.result_of res_field res_value res_severity res_ruleId
       res_ruleName res_passed res_message].
  split; [exact Hf |]. split; [reflexivity |]. split.
  { unfold or_else. now destruct (ToBoolean (severity r)) eqn:E. }
  exists r. split; [exact Hr |]. split.
  { unfold Outline.is_enabled in Hen. now apply negb_true_iff in Hen. }
  split; [reflexivity |]. split; [reflexivity |]. split; [reflexivity |].
  rewrite He. now destruct o.
Qed.

Lemma every_result_reports_a_field_of_the_record_witness :
  validate RefHost.host [("age", Examples.num 15)]
    (loadRules [Examples.adult] constructor)
  = Normal ([Examples.adult_result_at_15],
            {| rules := [Examples.adult];
               results := [Examples.adult_result_at_15] |})
  /\ In Examples.adult_result_at_15 [Examples.adult_result_at_15]
  /\ In "age" ["age"]
  /\ Examples.num 15 = get [("age", Examples.num 15)] "age"
  /\ ToBoolean (VStr "error") = true.
Proof.
  split; [reflexivity |]. split; [now left |].
  destruct (every_result_reports_a_field_of_the_record
              RefHost.host [("age", Examples.num 15)]
              (loadRules [Examples.adult] constructor)
              {| rules := [Examples.adult];
                 results := [Examples.adult_result_at_15] |}
              [Examples.adult_result_at_15] Examples.adult_result_at_15
              eq_refl (or_introl eq_refl))
    as (Hfield & Hvalue & Hseverity & _).
  split; [exact Hfield |]. split; [exact Hvalue | exact Hseverity].
Defined.

(** X5.  A run never returns more results than one per field of the
    record for each loaded rule that is not disabled. *)
Theorem results_are_bounded
        (h : Host.t) (d : object) (this this' : engine)
        (res : list ValidationResult) :
  validate h d this = Normal (res, this') ->
  (List.length res
   <= List.length (filter Outline.is_enabled (rules this)) * List.length d)%nat.
Proof.
  intros Hrun. apply (of_rules_length h d (rules this)).
  exact (validate_results h d this this' res Hrun).
Qed.

Lemma results_are_bounded_witness :
  validate RefHost.host [("age", Examples.num 15)]
    (loadRules [Examples.adult] constructor)
  = Normal ([Examples.adult_result_at_15],
            {| rules := [Examples.adult];
               results := [Examples.adult_result_at_15] |})
  /\ (1 <= 1 * 1)%nat.
Proof.
  split; [reflexivity |].
  exact (results_are_bounded
           RefHost.host [("age", Examples.num 15)]
           (loadRules [Examples.adult] constructor)
           {| rules := [Examples.adult];
              results := [Examples.adult_result_at_15] |}
           [Examples.adult_result_at_15] eq_refl).
Defined.

(** *** Which fields a rule is run on *)

Lemma of_rules_absent (h : Host.t) (d : object) (rs : list rule) :
  own d "hasOwnProperty" = None ->
  Forall (fun r => JSString.includes (target_field r) "*" = false
                   /\ own d (target_field r) = None) rs ->
  Outline.of_rules h rs d = Normal [].
Proof.
  intros Hown Hall. induction Hall as [| r rest [Hexact Habsent] _ IH];
    cbn [Outline.of_rules]; [reflexivity |].
  destruct (Outline.is_enabled r); [| exact IH].
  unfold Outline.of_rule, findMatchingFields, hasOwnProperty.
  rewrite (exact_is_not_star _ Hexact), Hexact, Hown, Habsent.
  cbn [bind Outline.on_fields]. now rewrite IH.
Qed.

(** X6.  A rule whose target names one field says nothing about a
    record that lacks the field, whatever the rule's type and
    configuration, a completeness rule with [required: true] included:
    when the record has none of the targeted fields (and no field
    named [hasOwnProperty]) the run returns no result at all. *)
Theorem rules_on_absent_fields_yield_nothing
        (h : Host.t) (d : object) (rs : list rule) (this : engine) :
  own d "hasOwnProperty" = None ->
  Forall (fun r => JSString.includes (target_field r) "*" = false
                   /\ own d (target_field r) = None) rs ->
  validate h d (loadRules rs this)
  = Normal ([], {| rules := rs; results := [] |}).
Proof.
  intros Hown Hall. rewrite validate_outline. cbn [loadRules rules].
  now rewrite (of_rules_absent h d rs Hown Hall).
Qed.

Lemma rules_on_absent_fields_yield_nothing_witness :
  own [("email", VStr "ann@example.org")] "hasOwnProperty" = None
  /\ validate RefHost.host [("email", VStr "ann@example.org")]
       (loadRules [Examples.name_complete; Examples.age_range] constructor)
     = Normal ([], {| rules := [Examples.name_complete; Examples.age_range];
                      results := [] |}).
Proof.
  split; [reflexivity |].
  apply (rules_on_absent_fields_yield_nothing
           RefHost.host [("email", VStr "ann@example.org")]
           [Examples.name_complete; Examples.age_range] constructor).
  - reflexivity.
  - repeat constructor.
Defined.

(** One well-shaped rule, loaded alone and not disabled: the run
    returns one result per matching field, in order. *)
Lemma single_rule_results
      (h : Host.t) (r : rule) (d : object) (this : engine)
      (fields : list string) :
  Spec.accepts_literals h ->
  Spec.well_shaped h r ->
  strict_equals (enabled r) (VBool false) = false ->
  findMatchingFields h (target_field r) d = Normal fields ->
  exists results this',
    validate h d (loadRules [r] this) = Normal (results, this')
    /\ map res_field results = fields
    /\ map res_value results = map (get d) fields.
Proof.
  intros Hlit Hshape Henabled Hfields.
  unfold validate, loadRules. cbv zeta. cbn [rules validate_loop].
  rewrite Henabled. cbn [negb]. unfold applyRule. rewrite Hfields.
  cbn [bind].
  match goal with
  | |- context [applyRule_loop h r d fields ?this0] =>
      destruct (applyRule_loop_results h r d fields
                  (fun v => executeRule_returns h r v d Hlit Hshape) this0)
        as (this' & Hrun & _ & added & Hres & Hf & Hv)
  end.
  rewrite Hrun. cbn [bind results app] in *.
  exists (results this'), this'. rewrite Hres.
  split; [reflexivity |]. now split.
Qed.

(** X7.  A well-shaped rule whose target names one field, loaded alone
    and not disabled, yields exactly one result when the record has the
    field, for that field and its value, and none when it has not
    (the record has no field named [hasOwnProperty]). *)
Theorem exact_target_yields_at_most_one_result
        (h : Host.t) (r : rule) (d : object) (this : engine) :
  Spec.accepts_literals h ->
  Spec.well_shaped h r ->
  strict_equals (enabled r) (VBool false) = false ->
  JSString.includes (target_field r) "*" = false ->
  own d "hasOwnProperty" = None ->
  exists results this',
    validate h d (loadRules [r] this) = Normal (results, this')
    /\ map (fun x => (res_field x, res_value x)) results
       = match own d (target_field r) with
         | Some v => [(target_field r, v)]
         | None => []
         end.
Proof.
  intros Hlit Hshape Henabled Hexact Hown.
  assert (Hfields :
    findMatchingFields h (target_field r) d
    = Normal (match own d (target_field r) with
              | Some _ => [target_field r]
              | None => []
              end)).
  { unfold findMatchingFields, hasOwnProperty.
    rewrite (exact_is_not_star _ Hexact), Hexact, Hown. cbn [bind].
    now destruct (own d (target_field r)). }
  destruct (single_rule_results h r d this _ Hlit Hshape Henabled Hfields)
    as (results & this' & Hrun & Hf & Hv).
  exists results, this'. split; [exact Hrun |].
  destruct (own d (target_field r)) as [v |] eqn:Hv'.
  - destruct results as [| x [| y rest]]; try discriminate Hf.
    cbn [map] in *. unfold get in Hv. rewrite Hv' in Hv.
    injection Hf as Hf. injection Hv as Hv.
    now rewrite Hf, Hv.
  - now destruct results.
Qed.

Lemma exact_target_yields_at_most_one_result_witness :
  Spec.accepts_literals RefHost.host
  /\ Spec.well_shaped RefHost.host Examples.age_range
  /\ exists results this',
      validate RefHost.host
        [("name", VStr "Ann"); ("age", Examples.num 30)]
        (loadRules [Examples.age_range] constructor)
      = Normal (results, this')
      /\ map (fun x => (res_field x, res_value x)) results
         = [("age", Examples.num 30)].
Proof.
  assert (Hshape : Spec.well_shaped RefHost.host Examples.age_range).
  { eexists. split; [reflexivity |]. split; [discriminate |].
    intros tc Htc. discriminate Htc. }
  split; [exact reference_host_accepts_literals |].
  split; [exact Hshape |].
  exact (exact_target_yields_at_most_one_result
           RefHost.host Examples.age_range
           [("name", VStr "Ann"); ("age", Examples.num 30)] constructor
           reference_host_accepts_literals Hshape eq_refl eq_refl eq_refl).
Defined.

(** X8.  A well-shaped rule whose target has a wildcard among other
    characters, loaded alone and not disabled, yields one result for
    each field whose name the regular expression built from the target
    accepts (every [*] turned into [.*], anchored at both ends, case
    ignored), in the record's field order, and for no other field.
    A field named [hasOwnProperty] does no harm here. *)
Theorem wildcard_target_selects_by_regular_expression
        (h : Host.t) (r : rule) (d : object) (this : engine)
        (regex : Host.RegExp h) :
  Spec.accepts_literals h ->
  Spec.well_shaped h r ->
  strict_equals (enabled r) (VBool false) = false ->
  target_field r <> "*" ->
  JSString.includes (target_field r) "*" = true ->
  Host.RegExp_new h ("^" ++ JSString.replace_stars (target_field r) ++ "$")
                  "i" = Normal regex ->
  exists results this',
    validate h d (loadRules [r] this) = Normal (results, this')
    /\ map res_field results
       = filter (Host.RegExp_test h regex) (keys d)
    /\ map res_value results = map (get d) (map res_field results).
Proof.
  intros Hlit Hshape Henabled Hstar Hwild Hregex.
  assert (Hfields :
    findMatchingFields h (target_field r) d
    = Normal (filter (Host.RegExp_test h regex) (keys d))).
  { unfold findMatchingFields. apply String.eqb_neq in Hstar.
    now rewrite Hstar, Hwild, Hregex. }
  destruct (single_rule_results h r d this _ Hlit Hshape Henabled Hfields)
    as (results & this' & Hrun & Hf & Hv).
  exists results, this'. split; [exact Hrun |]. split; [exact Hf |].
  now rewrite Hf.
Qed.

Lemma wildcard_target_selects_by_regular_expression_witness :
  Spec.accepts_literals RefHost.host
  /\ Spec.well_shaped RefHost.host Examples.contact_required
  /\ exists results this',
      validate RefHost.host
        [("contactEmail", VStr "ann@example.org"); ("name", VStr "Ann");
         ("ContactPhone", VNull); ("hasOwnProperty", VStr "yes")]
        (loadRules [Examples.contact_required] constructor)
      = Normal (results, this')
      /\ map res_field results = ["contactEmail"; "ContactPhone"].
Proof.
  assert (Hshape : Spec.well_shaped RefHost.host Examples.contact_required).
  { eexists. split; [reflexivity |]. split; [discriminate |].
    intros tc Htc. discriminate Htc. }
  assert (Hregex :
    Host.RegExp_new RefHost.host
      ("^" ++ JSString.replace_stars (target_field Examples.contact_required)
           ++ "$") "i"
    = Normal Examples.contact_regex).
  { vm_compute. reflexivity. }
  split; [exact reference_host_accepts_literals |].
  split; [exact Hshape |].
  destruct (wildcard_target_selects_by_regular_expression
              RefHost.host Examples.contact_required
              [("contactEmail", VStr "ann@example.org"); ("name", VStr "Ann");
               ("ContactPhone", VNull); ("hasOwnProperty", VStr "yes")]
              constructor Examples.contact_regex
              reference_host_accepts_literals Hshape eq_refl
              ltac:(discriminate) eq_refl Hregex)
    as (results & this' & Hrun & Hf & _).
  exists results, this'. split; [exact Hrun |]. rewrite Hf.
  vm_compute. reflexivity.
Defined.

(* ================================================================== *)
(** *** The order of numbers *)

Lemma compare_antisym (x y : number) :
  SFcompare y x = option_map CompOpp (SFcompare x y).
Proof.
  destruct x as [sx | sx | | sx mx ex], y as [sy | sy | | sy my ey];
    cbn [SFcompare option_map]; try reflexivity;
    try (destruct sx; reflexivity); try (destruct sy; reflexivity);
    try (destruct sx, sy; reflexivity).
  rewrite (Z.compare_antisym ex ey).
  assert (H : PosDef.Pos.compare_cont Eq my mx
              = CompOpp (PosDef.Pos.compare_cont Eq mx my)).
  { symmetry. exact (Pos.compare_cont_antisym mx my Eq). }
  rewrite H. clear H.
  destruct sx, sy; cbn [CompOpp]; try reflexivity;
    destruct (ex ?= ey)%Z; cbn [CompOpp]; reflexivity.
Qed.

Lemma compare_defined (x y : number) :
  isNaN x = false -> isNaN y = false -> exists c, SFcompare x y = Some c.
Proof.
  destruct x, y; cbn [isNaN SFcompare]; try discriminate;
    intros _ _; now eexists.
Qed.

(** Two numbers other than NaN are ordered one way or the other. *)
Lemma ltb_not_leb (x y : number) :
  isNaN x = false -> isNaN y = false -> ltb x y = negb (leb y x).
Proof.
  intros Hx Hy. unfold ltb, leb, SFltb, SFleb.
  rewrite (compare_antisym x y).
  destruct (compare_defined x y Hx Hy) as [c ->]. now destruct c.
Qed.

Lemma leb_refl (x : number) : isNaN x = false -> leb x x = true.
Proof.
  unfold leb, SFleb.
  destruct x as [s | s | | s m e]; cbn [isNaN SFcompare];
    try discriminate; intros _; try (destruct s; reflexivity).
  rewrite Z.compare_refl.
  change (PosDef.Pos.compare_cont Eq m m) with (Pos.compare m m).
  rewrite Pos.compare_refl. now destruct s.
Qed.

Lemma ltb_irrefl (x : number) : ltb x x = false.
Proof.
  destruct (isNaN x) eqn:Hx.
  - now destruct x.
  - rewrite (ltb_not_leb x x Hx Hx). now rewrite (leb_refl x Hx).
Qed.

(** No comparison holds against NaN. *)
Lemma ltb_nan_l (x y : number) : isNaN x = true -> ltb x y = false.
Proof. now destruct x. Qed.

Lemma ltb_nan_r (x y : number) : isNaN y = true -> ltb x y = false.
Proof. destruct y; try discriminate. now destruct x. Qed.

Lemma leb_nan_l (x y : number) : isNaN x = true -> leb x y = false.
Proof. now destruct x. Qed.

Lemma leb_nan_r (x y : number) : isNaN y = true -> leb x y = false.
Proof. destruct y; try discriminate. now destruct x. Qed.

Lemma eqb_nan_l (x y : number) : isNaN x = true -> eqb x y = false.
Proof. now destruct x. Qed.

Lemma eqb_nan_r (x y : number) : isNaN y = true -> eqb x y = false.
Proof. destruct y; try discriminate. now destruct x. Qed.

Lemma add_nan (x y : number) :
  isNaN x || isNaN y = true -> isNaN (add x y) = true.
Proof.
  destruct x; [| | reflexivity |]; (destruct y; [| | reflexivity |]);
    discriminate.
Qed.

(** *** The interval of a range rule *)

(** Below the minimum, for a number other than NaN: the bound is a
    number and the value is not at or above it. *)
Lemma below_minimum_outside
      (c : configuration_object) (x : number) :
  isNaN x = false ->
  Spec.below_minimum c x
  = negb (isNaN (ToNumber (min c))
          || (if Spec.is_inclusive c then leb (ToNumber (min c)) x
              else ltb (ToNumber (min c)) x)).
Proof.
  intros Hnan. unfold Spec.below_minimum.
  rewrite less_than_number_l, less_equal_number_l.
  destruct (isNaN (ToNumber (min c))) eqn:Elo.
  - rewrite (ltb_nan_r x _ Elo), (leb_nan_r x _ Elo).
    cbn [orb negb]. rewrite andb_comm. now destruct (Spec.is_inclusive c).
  - destruct (strict_equals (min c) VUndefined) eqn:E.
    { apply strict_equals_undefined in E. rewrite E in Elo.
      discriminate Elo. }
    cbn [negb andb orb].
    rewrite (ltb_not_leb x _ Hnan Elo), (ltb_not_leb _ x Elo Hnan).
    destruct (Spec.is_inclusive c); [reflexivity |].
    now rewrite negb_involutive.
Qed.

Lemma above_maximum_outside
      (c : configuration_object) (x : number) :
  isNaN x = false ->
  Spec.above_maximum c x
  = negb (isNaN (ToNumber (max c))
          || (if Spec.is_inclusive c then leb x (ToNumber (max c))
              else ltb x (ToNumber (max c)))).
Proof.
  intros Hnan. unfold Spec.above_maximum, greater_than, greater_equal.
  rewrite less_than_number_r, less_equal_number_r.
  destruct (isNaN (ToNumber (max c))) eqn:Ehi.
  - rewrite (ltb_nan_l _ x Ehi), (leb_nan_l _ x Ehi).
    cbn [orb negb]. rewrite andb_comm. now destruct (Spec.is_inclusive c).
  - destruct (strict_equals (max c) VUndefined) eqn:E.
    { apply strict_equals_undefined in E. rewrite E in Ehi.
      discriminate Ehi. }
    cbn [negb andb orb].
    rewrite (ltb_not_leb _ x Ehi Hnan), (ltb_not_leb x _ Hnan Ehi).
    destruct (Spec.is_inclusive c); [reflexivity |].
    now rewrite negb_involutive.
Qed.

(** X9.  On a value that is a number, or coerces to one other than
    NaN, a range rule passes exactly when the number lies in the
    interval of its bounds: at or above [min] and at or below [max],
    strictly above and strictly below when [inclusive] is [false].  A
    bound that is absent, or that does not coerce to a number, sets no
    limit. *)
Theorem range_accepts_the_interval
        (rule : rule) (c : configuration_object) (value : JS.value) :
  configuration rule = Some c ->
  is_nullish value = false ->
  isNaN (ToNumber value) = false ->
  let x := ToNumber value in
  let lo := ToNumber (min c) in
  let hi := ToNumber (max c) in
  exists o,
    validateRange rule value = Normal o
    /\ passed o
       = (isNaN lo || (if Spec.is_inclusive c then leb lo x else ltb lo x))
         && (isNaN hi || (if Spec.is_inclusive c then leb x hi else ltb x hi)).
Proof.
  intros Hc Hnull Hnan x lo hi.
  rewrite (validateRange_verdict rule c value Hc Hnull Hnan).
  eexists. split; [reflexivity |].
  fold x. unfold Spec.range_verdict.
  rewrite (below_minimum_outside c x Hnan), (above_maximum_outside c x Hnan).
  fold lo hi.
  destruct (isNaN lo || (if Spec.is_inclusive c then leb lo x else ltb lo x));
    [| reflexivity].
  now destruct
        (isNaN hi || (if Spec.is_inclusive c then leb x hi else ltb x hi)).
Qed.

Lemma range_accepts_the_interval_witness :
  configuration Examples.age_range
  = Some (Examples.range_keys (Examples.num 0) (Examples.num 150) (VBool true))
  /\ is_nullish (VStr "30") = false
  /\ isNaN (ToNumber (VStr "30")) = false
  /\ exists o,
      validateRange Examples.age_range (VStr "30") = Normal o
      /\ passed o = true.
Proof.
  split; [reflexivity |]. split; [reflexivity |]. split; [reflexivity |].
  exact (range_accepts_the_interval
           Examples.age_range
           (Examples.range_keys (Examples.num 0) (Examples.num 150)
                                (VBool true))
           (VStr "30") eq_refl eq_refl eq_refl).
Defined.

(** X10.  A value equal to a bound: when the only bound of a range rule
    is a number, be it [min] or [max], the rule accepts that very
    number exactly when it is inclusive, that is unless [inclusive] is
    [false]. *)
Theorem range_bound_itself_passes_iff_inclusive
        (rule : rule) (c : configuration_object) (bound : number) :
  configuration rule = Some c ->
  isNaN bound = false ->
  (min c = VNum bound /\ max c = VUndefined)
  \/ (min c = VUndefined /\ max c = VNum bound) ->
  exists o,
    validateRange rule (VNum bound) = Normal o
    /\ passed o = negb (strict_equals (inclusive c) (VBool false)).
Proof.
  intros Hc Hnan Hbounds.
  rewrite (validateRange_verdict rule c (VNum bound) Hc eq_refl Hnan).
  eexists. split; [reflexivity |].
  cbn [ToNumber]. unfold Spec.range_verdict.
  rewrite (below_minimum_outside c bound Hnan),
    (above_maximum_outside c bound Hnan).
  unfold Spec.is_inclusive.
  destruct Hbounds as [[-> ->] | [-> ->]]; cbn [ToNumber isNaN NaN orb];
    rewrite Hnan, (leb_refl bound Hnan), (ltb_irrefl bound);
    now destruct (negb (strict_equals (inclusive c) (VBool false))).
Qed.

Lemma range_bound_itself_passes_iff_inclusive_witness :
  exists o,
    validateRange Examples.price_range (Examples.num 0) = Normal o
    /\ passed o = true.
Proof.
  exact (range_bound_itself_passes_iff_inclusive
           Examples.price_range
           (Examples.range_keys (Examples.num 0) VUndefined VUndefined)
           (of_Z 0) eq_refl eq_refl (or_introl (conj eq_refl eq_refl))).
Defined.

(* ================================================================== *)
(** *** Cross-field comparison without two numbers or two dates *)

Lemma compares_nan (op es : value) (n1 n2 : number) :
  Spec.orders_or_adds op = true ->
  isNaN n1 || isNaN n2 = true ->
  Spec.compares op es (VNum n1) (VNum n2) = false.
Proof.
  intros Hop Hnan.
  assert (L12 : ltb n1 n2 = false).
  { apply orb_true_iff in Hnan as [H | H];
      [now apply ltb_nan_l | now apply ltb_nan_r]. }
  assert (L21 : ltb n2 n1 = false).
  { apply orb_true_iff in Hnan as [H | H];
      [now apply ltb_nan_r | now apply ltb_nan_l]. }
  assert (E12 : leb n1 n2 = false).
  { apply orb_true_iff in Hnan as [H | H];
      [now apply leb_nan_l | now apply leb_nan_r]. }
  assert (E21 : leb n2 n1 = false).
  { apply orb_true_iff in Hnan as [H | H];
      [now apply leb_nan_r | now apply leb_nan_l]. }
  pose proof (add_nan n1 n2 Hnan) as Hsum.
  unfold Spec.orders_or_adds in Hop. cbn [existsb] in Hop.
  repeat (apply orb_true_iff in Hop as [Hop | Hop]);
    try discriminate Hop;
    apply strict_equals_string in Hop; subst op;
    unfold Spec.compares; cbv zeta;
    cbn [strict_equals String.eqb Ascii.eqb Bool.eqb
         less_than greater_than less_equal greater_equal ToNumber];
    try assumption.
  - now apply eqb_nan_l.
  - now apply ltb_nan_l.
  - now apply ltb_nan_r.
Qed.

(** X11.  Under an operator that orders or adds ([lessThan],
    [greaterThan], [lessThanOrEqual], [greaterThanOrEqual],
    [sumEquals], [sumLessThan], [sumGreaterThan]) a comparison rule
    fails whenever its two fields do not both hold dates and one of
    them does not coerce to a number: a field that the record lacks, or
    one holding text that is not numeric, fails the rule whatever the
    other field holds. *)
Theorem comparison_fails_without_two_numbers_or_two_dates
        (h : Host.t) (rule : rule) (c : configuration_object)
        (value : JS.value) (d : object) :
  configuration rule = Some c ->
  ToBoolean (field1 c) = true ->
  ToBoolean (field2 c) = true ->
  Spec.orders_or_adds (comparisonOperator c) = true ->
  isValidDate h (field_of d (field1 c))
  && isValidDate h (field_of d (field2 c)) = false ->
  isNaN (ToNumber (field_of d (field1 c)))
  || isNaN (ToNumber (field_of d (field2 c))) = true ->
  validateComparisonCrossField h rule value d
  = Normal (fail (Spec.comparison_message
                    (field1 c) (comparisonOperator c) (field2 c))).
Proof.
  intros Hc H1 H2 Hop Hdates Hnan.
  assert (Htruthy : ToBoolean (comparisonOperator c) = true).
  { pose proof Hop as Hop'.
    unfold Spec.orders_or_adds in Hop'. cbn [existsb] in Hop'.
    repeat (apply orb_true_iff in Hop' as [Hop' | Hop']);
      try discriminate Hop';
      apply strict_equals_string in Hop'; now rewrite Hop'. }
  rewrite (validateComparisonCrossField_comparison
             h rule c value d Hc H1 H2 Htruthy).
  unfold Spec.comparison. rewrite Hop. unfold Spec.coerced.
  rewrite Hdates.
  now rewrite (compares_nan (comparisonOperator c) (expectedSum c) _ _
                            Hop Hnan).
Qed.

Lemma comparison_fails_without_two_numbers_or_two_dates_witness :
  validateComparisonCrossField RefHost.host Examples.start_before_end
    (VStr "2023-01-01") [("startDate", VStr "2023-01-01")]
  = Normal (fail "Comparison validation failed: startDate lessThan endDate condition not met").
Proof.
  exact (comparison_fails_without_two_numbers_or_two_dates
           RefHost.host Examples.start_before_end
           (Examples.comparison_keys "startDate" "endDate" "lessThan")
           (VStr "2023-01-01") [("startDate", VStr "2023-01-01")]
           eq_refl eq_refl eq_refl eq_refl eq_refl eq_refl).
Defined.

(* ================================================================== *)
(** *** The catalogue of business rules *)

(** X12.  The two age rules split the records at 18.  With a numeric
    age, exactly one of them applies: at 18 or above the record needs
    an ID type and a verification document, below 18 it needs the
    guardian's consent and the guardian's email.  With no age, or an
    age that is not numeric, neither rule applies and both pass. *)
Theorem age_rules_split_at_18 (d : object) :
  let x := ToNumber (get d "age") in
  let adult := leb (of_Z 18) x in
  let minor := ltb x (of_Z 18) in
  minor = negb adult && negb (isNaN x)
  /\ passed (validateAgeVerificationRule d)
     = negb adult
       || (ToBoolean (get d "idType")
           && ToBoolean (get d "verificationDocument"))
  /\ passed (validateMinorsConsentRule d)
     = negb minor
       || (ToBoolean (get d "guardianConsent")
           && ToBoolean (get d "guardianEmail")).
Proof.
  intros x adult minor. split; [| split].
  - subst adult minor. destruct (isNaN x) eqn:Hx.
    + rewrite (ltb_nan_l x _ Hx). now rewrite andb_false_r.
    + rewrite (ltb_not_leb x (of_Z 18) Hx eq_refl). now rewrite andb_true_r.
  - unfold validateAgeVerificationRule. cbv zeta.
    unfold greater_equal. rewrite less_equal_number_l. fold x adult.
    destruct adult; [| reflexivity].
    now destruct (ToBoolean (get d "idType")),
      (ToBoolean (get d "verificationDocument")).
  - unfold validateMinorsConsentRule. cbv zeta.
    rewrite less_than_number_r. fold x minor.
    destruct minor; [| reflexivity].
    now destruct (ToBoolean (get d "guardianConsent")),
      (ToBoolean (get d "guardianEmail")).
Qed.

Lemma truthy_or_empty (v : value) :
  negb (ToBoolean v) || strict_equals v (VStr "") = negb (ToBoolean v).
Proof.
  destruct v as [| | b | x | s]; cbn [ToBoolean strict_equals];
    try now rewrite orb_false_r.
  now destruct (String.eqb s "").
Qed.

(** X13.  The email-or-phone rule passes exactly when the record's
    [email] or its [phone] is truthy: an absent field, [null], the
    empty string, [false] and the number zero all count as not
    provided. *)
Theorem contact_rule_passes_iff_email_or_phone_is_truthy (d : object) :
  validateEmailOrPhoneRequiredRule d
  = if ToBoolean (get d "email") || ToBoolean (get d "phone")
    then pass
    else fail "Either email or phone must be provided".
Proof.
  unfold validateEmailOrPhoneRequiredRule. cbv zeta.
  rewrite !truthy_or_empty.
  now destruct (ToBoolean (get d "email")), (ToBoolean (get d "phone")).
Qed.

Lemma above_100000_is_positive (x : number) :
  ltb (of_Z 100000) x = true -> ltb (of_Z 0) x = true.
Proof.
  destruct x as [s | s | | s m e]; try destruct s; cbv; congruence.
Qed.

(** X14.  The salary rule leaves alone every record whose salary is not
    above zero (absent, zero, negative, not numeric).  A salary above
    zero needs one of the five employment statuses, and a salary above
    100000 needs a truthy salary verification as well. *)
Theorem salary_rule_applies_to_positive_salaries (d : object) :
  let x := ToNumber (get d "salary") in
  let status := get d "employmentStatus" in
  let status_known :=
    existsb (fun s => strict_equals status (VStr s))
            ["employed"; "self-employed"; "retired"; "unemployed";
             "student"] in
  passed (validateSalaryVerificationRule d)
  = negb (ltb (of_Z 0) x)
    || (status_known
        && (negb (ltb (of_Z 100000) x)
            || ToBoolean (get d "salaryVerification"))).
Proof.
  intros x status status_known.
  unfold validateSalaryVerificationRule. cbv zeta.
  unfold greater_than. rewrite !less_than_number_l. fold x status.
  subst status_known. cbn [existsb].
  pose proof (above_100000_is_positive x) as Himp.
  destruct (ltb (of_Z 100000) x).
  - rewrite (Himp eq_refl). cbn [negb orb andb].
    destruct (ToBoolean (get d "salaryVerification"));
      cbn [negb andb orb]; [| now rewrite andb_false_r].
    now destruct (strict_equals status (VStr "employed")),
      (strict_equals status (VStr "self-employed")),
      (strict_equals status (VStr "retired")),
      (strict_equals status (VStr "unemployed")),
      (strict_equals status (VStr "student")).
  - destruct (ltb (of_Z 0) x); [| reflexivity].
    now destruct (strict_equals status (VStr "employed")),
      (strict_equals status (VStr "self-employed")),
      (strict_equals status (VStr "retired")),
      (strict_equals status (VStr "unemployed")),
      (strict_equals status (VStr "student")).
Qed.

(* ================================================================== *)
(** *** Dependency and conditional rules *)

Lemma loose_equals_nullish (v w : value) :
  is_nullish w = true -> loose_equals v w = is_nullish v.
Proof. destruct w; try discriminate; intros _; now destruct v. Qed.

(** X15.  A dependency rule that names no [requiredValue] (or names
    [null]) applies to the records whose dependent field is absent or
    null, and to no other: it fails exactly when the dependent field is
    absent or null and the target field is absent, null or the empty
    string.  The two fields are read on the record itself
    ([reads_own]): a field that the record lacks is absent unless its
    name is that of a member of [Object.prototype], which the code
    would read instead. *)
Theorem dependency_without_required_value
        (rule : rule) (c : configuration_object) (value : JS.value)
        (d : object) :
  configuration rule = Some c ->
  ToBoolean (dependentField c) = true ->
  ToBoolean (targetField c) = true ->
  is_nullish (requiredValue c) = true ->
  reads_own d (ToString (dependentField c)) = true ->
  reads_own d (ToString (targetField c)) = true ->
  exists o,
    validateDependencyCrossField rule value d = Normal o
    /\ passed o
       = negb (is_nullish (field_of d (dependentField c))
               && (is_nullish (field_of d (targetField c))
                   || strict_equals (field_of d (targetField c)) (VStr ""))).
Proof.
  intros Hc Hdep Htarget Hreq _ _. unfold validateDependencyCrossField.
  rewrite Hc. cbv zeta. rewrite Hdep, Htarget. cbn [negb orb].
  rewrite (loose_equals_nullish _ _ Hreq).
  destruct (is_nullish (field_of d (dependentField c)));
    [| now eexists].
  destruct (is_nullish (field_of d (targetField c))
            || strict_equals (field_of d (targetField c)) (VStr ""));
    now eexists.
Qed.

Lemma dependency_without_required_value_witness :
  reads_own [("name", VStr "Ann")] "age" = true
  /\ reads_own [("name", VStr "Ann")] "guardianEmail" = true
  /\ exists o,
      validateDependencyCrossField Examples.guardian_dependency VUndefined
        [("name", VStr "Ann")] = Normal o
      /\ passed o = false.
Proof.
  split; [reflexivity |]. split; [reflexivity |].
  exact (dependency_without_required_value
           Examples.guardian_dependency
           (Examples.dependency_keys "age" VUndefined "guardianEmail")
           VUndefined [("name", VStr "Ann")]
           eq_refl eq_refl eq_refl eq_refl eq_refl eq_refl).
Defined.

(** X16.  A dependency rule is the conditional rule that requires its
    target: a conditional rule with the operator [equals] (or none)
    and the target condition [{ type: 'required' }] passes on exactly
    the records on which the dependency rule with the same dependent
    field, required value and target field passes. *)
Theorem dependency_is_a_conditional_requirement
        (h : Host.t) (conditional dependency : rule)
        (c1 c2 : configuration_object) (tc : target_condition)
        (value : JS.value) (d : object) :
  configuration conditional = Some c1 ->
  configuration dependency = Some c2 ->
  or_else (conditionOperator c1) (VStr "equals") = VStr "equals" ->
  targetCondition c1 = Some tc ->
  tc_type tc = VStr "required" ->
  dependentField c2 = conditionField c1 ->
  requiredValue c2 = conditionValue c1 ->
  targetField c2 = targetField c1 ->
  exists o1 o2,
    validateConditionalCrossField h conditional value d = Normal o1
    /\ validateDependencyCrossField dependency value d = Normal o2
    /\ passed o1 = passed o2.
Proof.
  intros Hc1 Hc2 Hop Htc Htype Hdep Hreq Htarget.
  unfold validateConditionalCrossField, validateDependencyCrossField.
  rewrite Hc1, Hc2. cbv zeta. rewrite Hop, Htc, Hdep, Hreq, Htarget.
  cbn [strict_equals String.eqb Ascii.eqb Bool.eqb].
  destruct (negb (ToBoolean (conditionField c1))
            || negb (ToBoolean (targetField c1)));
    [now eexists _, _ |].
  destruct (loose_equals (field_of d (conditionField c1))
                         (conditionValue c1));
    [| now eexists _, _].
  unfold evaluateTargetCondition. cbv zeta. rewrite Htype.
  cbn [strict_equals String.eqb Ascii.eqb Bool.eqb].
  destruct (is_nullish (field_of d (targetField c1))
            || strict_equals (field_of d (targetField c1)) (VStr ""));
    cbn [bind passed negb]; now eexists _, _.
Qed.

Lemma dependency_is_a_conditional_requirement_witness :
  exists o1 o2,
    validateConditionalCrossField RefHost.host Examples.shipping_conditional
      VUndefined [("needsShipping", VBool true)] = Normal o1
    /\ validateDependencyCrossField Examples.shipping_dependency
         VUndefined [("needsShipping", VBool true)] = Normal o2
    /\ passed o1 = passed o2.
Proof.
  exact (dependency_is_a_conditional_requirement
           RefHost.host
           Examples.shipping_conditional Examples.shipping_dependency
           (Examples.conditional_keys "needsShipping" (VBool true)
              "shippingAddress" Examples.required_condition)
           (Examples.dependency_keys "needsShipping" (VBool true)
              "shippingAddress")
           Examples.required_condition
           VUndefined [("needsShipping", VBool true)]
           eq_refl eq_refl eq_refl eq_refl eq_refl eq_refl eq_refl eq_refl).
Defined.

(** X17.  The range condition of a conditional rule and the inclusive
    range rule with the same bounds give the same verdict on every
    value other than [null] and [undefined], which the range rule skips
    and the condition does not. *)
Theorem range_condition_agrees_with_range_rule
        (h : Host.t) (rule : rule) (c : configuration_object)
        (tc : target_condition) (value : JS.value) :
  configuration rule = Some c ->
  Spec.is_inclusive c = true ->
  tc_type tc = VStr "range" ->
  tc_min tc = min c ->
  tc_max tc = max c ->
  is_nullish value = false ->
  exists o1 o2,
    evaluateTargetCondition h value tc = Normal o1
    /\ validateRange rule value = Normal o2
    /\ passed o1 = passed o2.
Proof.
  intros Hc Hincl Htype Hmin Hmax Hnull.
  unfold evaluateTargetCondition. cbv zeta. rewrite Htype, Hmin, Hmax.
  cbn [strict_equals String.eqb Ascii.eqb Bool.eqb].
  destruct (isNaN (ToNumber value)) eqn:Hnan.
  { rewrite (validateRange_not_a_number rule value Hnull Hnan).
    now eexists _, _. }
  rewrite (validateRange_verdict rule c value Hc Hnull Hnan).
  unfold Spec.range_verdict, Spec.below_minimum, Spec.above_maximum.
  rewrite Hincl.
  destruct (negb (strict_equals (min c) VUndefined)
            && less_than (VNum (ToNumber value)) (min c));
    [now eexists _, _ |].
  destruct (negb (strict_equals (max c) VUndefined)
            && greater_than (VNum (ToNumber value)) (max c));
    now eexists _, _.
Qed.

Lemma range_condition_agrees_with_range_rule_witness :
  exists o1 o2,
    evaluateTargetCondition RefHost.host (VStr "200")
      (Examples.range_condition (Examples.num 0) (Examples.num 150))
    = Normal o1
    /\ validateRange Examples.age_range (VStr "200") = Normal o2
    /\ passed o1 = passed o2.
Proof.
  exact (range_condition_agrees_with_range_rule
           RefHost.host Examples.age_range
           (Examples.range_keys (Examples.num 0) (Examples.num 150)
                                (VBool true))
           (Examples.range_condition (Examples.num 0) (Examples.num 150))
           (VStr "200") eq_refl eq_refl eq_refl eq_refl eq_refl eq_refl).
Defined.

(* ================================================================== *)
(** *** Missing values and the legacy evaluator *)

(** X18.  On a value that is [null] or [undefined] a completeness rule
    fails exactly when [required] is [true] or [notEmpty] is [true], in
    that order of messages; [minLength] never fails such a value. *)
Theorem completeness_of_a_missing_value
        (rule : rule) (c : configuration_object) (value : JS.value) :
  configuration rule = Some c ->
  is_nullish value = true ->
  validateCompleteness rule value
  = Normal (if strict_equals (required c) (VBool true)
            then fail "Required field is missing"
            else if strict_equals (notEmpty c) (VBool true)
            then fail "Field must not be empty"
            else pass).
Proof.
  intros Hc Hnull. unfold validateCompleteness. rewrite Hc, Hnull.
  cbn [andb orb].
  destruct (strict_equals (required c) (VBool true)); cbn [andb];
    [reflexivity |].
  destruct (strict_equals (notEmpty c) (VBool true)); cbn [andb];
    [reflexivity |].
  now destruct (negb (strict_equals (minLength c) VUndefined)).
Qed.

Lemma completeness_of_a_missing_value_witness :
  validateCompleteness Examples.three_characters VNull = Normal pass.
Proof.
  exact (completeness_of_a_missing_value
           Examples.three_characters
           (Examples.completeness_keys VUndefined VUndefined (Examples.num 3))
           VNull eq_refl eq_refl).
Defined.

(** X19.  The legacy mode never reports an evaluation error: for every
    rule with a configuration, every value and every record it returns
    a verdict without a message, so the message "Error evaluating
    cross-field condition" of its [catch] block is never produced. *)
Theorem legacy_mode_never_reports_an_error
        (rule : rule) (c : configuration_object) (value : JS.value)
        (d : object) :
  configuration rule = Some c ->
  exists verdict,
    validateLegacyCrossField rule value d
    = Normal {| passed := verdict; message := VUndefined |}.
Proof.
  intros Hc. unfold validateLegacyCrossField. rewrite Hc. cbv zeta.
  destruct (negb (ToBoolean (dependentField c))
            || negb (ToBoolean (condition c))); [now exists true |].
  destruct (evaluateExpression_returns
              (condition c) (field_of d (dependentField c)) d) as [b ->].
  now exists b.
Qed.

Lemma legacy_mode_never_reports_an_error_witness :
  exists verdict,
    validateLegacyCrossField Examples.adult (VStr "not a number")
      [("age", VStr "not a number")]
    = Normal {| passed := verdict; message := VUndefined |}.
Proof.
  exact (legacy_mode_never_reports_an_error
           Examples.adult (Examples.legacy_keys "age" "age >= 18")
           (VStr "not a number") [("age", VStr "not a number")] eq_refl).
Defined.

(** X20.  The format condition of a conditional rule and the format
    rule with the same pattern and no data type give the same verdict
    on every value other than [null] and [undefined], and throw alike
    when the pattern is not a regular expression. *)
Theorem format_condition_agrees_with_format_rule
        (h : Host.t) (rule : rule) (c : configuration_object)
        (tc : target_condition) (value : JS.value) :
  configuration rule = Some c ->
  ToBoolean (dataType c) = false ->
  tc_type tc = VStr "format" ->
  tc_pattern tc = pattern c ->
  is_nullish value = false ->
  bind (evaluateTargetCondition h value tc) (fun o => Normal (passed o))
  = bind (validateFormat h rule value) (fun o => Normal (passed o)).
Proof.
  intros Hc Htype_free Htype Hpattern Hnull.
  unfold evaluateTargetCondition, validateFormat. cbv zeta.
  rewrite Hnull, Hc, Htype_free, Htype, Hpattern.
  cbn [strict_equals String.eqb Ascii.eqb Bool.eqb].
  destruct (ToBoolean (pattern c)); [| reflexivity].
  destruct (Host.RegExp_new h (ToString (pattern c)) "") as [regex | e];
    [| reflexivity].
  cbn [bind].
  now destruct (Host.RegExp_test h regex (ToString value)).
Qed.

Lemma format_condition_agrees_with_format_rule_witness :
  bind (evaluateTargetCondition RefHost.host (VStr "abc")
          (Examples.format_condition (VStr "^[A-Z]+$")))
       (fun o => Normal (passed o))
  = bind (validateFormat RefHost.host Examples.capitals (VStr "abc"))
         (fun o => Normal (passed o)).
Proof.
  exact (format_condition_agrees_with_format_rule
           RefHost.host Examples.capitals
           (Examples.format_keys VUndefined (VStr "^[A-Z]+$"))
           (Examples.format_condition (VStr "^[A-Z]+$")) (VStr "abc")
           eq_refl eq_refl eq_refl eq_refl eq_refl).
Defined.

(** X21.  Under an ordering operator ([greaterThan], [lessThan],
    [greaterThanOrEqual], [lessThanOrEqual]) a conditional rule does
    not apply when its condition field, or its condition value, does
    not coerce to a number: the rule passes whatever the target field
    holds, an absent condition field included. *)
Theorem conditional_rule_skips_what_it_cannot_order
        (h : Host.t) (rule : rule) (c : configuration_object)
        (value : JS.value) (d : object) :
  configuration rule = Some c ->
  existsb (fun name => strict_equals (conditionOperator c) (VStr name))
          ["greaterThan"; "lessThan"; "greaterThanOrEqual";
           "lessThanOrEqual"] = true ->
  isNaN (ToNumber (field_of d (conditionField c)))
  || isNaN (ToNumber (conditionValue c)) = true ->
  validateConditionalCrossField h rule value d = Normal pass.
Proof.
  intros Hc Hop Hnan.
  set (n1 := ToNumber (field_of d (conditionField c))) in *.
  set (n2 := ToNumber (conditionValue c)) in *.
  assert (L12 : ltb n1 n2 = false).
  { apply orb_true_iff in Hnan as [H | H];
      [now apply ltb_nan_l | now apply ltb_nan_r]. }
  assert (L21 : ltb n2 n1 = false).
  { apply orb_true_iff in Hnan as [H | H];
      [now apply ltb_nan_r | now apply ltb_nan_l]. }
  assert (E12 : leb n1 n2 = false).
  { apply orb_true_iff in Hnan as [H | H];
      [now apply leb_nan_l | now apply leb_nan_r]. }
  assert (E21 : leb n2 n1 = false).
  { apply orb_true_iff in Hnan as [H | H];
      [now apply leb_nan_r | now apply leb_nan_l]. }
  unfold validateConditionalCrossField. rewrite Hc. cbv zeta.
  destruct (negb (ToBoolean (conditionField c))
            || negb (ToBoolean (targetField c))); [reflexivity |].
  fold n1 n2. cbn [existsb] in Hop.
  repeat (apply orb_true_iff in Hop as [Hop | Hop]);
    try discriminate Hop;
    apply strict_equals_string in Hop; rewrite Hop;
    cbn [or_else ToBoolean String.eqb Ascii.eqb Bool.eqb negb
         strict_equals less_than greater_than less_equal greater_equal
         ToNumber];
    rewrite ?L12, ?L21, ?E12, ?E21; reflexivity.
Qed.

Lemma conditional_rule_skips_what_it_cannot_order_witness :
  validateConditionalCrossField RefHost.host Examples.above_threshold
    VUndefined [("name", VStr "Ann")] = Normal pass.
Proof.
  exact (conditional_rule_skips_what_it_cannot_order
           RefHost.host Examples.above_threshold
           _ VUndefined [("name", VStr "Ann")] eq_refl eq_refl eq_refl).
Defined.

(* ================================================================== *)
(** *** Duplicates *)

(** Two numbers that [===] holds equal are the same number, or both are
    zero. *)
Lemma eqb_true_cases (x y : number) :
  eqb x y = true ->
  x = y \/ exists s s', x = S754_zero s /\ y = S754_zero s'.
Proof.
  unfold eqb, SFeqb.
  destruct x as [sx | sx | | sx mx ex], y as [sy | sy | | sy my ey];
    cbn [SFcompare]; try discriminate;
    try (destruct sx; discriminate); try (destruct sy; discriminate).
  - intros _. right. now exists sx, sy.
  - destruct sx, sy; try discriminate; intros _; now left.
  - destruct sx, sy; try discriminate;
      destruct (ex ?= ey)%Z eqn:He; try discriminate;
      destruct (PosDef.Pos.compare_cont Eq mx my) eqn:Hm; try discriminate;
      intros _; left;
      apply Z.compare_eq in He;
      change (PosDef.Pos.compare_cont Eq mx my) with (Pos.compare mx my) in Hm;
      apply Pos.compare_eq in Hm; now subst.
Qed.

Lemma strict_equals_congruence (v w : value) :
  strict_equals v w = true ->
  is_nullish v = is_nullish w
  /\ ToString v = ToString w
  /\ forall u, strict_equals u v = strict_equals u w.
Proof.
  destruct v as [| | b | x | s], w as [| | b' | y | t];
    cbn [strict_equals]; try discriminate; intros H.
  - now repeat split.
  - now repeat split.
  - apply Bool.eqb_prop in H. subst. now repeat split.
  - apply eqb_true_cases in H as [-> | (sx & sy & -> & ->)];
      [now repeat split |].
    split; [reflexivity |]. split; [reflexivity |].
    intros u. now destruct u as [| | b | z | s].
  - apply String.eqb_eq in H. subst. now repeat split.
Qed.

(** With two hits or more among entries of distinct keys, some hit lies
    under a key other than the given one. *)
Lemma another_hit (p : string * value -> bool) (d : object) (k : string) :
  NoDup (keys d) ->
  (1 < List.length (filter p d))%nat ->
  exists k' v', In (k', v') d /\ p (k', v') = true /\ k' <> k.
Proof.
  induction d as [| [k0 v0] rest IH]; cbn [filter keys map fst List.length];
    [lia |].
  intros Hnd Hcount. inversion Hnd as [| ? ? Hnotin Hnd']; subst.
  destruct (p (k0, v0)) eqn:Hp.
  - destruct (String.eqb_spec k0 k) as [-> | Hne].
    + cbn [List.length] in Hcount.
      destruct (filter p rest) as [| [k' v'] others] eqn:Hf;
        [cbn [List.length] in Hcount; lia |].
      assert (Hin : In (k', v') (filter p rest)) by (rewrite Hf; now left).
      apply filter_In in Hin as [Hin Hp'].
      exists k', v'. split; [now right |]. split; [exact Hp' |].
      intros ->. apply Hnotin. now apply (in_map fst) in Hin.
    + exists k0, v0. split; [now left |]. now split.
  - destruct (IH Hnd' Hcount) as (k' & v' & Hin & Hp' & Hne).
    exists k', v'. split; [now right |]. now split.
Qed.

(** X22.  A duplicate is reported on every field that holds it: when
    the uniqueness validator fails for the value of one field of a
    record, the record has another field holding a strictly equal
    value, and the validator fails for that field's value too, with
    the same message. *)
Theorem duplicates_fail_on_every_field_that_holds_them
        (rule : rule) (d : object) (k : string) :
  NoDup (keys d) ->
  passed (validateUniqueness rule (get d k) d) = false ->
  exists k',
    k' <> k
    /\ In k' (keys d)
    /\ strict_equals (get d k') (get d k) = true
    /\ validateUniqueness rule (get d k') d
       = validateUniqueness rule (get d k) d.
Proof.
  intros Hnd Hfail.
  destruct (is_nullish (get d k)) eqn:Hnull.
  { unfold validateUniqueness in Hfail. rewrite Hnull in Hfail.
    discriminate Hfail. }
  rewrite (validateUniqueness_occurrences rule (get d k) d Hnd Hnull)
    in Hfail.
  destruct (1 <? Spec.occurrences (get d k) d)%nat eqn:Hcount;
    [| discriminate Hfail].
  apply Nat.ltb_lt in Hcount. unfold Spec.occurrences in Hcount.
  destruct (another_hit _ d k Hnd Hcount) as (k' & v' & Hin & Heq & Hne).
  cbn [snd] in Heq.
  pose proof (get_of_entry d k' v' Hnd Hin) as Hget.
  destruct (strict_equals_congruence v' (get d k) Heq)
    as (Hnull' & Hstring & Hsame).
  exists k'. split; [exact Hne |]. split.
  { unfold keys. now apply (in_map fst) in Hin. }
  rewrite Hget. split; [exact Heq |].
  rewrite (validateUniqueness_occurrences rule v' d Hnd),
    (validateUniqueness_occurrences rule (get d k) d Hnd Hnull);
    [| now rewrite Hnull'].
  rewrite Hstring. unfold Spec.occurrences.
  now rewrite (filter_ext (fun kv => strict_equals (snd kv) v')
                          (fun kv => strict_equals (snd kv) (get d k))
                          (fun kv => Hsame (snd kv))).
Qed.

Lemma duplicates_fail_on_every_field_that_holds_them_witness :
  NoDup (keys [("id", VStr "123"); ("name", VStr "Ann");
               ("userId", VStr "123")])
  /\ exists k',
      k' <> "id"
      /\ In k' ["id"; "name"; "userId"]
      /\ strict_equals
           (get [("id", VStr "123"); ("name", VStr "Ann");
                 ("userId", VStr "123")] k') (VStr "123") = true.
Proof.
  assert (Hnd : NoDup (keys [("id", VStr "123"); ("name", VStr "Ann");
                             ("userId", VStr "123")])).
  { simpl. repeat constructor; simpl; intuition discriminate. }
  split; [exact Hnd |].
  destruct (duplicates_fail_on_every_field_that_holds_them
              Examples.unique_everywhere
              [("id", VStr "123"); ("name", VStr "Ann");
               ("userId", VStr "123")] "id" Hnd eq_refl)
    as (k' & Hne & Hin & Heq & _).
  exists k'. split; [exact Hne |]. split; [exact Hin | exact Heq].
Defined.

(* ================================================================== *)
(** *** The validation endpoint *)

Lemma partition_permutation {A : Type} (p : A -> bool) (l : list A) :
  Permutation l (filter p l ++ filter (fun x => negb (p x)) l).
Proof.
  induction l as [| x l IH]; cbn [filter app]; [constructor |].
  destruct (p x); cbn [negb app].
  - now constructor.
  - now apply Permutation_cons_app.
Qed.

Lemma none_failed {A : Type} (p : A -> bool) (l : list A) :
  (List.length (filter (fun x => negb (p x)) l) =? 0)%nat = forallb p l.
Proof.
  induction l as [| x l IH]; cbn [filter forallb List.length];
    [reflexivity |].
  destruct (p x); cbn [negb andb List.length]; [exact IH | reflexivity].
Qed.

(** X23.  The report of the endpoint accounts for every result of the
    run once: the [passed] and [failed] lists together are a
    rearrangement of the results, the first holding those that passed
    and the second those that failed; the summary counts the three
    lists, so [total = passed + failed]; and [valid] is true exactly
    when no result failed, whatever the severities. *)
Theorem report_accounts_for_every_result
        (h : Host.t) (rs : list rule) (d : object) (validationEngine : engine)
        (valid : bool) (passed failed : list ValidationResult)
        (summary : Server.summary) :
  Server.json (Server.post_validate h rs (Some d) validationEngine)
  = Server.Report valid passed failed summary ->
  exists results,
    Outline.returned (validate h d (loadRules rs validationEngine))
    = Normal results
    /\ Permutation results (passed ++ failed)
    /\ Forall (fun x => res_passed x = true) passed
    /\ Forall (fun x => res_passed x = false) failed
    /\ Server.total summary = List.length results
    /\ Server.passed_count summary = List.length passed
    /\ Server.failed_count summary = List.length failed
    /\ Server.total summary
       = (Server.passed_count summary + Server.failed_count summary)%nat
    /\ valid = forallb res_passed results
    /\ (valid = true <-> failed = []).
Proof.
  unfold Server.post_validate. cbv zeta.
  destruct (validate h d (loadRules rs validationEngine))
    as [[results this'] | e]; cbn [Server.json]; [| discriminate].
  intros [= <- <- <- <-]. exists results.
  pose proof (partition_permutation res_passed results) as Hperm.
  split; [reflexivity |]. split; [exact Hperm |].
  split.
  { apply Forall_forall. intros x Hin. now apply filter_In in Hin. }
  split.
  { apply Forall_forall. intros x Hin. apply filter_In in Hin as [_ H].
    now apply negb_true_iff in H. }
  cbn [Server.total Server.passed_count Server.failed_count].
  split; [reflexivity |]. split; [reflexivity |]. split; [reflexivity |].
  split.
  { rewrite (Permutation_length Hperm). apply List.length_app. }
  split; [apply none_failed |].
  rewrite Nat.eqb_eq. apply length_zero_iff_nil.
Qed.

Lemma report_accounts_for_every_result_witness :
  exists results,
    Outline.returned
      (validate RefHost.host [("age", Examples.num 15)]
         (loadRules [Examples.adult; Examples.age_range] constructor))
    = Normal results
    /\ List.length results = 2%nat.
Proof.
  destruct (report_accounts_for_every_result
              RefHost.host [Examples.adult; Examples.age_range]
              [("age", Examples.num 15)] constructor
              false
              (filter (fun r => res_passed r)
                 [Examples.adult_result_at_15;
                  Outline.result_of Examples.age_range "age"
                    (Examples.num 15)
                    {| passed := true; message := VStr "" |}])
              [Examples.adult_result_at_15]
              {| Server.total := 2; Server.passed_count := 1;
                 Server.failed_count := 1 |}
              eq_refl)
    as (results & Hrun & _ & _ & _ & Htotal & _).
  exists results. split; [exact Hrun |]. now rewrite <- Htotal.
Defined.

(** X24.  The endpoint answers 200 whenever the loaded rules are well
    shaped, their target patterns compile, and the record has no field
    named [hasOwnProperty]: no exception of the engine reaches its
    [catch] block then. *)
Theorem well_shaped_request_is_answered
        (h : Host.t) (rs : list rule) (d : object)
        (validationEngine : engine) :
  Spec.accepts_literals h ->
  own d "hasOwnProperty" = None ->
  Forall (fun r => Spec.well_shaped h r
                   /\ Spec.target_compiles h (target_field r)) rs ->
  Server.status (Server.post_validate h rs (Some d) validationEngine) = 200%nat
  /\ exists valid passed failed summary,
      Server.json (Server.post_validate h rs (Some d) validationEngine)
      = Server.Report valid passed failed summary.
Proof.
  intros Hlit Hown Hall. unfold Server.post_validate. cbv zeta.
  destruct (validate_returns h d (loadRules rs validationEngine)
              Hlit Hown Hall) as (results & this' & ->).
  split; [reflexivity |]. now eexists _, _, _, _.
Qed.

Lemma well_shaped_request_is_answered_witness :
  Spec.accepts_literals RefHost.host
  /\ Server.status
       (Server.post_validate RefHost.host [Examples.age_range]
          (Some [("age", Examples.num 30)]) constructor) = 200%nat.
Proof.
  split; [exact reference_host_accepts_literals |].
  apply (well_shaped_request_is_answered
           RefHost.host [Examples.age_range] [("age", Examples.num 30)]
           constructor reference_host_accepts_literals eq_refl).
  apply Forall_cons; [split | apply Forall_nil].
  - eexists. split; [reflexivity |]. split; [discriminate |].
    intros tc Htc. discriminate Htc.
  - right. left. reflexivity.
Defined.

Lemma of_rules_empty (h : Host.t) (rs : list rule) :
  Forall (fun r => Spec.target_compiles h (target_field r)) rs ->
  Outline.of_rules h rs [] = Normal [].
Proof.
  intros Hall. induction Hall as [| r rest Htarget _ IH];
    cbn [Outline.of_rules]; [reflexivity |].
  destruct (Outline.is_enabled r); [| exact IH].
  destruct (findMatchingFields_returns h (target_field r) [] Htarget eq_refl)
    as [fields Hfields].
  destruct (findMatchingFields_within h _ [] fields Hfields) as [_ Hlen].
  destruct fields; [| cbn [List.length] in Hlen; lia].
  unfold Outline.of_rule. rewrite Hfields. cbn [bind Outline.on_fields].
  now rewrite IH.
Qed.

(** X25.  The empty record is reported valid under every rule set whose
    target patterns compile, [required] completeness rules included: no
    rule finds a field to run on, no configuration is read, and the
    endpoint answers 200 with empty lists and a summary of zeros. *)
Theorem empty_record_is_reported_valid
        (h : Host.t) (rs : list rule) (validationEngine : engine) :
  Forall (fun r => Spec.target_compiles h (target_field r)) rs ->
  validate h [] (loadRules rs validationEngine)
  = Normal ([], {| rules := rs; results := [] |})
  /\ Server.post_validate h rs (Some []) validationEngine
     = {| Server.status := 200;
          Server.json :=
            Server.Report true [] []
              {| Server.total := 0; Server.passed_count := 0;
                 Server.failed_count := 0 |} |}.
Proof.
  intros Hall.
  assert (Hrun : validate h [] (loadRules rs validationEngine)
                 = Normal ([], {| rules := rs; results := [] |})).
  { rewrite validate_outline. cbn [loadRules rules].
    now rewrite (of_rules_empty h rs Hall). }
  split; [exact Hrun |].
  unfold Server.post_validate. cbv zeta. now rewrite Hrun.
Qed.

Lemma empty_record_is_reported_valid_witness :
  validate RefHost.host []
    (loadRules [Examples.all_required; Examples.name_complete] constructor)
  = Normal ([], {| rules := [Examples.all_required; Examples.name_complete];
                   results := [] |}).
Proof.
  apply (empty_record_is_reported_valid
           RefHost.host [Examples.all_required; Examples.name_complete]
           constructor).
  apply Forall_cons; [now left |].
  apply Forall_cons; [right; left; reflexivity | apply Forall_nil].
Defined.

(* ================================================================== *)
(** *** Messages of a run *)

(** X26.  In the results of a run, a failed result carries a message
    that is a non-empty string, unless it comes from a loaded
    cross-field rule in legacy mode. *)
Theorem failed_results_are_explained_outside_legacy_mode
        (h : Host.t) (d : object) (this this' : engine)
        (res : list ValidationResult) (x : ValidationResult) :
  validate h d this = Normal (res, this') ->
  In x res ->
  res_passed x = false ->
  Spec.populated (res_message x)
  \/ exists r,
      In r (rules this)
      /\ Spec.legacy_mode r
      /\ res_ruleId x = id r
      /\ res_ruleName x = name r.
Proof.
  intros Hrun Hin Hfailed.
  destruct (of_rules_member h d (rules this) res x
              (validate_results h d this this' res Hrun) Hin)
    as (r & f & o & Hr & _ & _ & He & ->).
  cbn [Outline.result_of res_passed res_message res_ruleId res_ruleName]
    in *.
  destruct (failure_is_explained_unless_legacy h r (get d f) d o He Hfailed)
    as [Hpopulated | Hlegacy]; [now left |].
  right. exists r. split; [exact Hr |]. split; [exact Hlegacy |]. now split.
Qed.

Lemma failed_results_are_explained_outside_legacy_mode_witness :
  validate RefHost.host [("age", Examples.num 200)]
    (loadRules [Examples.age_range] constructor)
  = Normal ([Outline.result_of Examples.age_range "age" (Examples.num 200)
               (fail "Value 200 is above maximum limit of 150")],
            {| rules := [Examples.age_range];
               results :=
                 [Outline.result_of Examples.age_range "age"
                    (Examples.num 200)
                    (fail "Value 200 is above maximum limit of 150")] |})
  /\ (Spec.populated (VStr "Value 200 is above maximum limit of 150")
      \/ exists r,
          In r [Examples.age_range]
          /\ Spec.legacy_mode r
          /\ VStr "range-rule" = id r
          /\ VStr "range" = name r).
Proof.
  split; [vm_compute; reflexivity |].
  exact (failed_results_are_explained_outside_legacy_mode
           RefHost.host [("age", Examples.num 200)]
           (loadRules [Examples.age_range] constructor)
           {| rules := [Examples.age_range];
              results :=
                [Outline.result_of Examples.age_range "age"
                   (Examples.num 200)
                   (fail "Value 200 is above maximum limit of 150")] |}
           [Outline.result_of Examples.age_range "age" (Examples.num 200)
              (fail "Value 200 is above maximum limit of 150")]
           (Outline.result_of Examples.age_range "age" (Examples.num 200)
              (fail "Value 200 is above maximum limit of 150"))
           eq_refl (or_introl eq_refl) eq_refl).
Defined.
